(** * Dutch-QR attendance engine: a shallow embedding of
      [src/utils/attendanceUtils.ts] and the properties of its recorder,
      calculators, uniqueness guard and summary.

    Conventions of the embedding.
    - A JavaScript [Date] is its epoch value in milliseconds ([Z]); an
      Invalid Date is [None].  A timestamp column of the store is
      [option Z]: [null], or the instant its ISO string denotes
      ([toISOString] and [new Date(iso)] are inverse at millisecond
      resolution, so the string layer is left out).
    - A JavaScript number is a binary64 value ([F64.t]): [NaN], an
      infinity, or a finite double kept as the rational it denotes.
      Every arithmetic operation rounds its exact result to the nearest
      double, ties to even.  Minute counts that the source floors, and
      so are whole or [NaN], are handed on as [option Z].
    - Local time follows ECMAScript: a zone ([Clock.Zone]) gives the
      offset in force at an instant and the offset by which a local time
      is read back, and these may differ from day to day.
    - Worked hours ([calculateActualHours]) are whole minutes divided by
      60, given as rationals ([Q]). *)

From Stdlib Require Import ZArith List String Ascii Bool Lia QArith Qround Qabs
  Qreduction Lqa.
Import ListNotations.
Local Open Scope string_scope.
Local Open Scope Z_scope.

(* ===================================================================== *)
(** ** JavaScript numbers *)
(* ===================================================================== *)

(** IEEE 754 binary64, by value.  Zero carries no sign: the source
    divides only by the constants 60 and 60000, and a zero it stores is
    written the same with either sign. *)
Module F64.

Inductive t :=
  | NaN
  | Inf (negative : bool)
  | Fin (q : Q).

(** [q * 2^k] *)
Definition scale (q : Q) (k : Z) : Q :=
  if 0 <=? k then (q * inject_Z (2 ^ k))%Q else (q / inject_Z (2 ^ (- k)))%Q.

(** The binary exponent of a positive rational: [floor (log2 q)]. *)
Definition ilog2 (q : Q) : Z :=
  let d := Z.log2 (Qnum q) - Z.log2 (Zpos (Qden q)) in
  if Qle_bool (scale 1 d) q then d else d - 1.

(** The nearest integer, a tie going to the even one. *)
Definition half_even (q : Q) : Z :=
  let f := Qfloor q in
  match (q - inject_Z f ?= 1 # 2)%Q with
  | Lt => f
  | Gt => f + 1
  | Eq => if Z.even f then f else f + 1
  end.

(** The double nearest to a positive rational: 53 significant bits,
    exponents from -1074 (subnormal numbers included), and infinity from
    2^1024 on. *)
Definition round_pos (q : Q) : t :=
  let k := Z.max (ilog2 q - 52) (-1074) in
  let r := scale (inject_Z (half_even (scale q (- k)))) k in
  if Qle_bool (scale 1 1024) r then Inf false else Fin (Qred r).

Definition neg (x : t) : t :=
  match x with
  | NaN => NaN
  | Inf negative => Inf (negb negative)
  | Fin q => Fin (- q)
  end.

(** The double nearest to a rational. *)
Definition round (q : Q) : t :=
  let q := Qred q in
  match (q ?= 0)%Q with
  | Eq => Fin 0
  | Gt => round_pos q
  | Lt => neg (round_pos (- q))
  end.

(** A number given as an integer. *)
Definition of_Z (z : Z) : t := round (inject_Z z).

Definition is_finite (x : t) : bool :=
  match x with Fin _ => true | _ => false end.

(** [x + y] *)
Definition add (x y : t) : t :=
  match x, y with
  | NaN, _ | _, NaN => NaN
  | Inf a, Inf b => if Bool.eqb a b then Inf a else NaN
  | Inf a, Fin _ => Inf a
  | Fin _, Inf b => Inf b
  | Fin p, Fin q => round (p + q)
  end.

(** [x - y] *)
Definition sub (x y : t) : t := add x (neg y).

Definition negative (q : Q) : bool := negb (Qle_bool 0 q).

(** [x * y] *)
Definition mul (x y : t) : t :=
  match x, y with
  | NaN, _ | _, NaN => NaN
  | Inf a, Inf b => Inf (xorb a b)
  | Inf a, Fin q | Fin q, Inf a =>
      if Qeq_bool q 0 then NaN else Inf (xorb a (negative q))
  | Fin p, Fin q => round (p * q)
  end.

(** [x / y] *)
Definition div (x y : t) : t :=
  match x, y with
  | NaN, _ | _, NaN => NaN
  | Inf _, Inf _ => NaN
  | Inf a, Fin q => Inf (xorb a (negative q))
  | Fin _, Inf _ => Fin 0
  | Fin p, Fin q =>
      if Qeq_bool q 0
      then if Qeq_bool p 0 then NaN else Inf (negative p)
      else round (p / q)
  end.

(** [Math.floor(x)] *)
Definition floor (x : t) : t :=
  match x with
  | Fin q => Fin (inject_Z (Qfloor q))
  | _ => x
  end.

(** The integer part, towards zero. *)
Definition truncate (q : Q) : Z :=
  if Qle_bool 0 q then Qfloor q else Qceiling q.

(** [Math.max(x, y)] *)
Definition max (x y : t) : t :=
  match x, y with
  | NaN, _ | _, NaN => NaN
  | Inf false, _ | _, Inf false => Inf false
  | Inf true, z | z, Inf true => z
  | Fin p, Fin q => if Qle_bool p q then Fin q else Fin p
  end.

(** A number that is whole or [NaN], as [option Z]. *)
Definition whole (x : t) : option Z :=
  match x with
  | Fin q => Some (Qfloor q)
  | _ => None
  end.

(** [JSON.stringify] of a number: [NaN] and the infinities are written
    as [null]. *)
Definition json (x : t) : option Q :=
  match x with
  | Fin q => Some q
  | _ => None
  end.

(** The double that is the whole number [z], for [z] below 2^53 in
    magnitude. *)
Definition int (z : Z) : t := Fin (inject_Z z).

(** [ToIntegerOrInfinity(x)] *)
Definition ToIntegerOrInfinity (x : t) : t :=
  match x with
  | NaN => Fin 0
  | Inf _ => x
  | Fin q => Fin (inject_Z (truncate q))
  end.

End F64.

(* ===================================================================== *)
(** ** JavaScript helpers used by the source *)
(* ===================================================================== *)

(** Texts are sequences of code units below 256. *)
Module JS.

(** [s.split(':')] *)
Fixpoint split_colon (s : string) : list string :=
  match s with
  | EmptyString => [EmptyString]
  | String c rest =>
      if Ascii.eqb c ":"%char then EmptyString :: split_colon rest
      else match split_colon rest with
           | [] => [String c EmptyString]
           | hd :: tl => String c hd :: tl
           end
  end.

Definition code (c : ascii) : Z := Z.of_N (N_of_ascii c).

(** White space and line terminators: TAB, LF, VT, FF, CR, SP, NBSP. *)
Definition is_space (c : ascii) : bool :=
  let n := code c in
  ((9 <=? n) && (n <=? 13)) || (n =? 32) || (n =? 160).

Fixpoint trim_start (s : string) : string :=
  match s with
  | EmptyString => EmptyString
  | String c rest => if is_space c then trim_start rest else s
  end.

Fixpoint trim_end (s : string) : string :=
  match s with
  | EmptyString => EmptyString
  | String c rest =>
      match trim_end rest with
      | EmptyString => if is_space c then EmptyString else String c EmptyString
      | kept => String c kept
      end
  end.

(** The value of a digit in a base up to 16. *)
Definition digit (base : Z) (c : ascii) : option Z :=
  let n := code c in
  let v := if (48 <=? n) && (n <=? 57) then n - 48
           else if (97 <=? n) && (n <=? 102) then n - 87
           else if (65 <=? n) && (n <=? 70) then n - 55
           else base in
  if v <? base then Some v else None.

(** The longest run of digits at the head of a text: the value it gives
    when appended to [acc], its length, and what follows it. *)
Fixpoint digits (base acc len : Z) (s : string) : Z * Z * string :=
  match s with
  | EmptyString => (acc, len, EmptyString)
  | String c rest =>
      match digit base c with
      | Some d => digits base (base * acc + d) (len + 1) rest
      | None => (acc, len, s)
      end
  end.

(** [10^k] *)
Definition pow10 (k : Z) : Q :=
  if 0 <=? k then inject_Z (10 ^ k) else (1 / inject_Z (10 ^ (- k)))%Q.

(** The digits after [0x], [0o] or [0b]. *)
Definition integer_literal (base : Z) (s : string) : F64.t :=
  match digits base 0 0 s with
  | (v, len, EmptyString) => if 0 <? len then F64.round (inject_Z v) else F64.NaN
  | _ => F64.NaN
  end.

(** An optional exponent part [e|E] [+|-] digits: its value and what
    follows it; [None] when the digits are missing. *)
Definition exponent_part (s : string) : option (Z * string) :=
  match s with
  | String c rest =>
      if Ascii.eqb c "e"%char || Ascii.eqb c "E"%char then
        let '(minus, rest) :=
          match rest with
          | String sign after =>
              if Ascii.eqb sign "-"%char then (true, after)
              else if Ascii.eqb sign "+"%char then (false, after)
              else (false, rest)
          | EmptyString => (false, rest)
          end in
        let '(v, len, after) := digits 10 0 0 rest in
        if 0 <? len then Some (if minus then - v else v, after) else None
      else Some (0, s)
  | EmptyString => Some (0, s)
  end.

(** An unsigned decimal literal: [Infinity], or digits with an optional
    fraction and exponent, one digit at least before the exponent. *)
Definition decimal_literal (s : string) : F64.t :=
  if String.eqb s "Infinity" then F64.Inf false
  else
    let '(whole, wholeLength, rest) := digits 10 0 0 s in
    let '(mantissa, fractionLength, rest) :=
      match rest with
      | String c after =>
          if Ascii.eqb c "."%char then digits 10 whole 0 after else (whole, 0, rest)
      | EmptyString => (whole, 0, rest)
      end in
    if wholeLength + fractionLength =? 0 then F64.NaN
    else
      match exponent_part rest with
      | Some (exponent, EmptyString) =>
          F64.round (inject_Z mantissa * pow10 (exponent - fractionLength))
      | _ => F64.NaN
      end.

(** [Number(s)]: white space is trimmed; the empty text reads as 0; a
    text is a hexadecimal, octal or binary integer, or a signed decimal
    literal; any other text reads as [NaN]. *)
Definition Number (s : string) : F64.t :=
  match trim_end (trim_start s) with
  | EmptyString => F64.Fin 0
  | String c rest as text =>
      if Ascii.eqb c "-"%char then F64.neg (decimal_literal rest)
      else if Ascii.eqb c "+"%char then decimal_literal rest
      else
        match rest with
        | String x after =>
            if Ascii.eqb c "0"%char && (Ascii.eqb x "x"%char || Ascii.eqb x "X"%char)
            then integer_literal 16 after
            else if Ascii.eqb c "0"%char && (Ascii.eqb x "o"%char || Ascii.eqb x "O"%char)
            then integer_literal 8 after
            else if Ascii.eqb c "0"%char && (Ascii.eqb x "b"%char || Ascii.eqb x "B"%char)
            then integer_literal 2 after
            else decimal_literal text
        | EmptyString => decimal_literal text
        end
  end.

(** [hay.includes(needle)] *)
Fixpoint includes (needle hay : string) : bool :=
  if String.prefix needle hay then true
  else match hay with
       | EmptyString => false
       | String _ rest => includes needle rest
       end.

(** Truthiness of a nullable column value. *)
Definition truthy {A : Type} (o : option A) : bool :=
  match o with Some _ => true | None => false end.

(** [const [a, b] = text.split(':').map(Number)]: a missing component is
    [undefined], which every later use turns into [NaN]. *)
Definition clock_fields (text : string) : F64.t * F64.t :=
  match map Number (split_colon text) with
  | a :: b :: _ => (a, b)
  | [a] => (a, F64.NaN)
  | [] => (F64.NaN, F64.NaN)
  end.

End JS.

(* ===================================================================== *)
(** ** Dates and local time *)
(* ===================================================================== *)

Module Clock.

Definition msPerSecond : Z := 1000.
Definition msPerMinute : Z := 1000 * 60.
Definition msPerHour : Z := 1000 * 60 * 60.
Definition msPerDay : Z := 1000 * 60 * 60 * 24.

(** [d.toISOString().split('T')[0]]: the UTC calendar day, as a day
    number since the epoch. *)
Definition isoDate (t : Z) : Z := t / msPerDay.

(** The time zone of the process.  [offset_at t] is the offset from UTC,
    in milliseconds, in force at the instant [t]; [offset_of l] is the
    offset by which the local time [l] is read back as an instant (where
    local times repeat or are skipped, ECMAScript takes the offset in
    force before the change). *)
Record Zone := mkZone {
  offset_at : Z -> Z;
  offset_of : Z -> Z
}.

(** A zone that never changes its offset. *)
Definition fixed (offset : Z) : Zone := mkZone (fun _ => offset) (fun _ => offset).

Definition utc : Zone := fixed 0.

(** [LocalTime(t)] *)
Definition LocalTime (zone : Zone) (t : Z) : Z := t + offset_at zone t.

(** [Day(t)] *)
Definition Day (t : Z) : Z := t / msPerDay.

(** The local calendar day of an instant. *)
Definition localDay (zone : Zone) (t : Z) : Z := Day (LocalTime zone t).

(** [MakeTime(hour, min, sec, ms)] *)
Definition MakeTime (hour min sec ms : F64.t) : F64.t :=
  if F64.is_finite hour && F64.is_finite min && F64.is_finite sec && F64.is_finite ms
  then
    let h := F64.ToIntegerOrInfinity hour in
    let m := F64.ToIntegerOrInfinity min in
    let s := F64.ToIntegerOrInfinity sec in
    let milli := F64.ToIntegerOrInfinity ms in
    F64.add
      (F64.add
         (F64.add (F64.mul h (F64.int msPerHour)) (F64.mul m (F64.int msPerMinute)))
         (F64.mul s (F64.int msPerSecond)))
      milli
  else F64.NaN.

(** [MakeDate(day, time)] *)
Definition MakeDate (day time : F64.t) : F64.t :=
  if F64.is_finite day && F64.is_finite time
  then
    let tv := F64.add (F64.mul day (F64.int msPerDay)) time in
    if F64.is_finite tv then tv else F64.NaN
  else F64.NaN.

(** [UTC(t)], for a local time that is a whole number of milliseconds. *)
Definition UTC (zone : Zone) (t : F64.t) : F64.t :=
  match t with
  | F64.Fin q => F64.sub t (F64.of_Z (offset_of zone (Qfloor q)))
  | _ => F64.NaN
  end.

(** [TimeClip(time)]: a time value is at most 8.64e15 in magnitude. *)
Definition TimeClip (time : F64.t) : option Z :=
  match time with
  | F64.Fin q =>
      if Qle_bool (Qabs q) (inject_Z 8640000000000000)
      then Some (F64.truncate q) else None
  | _ => None
  end.

(** [d.getTime()] *)
Definition getTime (d : option Z) : F64.t :=
  match d with
  | Some t => F64.int t
  | None => F64.NaN
  end.

(** [d.setHours(hour, min, 0, 0)]: the date it leaves in [d]. *)
Definition setHours (zone : Zone) (d : option Z) (hour min : F64.t) : option Z :=
  match d with
  | None => None
  | Some t =>
      let t := LocalTime zone t in
      let date := MakeDate (F64.int (Day t)) (MakeTime hour min (F64.int 0) (F64.int 0)) in
      TimeClip (UTC zone date)
  end.

(** The instant that is read off wall clock [h]:[m] of local day [day]. *)
Definition atLocal (zone : Zone) (day h m : Z) : Z :=
  let local := day * msPerDay + h * msPerHour + m * msPerMinute in
  local - offset_of zone local.

(** An offset is less than a day. *)
Definition sane (zone : Zone) : Prop :=
  forall t, Z.abs (offset_at zone t) < msPerDay /\ Z.abs (offset_of zone t) < msPerDay.

(** The instant [t] shows wall clock [H]:[M] and [s] milliseconds on
    local day [day]. *)
Definition shows (zone : Zone) (t day H M s : Z) : Prop :=
  LocalTime zone t = day * msPerDay + H * msPerHour + M * msPerMinute + s.

(** Wall clock [h]:[m] of local day [day] is read back with the offset
    in force at the instant [t]: the zone does not change its offset
    between the two. *)
Definition steady (zone : Zone) (t day h m : Z) : Prop :=
  offset_of zone (day * msPerDay + h * msPerHour + m * msPerMinute) = offset_at zone t.

(** Instants within 2^50 ms (some 35 000 years) of the epoch, and clock
    fields, grace periods and thresholds up to 2^30: on these every
    step of the clock calculators is exact. *)
Definition recent (t : Z) : Prop := Z.abs t <= 2 ^ 50.

Definition modest (z : Z) : Prop := Z.abs z <= 2 ^ 30.

End Clock.

(* ===================================================================== *)
(** ** Data model *)
(* ===================================================================== *)

Module Employee.
Record t := mk {
  id : string;
  first_name : string;
  last_name : string;
  status : string
}.
End Employee.

Module Roster.
Record t := mk {
  id : string;
  start_time : string;
  end_time : string;
  break_duration : Z;
  grace_period : Z;
  early_departure_threshold : Z
}.
End Roster.

Inductive AttendanceAction :=
  | first_check_in
  | first_check_out
  | second_check_in
  | second_check_out
  | completed.

(** A row of the [attendance] table.  [date] is the calendar day
    ('YYYY-MM-DD') as a day number; [check_in_time] and [check_out_time]
    are the columns the uniqueness guard and the [check_valid_times]
    constraint refer to. *)
Module Attendance.
Record t := mk {
  id : nat;
  employee_id : string;
  roster_id : string;
  date : Z;
  first_check_in_time : option Z;
  first_check_out_time : option Z;
  second_check_in_time : option Z;
  second_check_out_time : option Z;
  check_in_time : option Z;
  check_out_time : option Z;
  is_second_session : bool;
  previous_session_id : option nat;
  status : string;
  minutes_late : option Z;
  early_departure_minutes : option Z;
  break_duration : Z;
  expected_hours : option Q;
  actual_hours : option Q;
  last_action : option Z;
  created_at : Z
}.
End Attendance.

(** The object literal [attendanceData] handed to [insert] / [upsert], as
    it is serialised: a number that is [NaN] or infinite is written as
    [null].  [id = None] is a key that is absent or [undefined]. *)
Module AttendanceData.
Record t := mk {
  id : option nat;
  employee_id : string;
  roster_id : string;
  date : Z;
  first_check_in_time : option Z;
  first_check_out_time : option Z;
  second_check_in_time : option Z;
  second_check_out_time : option Z;
  is_second_session : bool;
  previous_session_id : option nat;
  status : string;
  minutes_late : option Z;
  early_departure_minutes : option Z;
  break_duration : Z;
  expected_hours : option Q;
  last_action : Z
}.
End AttendanceData.

(** What a thrown value is: an [AttendanceError] of the module, or any
    other [Error]; both carry a message. *)
Inductive Exn :=
  | AttendanceError (message : string)
  | OtherError (message : string).

(* ===================================================================== *)
(** ** Time & metrics calculators *)
(* ===================================================================== *)

Section Calculators.

Variable tz : Clock.Zone.

(** [calculateLateness(currentTime, rosterStartTime, gracePeriod)]; the
    result is a floor less a whole grace period, so whole or [NaN]. *)
Definition calculateLateness (currentTime : option Z) (rosterStartTime : string)
    (gracePeriod : Z) : option Z :=
  let '(hours, minutes) := JS.clock_fields rosterStartTime in
  let startTime := Clock.setHours tz currentTime hours minutes in
  let lateMinutes :=
    F64.floor (F64.div (F64.sub (Clock.getTime currentTime) (Clock.getTime startTime))
                 (F64.mul (F64.int 1000) (F64.int 60))) in
  F64.whole (F64.max (F64.int 0) (F64.sub lateMinutes (F64.of_Z gracePeriod))).

(** [calculateEarlyDeparture(currentTime, rosterEndTime, threshold)] *)
Definition calculateEarlyDeparture (currentTime : option Z) (rosterEndTime : string)
    (threshold : Z) : option Z :=
  let '(hours, minutes) := JS.clock_fields rosterEndTime in
  let endTime := Clock.setHours tz currentTime hours minutes in
  let earlyMinutes :=
    F64.floor (F64.div (F64.sub (Clock.getTime endTime) (Clock.getTime currentTime))
                 (F64.mul (F64.int 1000) (F64.int 60))) in
  F64.whole (F64.max (F64.int 0) (F64.sub earlyMinutes (F64.of_Z threshold))).

End Calculators.

Definition Qmax0 (q : Q) : Q := if Qle_bool 0 q then q else 0%Q.

(** [calculateExpectedHours(startTime, endTime, breakDuration)] *)
Definition calculateExpectedHours (startTime endTime : string) (breakDuration : Z)
    : F64.t :=
  let '(startHours, startMinutes) := JS.clock_fields startTime in
  let '(endHours, endMinutes) := JS.clock_fields endTime in
  let totalMinutes :=
    F64.sub
      (F64.sub (F64.add (F64.mul endHours (F64.int 60)) endMinutes)
         (F64.add (F64.mul startHours (F64.int 60)) startMinutes))
      (F64.of_Z breakDuration) in
  F64.max (F64.int 0) (F64.div totalMinutes (F64.int 60)).

(** The four session columns, as [calculateActualHours] reads them off
    its [record: any] argument ([None] for the whole record is
    [null]/[undefined]). *)
Record Sessions := mkSessions {
  s_first_check_in_time : option Z;
  s_first_check_out_time : option Z;
  s_second_check_in_time : option Z;
  s_second_check_out_time : option Z
}.

(** [calculateActualHours(record, currentTime, breakDuration)] *)
Definition calculateActualHours (record : option Sessions) (currentTime : Z)
    (breakDuration : Z) : Q :=
  match record with
  | None => 0%Q
  | Some record =>
    match s_first_check_in_time record with
    | None => 0%Q
    | Some firstCheckIn =>
        let totalMinutes := 0 in
        let totalMinutes :=
          match s_first_check_out_time record with
          | Some firstCheckOut =>
              totalMinutes + (firstCheckOut - firstCheckIn) / (1000 * 60)
          | None => totalMinutes
          end in
        let totalMinutes :=
          match s_second_check_in_time record with
          | Some secondCheckIn =>
              match s_second_check_out_time record with
              | Some secondCheckOut =>
                  totalMinutes + (secondCheckOut - secondCheckIn) / (1000 * 60)
              | None =>
                  totalMinutes + (currentTime - secondCheckIn) / (1000 * 60)
              end
          | None => totalMinutes
          end in
        Qmax0 (inject_Z (totalMinutes - breakDuration) / 60)
    end
  end.

(** The worded contract of [actualHours]: completed sessions contribute
    checkout - checkin, an open session (first or second) contributes
    now - checkin, the break is subtracted and the result floored at 0.
    Written from the specification, to be compared with
    [calculateActualHours]. *)
Definition session_ms (checkin checkout : option Z) (now : Z) : Z :=
  match checkin, checkout with
  | Some i, Some o => o - i
  | Some i, None => now - i
  | None, _ => 0
  end.

Definition actualHours_spec (record : Sessions) (now breakMinutes : Z) : Q :=
  let total :=
    session_ms (s_first_check_in_time record) (s_first_check_out_time record) now
    + session_ms (s_second_check_in_time record) (s_second_check_out_time record) now in
  Qmax0 ((inject_Z total / 60000 - inject_Z breakMinutes) / 60).

(** Every session of a record lasts a whole number of minutes. *)
Definition whole_minutes (record : Sessions) (now : Z) : Prop :=
  (session_ms (s_first_check_in_time record) (s_first_check_out_time record) now
   mod 60000 = 0)
  /\ (session_ms (s_second_check_in_time record) (s_second_check_out_time record) now
      mod 60000 = 0).


(* ===================================================================== *)
(** ** The record store (the Supabase client) *)
(* ===================================================================== *)

Module Pg.

(** A [PostgrestError]; only its message is inspected by the source. *)
Record PgError := mkError { message : string; code : string }.

(** What awaiting a query gives: the [{ data, error }] object, or a
    rejection of the promise. *)
Inductive Reply (A : Type) :=
  | Resolved (data : option A) (error : option PgError)
  | Rejected (e : Exn).
Arguments Resolved {A} data error.
Arguments Rejected {A} e.

Definition not_one_row : PgError :=
  mkError "JSON object requested, multiple (or no) rows returned" "PGRST116".

(** [.single()]: exactly one row, else an error. *)
Definition single {A : Type} (rows : list A) : Reply A :=
  match rows with
  | [r] => Resolved (Some r) None
  | _ => Resolved None (Some not_one_row)
  end.

(** [.maybeSingle()]: no row is [null] without error, several rows are an
    error. *)
Definition maybeSingle {A : Type} (rows : list A) : Reply A :=
  match rows with
  | [] => Resolved None None
  | [r] => Resolved (Some r) None
  | _ => Resolved None (Some not_one_row)
  end.

(** A failing store: it answers every request with an error object, or
    the request itself rejects. *)
Inductive Outage :=
  | Refuses (e : PgError)
  | Crashes (message : string).

End Pg.

Record Store := mkStore {
  employees : list Employee.t;
  attendance : list Attendance.t;
  next_id : nat;
  outage : option Pg.Outage
}.

Inductive EventKind := CheckIn | CheckOut.

Module Query.

Definition answer {A : Type} (st : Store) (r : Pg.Reply A) : Pg.Reply A :=
  match outage st with
  | None => r
  | Some (Pg.Refuses e) => Pg.Resolved None (Some e)
  | Some (Pg.Crashes m) => Pg.Rejected (OtherError m)
  end.

(** [from('employees').select(..).eq('id', employeeId).single()] *)
Definition employee_by_id (employeeId : string) (st : Store) : Pg.Reply Employee.t :=
  answer st
    (Pg.single (filter (fun e => String.eqb (Employee.id e) employeeId) (employees st))).

(** [from('employees').select('id, status').eq('status', 'active')] *)
Definition active_employees (st : Store) : Pg.Reply (list Employee.t) :=
  answer st
    (Pg.Resolved
       (Some (filter (fun e => String.eqb (Employee.status e) "active") (employees st)))
       None).

Definition of_day (employee_id : string) (day : Z) (r : Attendance.t) : bool :=
  String.eqb (Attendance.employee_id r) employee_id && (Attendance.date r =? day).

(** [from('attendance').select('*').eq('employee_id', e).eq('date', today).maybeSingle()] *)
Definition attendance_of_day (employee_id : string) (today : Z) (st : Store)
    : Pg.Reply Attendance.t :=
  answer st (Pg.maybeSingle (filter (of_day employee_id today) (attendance st))).

(** [from('attendance').select('*').eq('date', today)] *)
Definition attendance_on (today : Z) (st : Store) : Pg.Reply (list Attendance.t) :=
  answer st
    (Pg.Resolved (Some (filter (fun r => Attendance.date r =? today) (attendance st))) None).

(** [.order('created_at', { ascending: false }).limit(1)]: the row created
    last (the earlier row of the table on a tie). *)
Fixpoint newest (rows : list Attendance.t) : list Attendance.t :=
  match rows with
  | [] => []
  | r :: rest =>
      match newest rest with
      | [r'] => if Attendance.created_at r <? Attendance.created_at r' then [r'] else [r]
      | _ => [r]
      end
  end.

(** The guard's first query: the employee's last row of the day. *)
Definition last_of_day (employee_id : string) (today : Z) (st : Store)
    : Pg.Reply Attendance.t :=
  answer st (Pg.maybeSingle (newest (filter (of_day employee_id today) (attendance st)))).

Definition stamped (type : EventKind) (t : Z) (r : Attendance.t) : bool :=
  match (match type with
         | CheckIn => Attendance.check_in_time r
         | CheckOut => Attendance.check_out_time r
         end) with
  | Some t' => t' =? t
  | None => false
  end.

(** The guard's probe:
    [.eq('employee_id', e).or('check_in_time.eq.T' | 'check_out_time.eq.T').maybeSingle()] *)
Definition same_stamp (employee_id : string) (type : EventKind) (t : Z) (st : Store)
    : Pg.Reply Attendance.t :=
  answer st
    (Pg.maybeSingle
       (filter (fun r => String.eqb (Attendance.employee_id r) employee_id && stamped type t r)
               (attendance st))).

End Query.

(** Writes.  The constraints the table carries ([valid_check_times],
    [unique_daily_attendance], ...) live in the store, not in this
    module: [violates table row] is the store's verdict on writing [row]
    next to the other rows [table]. *)
Section Writes.

Variable violates : list Attendance.t -> Attendance.t -> option Pg.PgError.

(** The row a payload creates; columns the payload does not name take
    their defaults, [created_at] the time of the write. *)
Definition new_row (key : nat) (d : AttendanceData.t) (now : Z) : Attendance.t :=
  {| Attendance.id := key;
     Attendance.employee_id := AttendanceData.employee_id d;
     Attendance.roster_id := AttendanceData.roster_id d;
     Attendance.date := AttendanceData.date d;
     Attendance.first_check_in_time := AttendanceData.first_check_in_time d;
     Attendance.first_check_out_time := AttendanceData.first_check_out_time d;
     Attendance.second_check_in_time := AttendanceData.second_check_in_time d;
     Attendance.second_check_out_time := AttendanceData.second_check_out_time d;
     Attendance.check_in_time := None;
     Attendance.check_out_time := None;
     Attendance.is_second_session := AttendanceData.is_second_session d;
     Attendance.previous_session_id := AttendanceData.previous_session_id d;
     Attendance.status := AttendanceData.status d;
     Attendance.minutes_late := AttendanceData.minutes_late d;
     Attendance.early_departure_minutes := AttendanceData.early_departure_minutes d;
     Attendance.break_duration := AttendanceData.break_duration d;
     Attendance.expected_hours := AttendanceData.expected_hours d;
     Attendance.actual_hours := None;
     Attendance.last_action := Some (AttendanceData.last_action d);
     Attendance.created_at := now |}.

(** The row an update leaves: the payload's columns overwrite, the other
    columns stay. *)
Definition updated_row (old : Attendance.t) (d : AttendanceData.t) : Attendance.t :=
  {| Attendance.id := Attendance.id old;
     Attendance.employee_id := AttendanceData.employee_id d;
     Attendance.roster_id := AttendanceData.roster_id d;
     Attendance.date := AttendanceData.date d;
     Attendance.first_check_in_time := AttendanceData.first_check_in_time d;
     Attendance.first_check_out_time := AttendanceData.first_check_out_time d;
     Attendance.second_check_in_time := AttendanceData.second_check_in_time d;
     Attendance.second_check_out_time := AttendanceData.second_check_out_time d;
     Attendance.check_in_time := Attendance.check_in_time old;
     Attendance.check_out_time := Attendance.check_out_time old;
     Attendance.is_second_session := AttendanceData.is_second_session d;
     Attendance.previous_session_id := AttendanceData.previous_session_id d;
     Attendance.status := AttendanceData.status d;
     Attendance.minutes_late := AttendanceData.minutes_late d;
     Attendance.early_departure_minutes := AttendanceData.early_departure_minutes d;
     Attendance.break_duration := AttendanceData.break_duration d;
     Attendance.expected_hours := AttendanceData.expected_hours d;
     Attendance.actual_hours := Attendance.actual_hours old;
     Attendance.last_action := Some (AttendanceData.last_action d);
     Attendance.created_at := Attendance.created_at old |}.

Definition has_id (key : nat) (r : Attendance.t) : bool := Nat.eqb (Attendance.id r) key.

Definition duplicate_key : Pg.PgError :=
  Pg.mkError "duplicate key value violates unique constraint attendance_pkey" "23505".

Definition add_row (st : Store) (row : Attendance.t) : Store :=
  {| employees := employees st;
     attendance := attendance st ++ [row];
     next_id := Nat.max (next_id st) (S (Attendance.id row));
     outage := outage st |}.

Definition put_row (st : Store) (row : Attendance.t) : Store :=
  {| employees := employees st;
     attendance :=
       map (fun r => if has_id (Attendance.id row) r then row else r) (attendance st);
     next_id := next_id st;
     outage := outage st |}.

(** [from('attendance').insert(d).select(..).single()] *)
Definition insert (d : AttendanceData.t) (now : Z) (st : Store)
    : Pg.Reply Attendance.t * Store :=
  match outage st with
  | Some (Pg.Refuses e) => (Pg.Resolved None (Some e), st)
  | Some (Pg.Crashes m) => (Pg.Rejected (OtherError m), st)
  | None =>
      let key := match AttendanceData.id d with Some k => k | None => next_id st end in
      if existsb (has_id key) (attendance st)
      then (Pg.Resolved None (Some duplicate_key), st)
      else
        let row := new_row key d now in
        match violates (attendance st) row with
        | Some e => (Pg.Resolved None (Some e), st)
        | None => (Pg.Resolved (Some row) None, add_row st row)
        end
  end.

(** [from('attendance').upsert(d).select(..).single()]: an insert that, on
    a clash of the primary key, updates the row holding the key. *)
Definition upsert (d : AttendanceData.t) (now : Z) (st : Store)
    : Pg.Reply Attendance.t * Store :=
  match outage st with
  | Some (Pg.Refuses e) => (Pg.Resolved None (Some e), st)
  | Some (Pg.Crashes m) => (Pg.Rejected (OtherError m), st)
  | None =>
      match AttendanceData.id d with
      | None => insert d now st
      | Some key =>
          match find (has_id key) (attendance st) with
          | None => insert d now st
          | Some old =>
              let row := updated_row old d in
              match violates (filter (fun r => negb (has_id key r)) (attendance st)) row with
              | Some e => (Pg.Resolved None (Some e), st)
              | None => (Pg.Resolved (Some row) None, put_row st row)
              end
          end
      end
  end.

End Writes.

(* ===================================================================== *)
(** ** Asynchronous functions over the store *)
(* ===================================================================== *)

(** An [async] function either throws or returns, and may have written
    to the store on the way. *)
Definition Async (A : Type) : Type := Store -> (Exn + A) * Store.

Definition ret {A : Type} (a : A) : Async A := fun st => (inr a, st).

Definition throw {A : Type} (e : Exn) : Async A := fun st => (inl e, st).

Definition bind {A B : Type} (m : Async A) (k : A -> Async B) : Async B :=
  fun st =>
    match m st with
    | (inl e, st') => (inl e, st')
    | (inr a, st') => k a st'
    end.

(** [await] of a read. *)
Definition await {A : Type} (q : Store -> Pg.Reply A)
    : Async (option A * option Pg.PgError) :=
  fun st =>
    match q st with
    | Pg.Resolved data error => (inr (data, error), st)
    | Pg.Rejected e => (inl e, st)
    end.

(** [await] of a write. *)
Definition await_write {A : Type} (w : Store -> Pg.Reply A * Store)
    : Async (option A * option Pg.PgError) :=
  fun st =>
    match w st with
    | (Pg.Resolved data error, st') => (inr (data, error), st')
    | (Pg.Rejected e, st') => (inl e, st')
    end.

(** [try { m } catch (error) { h error }] *)
Definition tryCatch {A : Type} (m : Async A) (h : Exn -> Async A) : Async A :=
  fun st =>
    match m st with
    | (inl e, st') => h e st'
    | (inr a, st') => (inr a, st')
    end.

Declare Scope async_scope.
Delimit Scope async_scope with async.
Notation "x <- m ;; k" := (bind m (fun x => k))
  (at level 100, m at next level, right associativity) : async_scope.

Local Open Scope async_scope.

(* ===================================================================== *)
(** ** Uniqueness guard *)
(* ===================================================================== *)

Definition fifteen_minutes : Z := 15 * 60 * 1000.

(** The loop [while (attempt < 10)] of [generateUniqueTimestamp];
    [remaining] counts the iterations left, [10 - attempt].  Next to the
    outcome the loop hands back the value [attempt] has when it is left. *)
Fixpoint probe_loop (st : Store) (employee_id : string) (baseTime : Z) (type : EventKind)
    (remaining : nat) (attempt : Z) (uniqueTime : Z) : (Exn + Z) * Z :=
  match remaining with
  | O => (inl (AttendanceError "Unable to generate unique timestamp"), attempt)
  | S remaining' =>
      let today := Clock.isoDate baseTime in
      match Query.last_of_day employee_id today st with
      | Pg.Rejected e => (inl e, attempt)
      | Pg.Resolved lastRecord _ =>
          let uniqueTime :=
            match type, lastRecord with
            | CheckOut, Some last =>
                match Attendance.check_in_time last with
                | Some lastCheckIn =>
                    let minCheckOutTime := lastCheckIn + fifteen_minutes in
                    if baseTime <? minCheckOutTime then minCheckOutTime else uniqueTime
                | None => uniqueTime
                end
            | _, _ => uniqueTime
            end in
          let uniqueTime :=
            match type, lastRecord with
            | CheckIn, Some last =>
                match Attendance.check_out_time last with
                | Some lastCheckOut =>
                    let minNextCheckIn := lastCheckOut + fifteen_minutes in
                    if baseTime <? minNextCheckIn then minNextCheckIn else uniqueTime
                | None => uniqueTime
                end
            | _, _ => uniqueTime
            end in
          let uniqueTime := uniqueTime + 1000 * attempt in
          match Query.same_stamp employee_id type uniqueTime st with
          | Pg.Rejected e => (inl e, attempt)
          | Pg.Resolved _ (Some _) =>
              (inl (AttendanceError "Failed to generate unique timestamp"), attempt)
          | Pg.Resolved None None => (inr uniqueTime, attempt)
          | Pg.Resolved (Some _) None =>
              probe_loop st employee_id baseTime type remaining' (attempt + 1) uniqueTime
          end
      end
  end.

(** [generateUniqueTimestamp(employee_id, baseTime, type)]; it only reads
    the store. *)
Definition generateUniqueTimestamp (employee_id : string) (baseTime : Z) (type : EventKind)
    (st : Store) : Exn + Z :=
  fst (probe_loop st employee_id baseTime type 10 0 baseTime).

(** The number of probes that found a collision before the guard
    returned or threw. *)
Definition collisions (employee_id : string) (baseTime : Z) (type : EventKind)
    (st : Store) : Z :=
  snd (probe_loop st employee_id baseTime type 10 0 baseTime).

(* ===================================================================== *)
(** ** Attendance recorder *)
(* ===================================================================== *)

(** What [recordAttendance] returns: the stored row and the fields added
    for presentation (the echoes of late minutes and of the hours are
    left out). *)
Record RecordResult := mkResult {
  stored : Attendance.t;
  action : AttendanceAction;
  employeeName : string;
  isLate : bool;
  earlyDepartureMinutes : option Z
}.

(** Lines 243-259: the next action and status for today's record. *)
Definition nextStep (existingRecord : option Attendance.t)
    : Exn + (AttendanceAction * string) :=
  match existingRecord with
  | None => inr (first_check_in, "CHECKED_IN")
  | Some r =>
      if negb (JS.truthy (Attendance.first_check_out_time r))
         && JS.truthy (Attendance.first_check_in_time r)
      then inr (first_check_out, "ON_BREAK")
      else if negb (JS.truthy (Attendance.second_check_in_time r))
              && JS.truthy (Attendance.first_check_out_time r)
      then inr (second_check_in, "CHECKED_IN")
      else if negb (JS.truthy (Attendance.second_check_out_time r))
              && JS.truthy (Attendance.second_check_in_time r)
      then inr (second_check_out, "COMPLETED")
      else inl (AttendanceError "All attendance actions completed for today")
  end.

(** [newTime <= new Date(column).getTime()]; a comparison with [NaN] is
    false. *)
Definition not_after (newTime : Z) (column : option Z) : bool :=
  match column with
  | Some t => newTime <=? t
  | None => false
  end.

(** Lines 261-279: the new time must come after the preceding event. *)
Definition checkSequence (existingRecord : option Attendance.t)
    (nextAction : AttendanceAction) (newTime : Z) : option Exn :=
  match existingRecord with
  | None => None
  | Some r =>
      match nextAction with
      | first_check_out =>
          if not_after newTime (Attendance.first_check_in_time r)
          then Some (AttendanceError "Check-out time must be after check-in time")
          else None
      | second_check_in =>
          if not_after newTime (Attendance.first_check_out_time r)
          then Some (AttendanceError "Second check-in time must be after first check-out time")
          else None
      | second_check_out =>
          if not_after newTime (Attendance.second_check_in_time r)
          then Some (AttendanceError
                       "Second check-out time must be after second check-in time")
          else None
      | _ => None
      end
  end.

(** Lines 335-342 and 422-429: the error thrown for a failed write. *)
Definition writeError (processError : Pg.PgError) : Exn :=
  if JS.includes "valid_check_times" (Pg.message processError)
  then AttendanceError "Invalid check-in/out sequence. Please try again."
  else if JS.includes "unique_daily_attendance" (Pg.message processError)
  then AttendanceError "Attendance record already exists for today."
  else AttendanceError ("Failed to process attendance: " ++ Pg.message processError).

Definition is_action (a b : AttendanceAction) : bool :=
  match a, b with
  | first_check_in, first_check_in
  | first_check_out, first_check_out
  | second_check_in, second_check_in
  | second_check_out, second_check_out
  | completed, completed => true
  | _, _ => false
  end.

Definition positive_minutes (m : option Z) : bool :=
  match m with
  | Some m => 0 <? m
  | None => false
  end.

Section Recorder.

Variable tz : Clock.Zone.

(** [getEmployeeRoster] is called by the recorder but defined outside
    this module: a read of the store that may throw, or return a roster
    or [null]. *)
Variable getEmployeeRoster : string -> Store -> Exn + option Roster.t.

Variable violates : list Attendance.t -> Attendance.t -> option Pg.PgError.

Definition await_roster (employeeId : string) : Async (option Roster.t) :=
  fun st => (getEmployeeRoster employeeId st, st).

(** Lines 300-316: the payload of a second session. *)
Definition secondSessionData (employeeId : string) (roster : Roster.t) (today : Z)
    (currentTime : Z) (existingRecord : option Attendance.t) (nextStatus : string)
    (minutesLate earlyDepartureMinutes : option Z) (expectedHours : F64.t)
    : AttendanceData.t :=
  {| AttendanceData.id := None;
     AttendanceData.employee_id := employeeId;
     AttendanceData.roster_id := Roster.id roster;
     AttendanceData.date := today;
     AttendanceData.first_check_in_time := Some currentTime;
     AttendanceData.first_check_out_time := None;
     AttendanceData.second_check_in_time := None;
     AttendanceData.second_check_out_time := None;
     AttendanceData.is_second_session := true;
     AttendanceData.previous_session_id := option_map Attendance.id existingRecord;
     AttendanceData.status := nextStatus;
     AttendanceData.minutes_late := minutesLate;
     AttendanceData.early_departure_minutes := earlyDepartureMinutes;
     AttendanceData.break_duration := Roster.break_duration roster;
     AttendanceData.expected_hours := F64.json expectedHours;
     AttendanceData.last_action := currentTime |}.

(** [nextAction === a ? currentTime.toISOString() : existingRecord?.column] *)
Definition stamp_or_keep (nextAction a : AttendanceAction) (currentTime : Z)
    (existingRecord : option Attendance.t) (column : Attendance.t -> option Z)
    : option Z :=
  if is_action nextAction a then Some currentTime
  else match existingRecord with
       | Some r => column r
       | None => None
       end.

(** Lines 363-380: the payload of every other action. *)
Definition updateData (employeeId : string) (roster : Roster.t) (today : Z)
    (currentTime : Z) (existingRecord : option Attendance.t)
    (nextAction : AttendanceAction) (nextStatus : string)
    (minutesLate earlyDepartureMinutes : option Z) (expectedHours : F64.t)
    : AttendanceData.t :=
  {| AttendanceData.id := option_map Attendance.id existingRecord;
     AttendanceData.employee_id := employeeId;
     AttendanceData.roster_id := Roster.id roster;
     AttendanceData.date := today;
     AttendanceData.first_check_in_time :=
       stamp_or_keep nextAction first_check_in currentTime existingRecord
         Attendance.first_check_in_time;
     AttendanceData.first_check_out_time :=
       stamp_or_keep nextAction first_check_out currentTime existingRecord
         Attendance.first_check_out_time;
     AttendanceData.second_check_in_time :=
       stamp_or_keep nextAction second_check_in currentTime existingRecord
         Attendance.second_check_in_time;
     AttendanceData.second_check_out_time :=
       stamp_or_keep nextAction second_check_out currentTime existingRecord
         Attendance.second_check_out_time;
     AttendanceData.is_second_session := false;
     AttendanceData.previous_session_id := None;
     AttendanceData.status := nextStatus;
     AttendanceData.minutes_late := minutesLate;
     AttendanceData.early_departure_minutes := earlyDepartureMinutes;
     AttendanceData.break_duration := Roster.break_duration roster;
     AttendanceData.expected_hours := F64.json expectedHours;
     AttendanceData.last_action := currentTime |}.

(** The write of the recorder and what it makes of the reply
    (lines 318-360 for a second session, 397-446 otherwise). *)
Definition persist (employee : Employee.t) (nextAction : AttendanceAction)
    (attendanceData : AttendanceData.t) (currentTime : Z)
    (minutesLate earlyDepartureMinutes : option Z) : Async RecordResult :=
  reply <- await_write
             (if is_action nextAction second_check_in
              then insert violates attendanceData currentTime
              else upsert violates attendanceData currentTime) ;;
  match reply with
  | (_, Some processError) => throw (writeError processError)
  | (None, None) =>
      throw (AttendanceError
               (if is_action nextAction second_check_in
                then "No attendance record was created"
                else "No attendance record was created/updated"))
  | (Some processedAttendance, None) =>
      ret {| stored := processedAttendance;
             action := nextAction;
             employeeName :=
               Employee.first_name employee ++ " " ++ Employee.last_name employee;
             isLate := positive_minutes minutesLate;
             earlyDepartureMinutes := earlyDepartureMinutes |}
  end.

(** [recordAttendance(employeeId)], run at the instant [now] (the two
    reads of the clock on lines 219-220 are taken as one instant). *)
Definition recordAttendance (employeeId : string) (now : Z) : Async RecordResult :=
  tryCatch
    (reply <- await (Query.employee_by_id employeeId) ;;
     match reply with
     | (Some employee, None) =>
         if negb (String.eqb (Employee.status employee) "active")
         then throw (AttendanceError "Employee is not active in the system")
         else
           let today := Clock.isoDate now in
           let currentTime := now in
           roster <- await_roster employeeId ;;
           match roster with
           | None => throw (AttendanceError "No valid roster found for employee")
           | Some roster =>
               if String.eqb (Roster.id roster) ""
               then throw (AttendanceError "No valid roster found for employee")
               else
                 reply <- await (Query.attendance_of_day employeeId today) ;;
                 match reply with
                 | (_, Some recordError) =>
                     throw (AttendanceError "Failed to check existing attendance")
                 | (existingRecord, None) =>
                     match nextStep existingRecord with
                     | inl e => throw e
                     | inr (nextAction, nextStatus) =>
                         match checkSequence existingRecord nextAction currentTime with
                         | Some e => throw e
                         | None =>
                             let minutesLate :=
                               calculateLateness tz
                                 (if is_action nextAction first_check_in
                                  then Some currentTime
                                  else match existingRecord with
                                       | Some r => Attendance.first_check_in_time r
                                       | None => None
                                       end)
                                 (Roster.start_time roster) (Roster.grace_period roster) in
                             let earlyDepartureMinutes :=
                               if is_action nextAction second_check_out
                               then calculateEarlyDeparture tz (Some currentTime)
                                      (Roster.end_time roster)
                                      (Roster.early_departure_threshold roster)
                               else Some 0 in
                             let expectedHours :=
                               calculateExpectedHours (Roster.start_time roster)
                                 (Roster.end_time roster) (Roster.break_duration roster) in
                             if is_action nextAction second_check_in
                             then
                               persist employee nextAction
                                 (secondSessionData employeeId roster today currentTime
                                    existingRecord nextStatus minutesLate
                                    earlyDepartureMinutes expectedHours)
                                 currentTime minutesLate earlyDepartureMinutes
                             else
                               persist employee nextAction
                                 (updateData employeeId roster today currentTime
                                    existingRecord nextAction nextStatus minutesLate
                                    earlyDepartureMinutes expectedHours)
                                 currentTime minutesLate earlyDepartureMinutes
                         end
                     end
                 end
           end
     | _ => throw (AttendanceError "Employee not found or invalid employee ID")
     end)
    (fun error =>
       match error with
       | AttendanceError _ => throw error
       | OtherError message => throw (AttendanceError message)
       end).

End Recorder.

(* ===================================================================== *)
(** ** Summary aggregator *)
(* ===================================================================== *)

Record StatusCounts := mkCounts {
  currentlyPresent : Z;
  lateButPresent : Z;
  checkedOut : Z;
  onTimeArrivals : Z;
  absent : Z
}.

(** The counts of the summary; the rates (percentages printed with one
    decimal) are derived from them and left out. *)
Record Summary := mkSummary {
  totalEmployees : Z;
  presentCount : Z;
  presenceBreakdown : StatusCounts
}.

Definition zero_minutes (m : option Z) : bool :=
  match m with
  | Some m => m =? 0
  | None => false
  end.

(** The callback of [attendanceData?.forEach], lines 677-697. *)
Definition tally (statusCounts : StatusCounts) (record : Attendance.t) : StatusCounts :=
  if JS.truthy (Attendance.first_check_in_time record)
     && negb (JS.truthy (Attendance.first_check_out_time record))
  then
    {| currentlyPresent := currentlyPresent statusCounts + 1;
       lateButPresent :=
         if positive_minutes (Attendance.minutes_late record)
         then lateButPresent statusCounts + 1 else lateButPresent statusCounts;
       checkedOut := checkedOut statusCounts;
       onTimeArrivals :=
         if positive_minutes (Attendance.minutes_late record)
         then onTimeArrivals statusCounts else onTimeArrivals statusCounts + 1;
       absent := absent statusCounts |}
  else if JS.truthy (Attendance.second_check_in_time record)
          && negb (JS.truthy (Attendance.second_check_out_time record))
  then
    {| currentlyPresent := currentlyPresent statusCounts + 1;
       lateButPresent := lateButPresent statusCounts;
       checkedOut := checkedOut statusCounts;
       onTimeArrivals := onTimeArrivals statusCounts;
       absent := absent statusCounts |}
  else if JS.truthy (Attendance.second_check_out_time record)
          || (JS.truthy (Attendance.first_check_out_time record)
              && negb (JS.truthy (Attendance.second_check_in_time record)))
  then
    {| currentlyPresent := currentlyPresent statusCounts;
       lateButPresent := lateButPresent statusCounts;
       checkedOut := checkedOut statusCounts + 1;
       onTimeArrivals :=
         if zero_minutes (Attendance.minutes_late record)
         then onTimeArrivals statusCounts + 1 else onTimeArrivals statusCounts;
       absent := absent statusCounts |}
  else statusCounts.

Definition no_counts : StatusCounts := mkCounts 0 0 0 0 0.

(** Lines 658-703: the counts for [totalEmployees] active employees and
    the day's rows. *)
Definition summarize (totalEmployees : Z) (attendanceData : list Attendance.t) : Summary :=
  let statusCounts := fold_left tally attendanceData no_counts in
  let statusCounts :=
    {| currentlyPresent := currentlyPresent statusCounts;
       lateButPresent := lateButPresent statusCounts;
       checkedOut := checkedOut statusCounts;
       onTimeArrivals := onTimeArrivals statusCounts;
       absent :=
         Z.max 0 (totalEmployees
                  - (currentlyPresent statusCounts + checkedOut statusCounts)) |} in
  {| totalEmployees := totalEmployees;
     presentCount := currentlyPresent statusCounts + checkedOut statusCounts;
     presenceBreakdown := statusCounts |}.

Definition empty_summary : Summary := mkSummary 0 0 no_counts.

(** [getTodayAttendanceSummary()], run at the instant [now]. *)
Definition getTodayAttendanceSummary (now : Z) (st : Store) : Summary :=
  let today := Clock.isoDate now in
  match Query.active_employees st with
  | Pg.Rejected _ => empty_summary
  | Pg.Resolved _ (Some employeeError) => empty_summary
  | Pg.Resolved activeEmployees None =>
      let totalEmployees :=
        match activeEmployees with
        | Some l => Z.of_nat (List.length l)
        | None => 0
        end in
      match Query.attendance_on today st with
      | Pg.Rejected _ => empty_summary
      | Pg.Resolved _ (Some attendanceError) => empty_summary
      | Pg.Resolved attendanceData None =>
          summarize totalEmployees
            (match attendanceData with Some l => l | None => [] end)
      end
  end.

(** The buckets of the worded classification, in the order the
    specification gives them: second session open, then first session
    open, then a completed-session marker.  Written from the
    specification, to be compared with [tally]. *)
Inductive Bucket := PresentSecond | PresentFirst | CheckedOutBucket.

Definition bucket_spec (record : Attendance.t) : option Bucket :=
  if JS.truthy (Attendance.second_check_in_time record)
     && negb (JS.truthy (Attendance.second_check_out_time record))
  then Some PresentSecond
  else if JS.truthy (Attendance.first_check_in_time record)
          && negb (JS.truthy (Attendance.first_check_out_time record))
  then Some PresentFirst
  else if JS.truthy (Attendance.second_check_out_time record)
          || (JS.truthy (Attendance.first_check_out_time record)
              && negb (JS.truthy (Attendance.second_check_in_time record)))
  then Some CheckedOutBucket
  else None.

(* ===================================================================== *)
(** ** Next action and current state, as the scanner asks for them *)
(* ===================================================================== *)

(** [getNextAttendanceAction(employeeId)], run at the instant [now]. *)
Definition getNextAttendanceAction (employeeId : string) (now : Z) (st : Store)
    : AttendanceAction :=
  let today := Clock.isoDate now in
  match Query.attendance_of_day employeeId today st with
  | Pg.Rejected _ => first_check_in
  | Pg.Resolved _ (Some error) => first_check_in
  | Pg.Resolved None None => first_check_in
  | Pg.Resolved (Some record) None =>
      if negb (JS.truthy (Attendance.first_check_in_time record)) then first_check_in
      else if negb (JS.truthy (Attendance.first_check_out_time record)) then first_check_out
      else if negb (JS.truthy (Attendance.second_check_in_time record)) then second_check_in
      else if negb (JS.truthy (Attendance.second_check_out_time record)) then second_check_out
      else completed
  end.

(* ===================================================================== *)
(** ** Vocabulary of the statements *)
(* ===================================================================== *)

(** A write answered with the row it left in the table. *)
Definition wrote (reply : Pg.Reply Attendance.t) (row : Attendance.t) : Prop :=
  reply = Pg.Resolved (Some row) None.

(** The event that immediately precedes an action within a record. *)
Definition preceding (a : AttendanceAction) (r : Attendance.t) : option Z :=
  match a with
  | first_check_out => Attendance.first_check_in_time r
  | second_check_in => Attendance.first_check_out_time r
  | second_check_out => Attendance.second_check_in_time r
  | _ => None
  end.

(** The message of the sequence error of each action. *)
Definition sequenceMessage (a : AttendanceAction) : string :=
  match a with
  | first_check_out => "Check-out time must be after check-in time"
  | second_check_in => "Second check-in time must be after first check-out time"
  | second_check_out => "Second check-out time must be after second check-in time"
  | _ => ""
  end.

(** The session column an action stamps in the row it writes; the new
    row of a second session is stamped in its own first column. *)
Definition stamped_column (a : AttendanceAction) (r : Attendance.t) : option Z :=
  match a with
  | first_check_in => Attendance.first_check_in_time r
  | first_check_out => Attendance.first_check_out_time r
  | second_check_in => Attendance.first_check_in_time r
  | second_check_out => Attendance.second_check_out_time r
  | completed => None
  end.

Definition session_columns : list (Attendance.t -> option Z) :=
  [ Attendance.first_check_in_time; Attendance.first_check_out_time;
    Attendance.second_check_in_time; Attendance.second_check_out_time ].

(** How many of the four session columns of a row are set. *)
Definition filled (r : Attendance.t) : nat :=
  List.length (filter (fun column => JS.truthy (column r)) session_columns).

Definition filled_of (existingRecord : option Attendance.t) : nat :=
  match existingRecord with
  | Some r => filled r
  | None => O
  end.

(** The table after the row with the identity of [row] is replaced. *)
Definition replaced (row : Attendance.t) (table : list Attendance.t) : list Attendance.t :=
  map (fun r => if has_id (Attendance.id row) r then row else r) table.

(** The counts the worded classification gives: a row whose second
    session is open is present and not split; a row whose first session
    is open is present and split by [minutes_late]; a completed row is
    checked out. *)
Definition tally_spec (statusCounts : StatusCounts) (record : Attendance.t) : StatusCounts :=
  match bucket_spec record with
  | Some PresentSecond =>
      {| currentlyPresent := currentlyPresent statusCounts + 1;
         lateButPresent := lateButPresent statusCounts;
         checkedOut := checkedOut statusCounts;
         onTimeArrivals := onTimeArrivals statusCounts;
         absent := absent statusCounts |}
  | Some PresentFirst =>
      {| currentlyPresent := currentlyPresent statusCounts + 1;
         lateButPresent :=
           if positive_minutes (Attendance.minutes_late record)
           then lateButPresent statusCounts + 1 else lateButPresent statusCounts;
         checkedOut := checkedOut statusCounts;
         onTimeArrivals :=
           if positive_minutes (Attendance.minutes_late record)
           then onTimeArrivals statusCounts else onTimeArrivals statusCounts + 1;
         absent := absent statusCounts |}
  | Some CheckedOutBucket =>
      {| currentlyPresent := currentlyPresent statusCounts;
         lateButPresent := lateButPresent statusCounts;
         checkedOut := checkedOut statusCounts + 1;
         onTimeArrivals :=
           if zero_minutes (Attendance.minutes_late record)
           then onTimeArrivals statusCounts + 1 else onTimeArrivals statusCounts;
         absent := absent statusCounts |}
  | None => statusCounts
  end.

(** The three tests of [tally], by name. *)
Definition first_open (r : Attendance.t) : bool :=
  JS.truthy (Attendance.first_check_in_time r)
  && negb (JS.truthy (Attendance.first_check_out_time r)).

Definition second_open (r : Attendance.t) : bool :=
  JS.truthy (Attendance.second_check_in_time r)
  && negb (JS.truthy (Attendance.second_check_out_time r)).

Definition completed_marker (r : Attendance.t) : bool :=
  JS.truthy (Attendance.second_check_out_time r)
  || (JS.truthy (Attendance.first_check_out_time r)
      && negb (JS.truthy (Attendance.second_check_in_time r))).

(** The number of rows a test holds of. *)
Definition count (test : Attendance.t -> bool) (rows : list Attendance.t) : Z :=
  Z.of_nat (List.length (filter test rows)).

(* ===================================================================== *)
(** ** Sample data *)
(* ===================================================================== *)

Module Sample.

Definition ann : Employee.t := Employee.mk "emp-1" "Ann" "Lee" "active".

Definition day_shift : Roster.t := Roster.mk "roster-1" "09:00" "17:00" 60 5 10.

Definition rosters (employeeId : string) (st : Store) : Exn + option Roster.t :=
  inr (Some day_shift).

(** New York in 2024: UTC-5, and UTC-4 from 10 March 07:00 UTC to
    3 November 06:00 UTC.  Local times from 02:00 to 03:00 on 10 March
    do not exist and are read with the earlier offset; those from 01:00
    to 02:00 on 3 November occur twice and are read as the earlier
    instant. *)
Definition new_york : Clock.Zone :=
  Clock.mkZone
    (fun t => if (1710054000000 <=? t) && (t <? 1730613600000)
              then -4 * Clock.msPerHour else -5 * Clock.msPerHour)
    (fun l => if (19792 * Clock.msPerDay + 3 * Clock.msPerHour <=? l)
                 && (l <? 20030 * Clock.msPerDay + 2 * Clock.msPerHour)
              then -4 * Clock.msPerHour else -5 * Clock.msPerHour).

(** Amsterdam in 2024: UTC+1, and UTC+2 from 31 March 01:00 UTC to
    27 October 01:00 UTC. *)
Definition amsterdam : Clock.Zone :=
  Clock.mkZone
    (fun t => if (1711846800000 <=? t) && (t <? 1729990800000)
              then 2 * Clock.msPerHour else Clock.msPerHour)
    (fun l => if (19813 * Clock.msPerDay + 3 * Clock.msPerHour <=? l)
                 && (l <? 20023 * Clock.msPerDay + 3 * Clock.msPerHour)
              then 2 * Clock.msPerHour else Clock.msPerHour).

(** A table without constraints. *)
Definition unconstrained (table : list Attendance.t) (row : Attendance.t)
    : option Pg.PgError := None.

(** Day 20000 of the epoch at 09:10:00.000 UTC. *)
Definition nine_ten : Z := Clock.atLocal Clock.utc 20000 9 10.

Definition minute : Z := 60 * 1000.

(** A row of Ann on day 20000 with the given session columns, guard
    columns and lateness. *)
Definition row (key : nat) (employeeId : string)
    (ci1 co1 ci2 co2 : option Z) (check_in check_out : option Z)
    (late : option Z) : Attendance.t :=
  {| Attendance.id := key;
     Attendance.employee_id := employeeId;
     Attendance.roster_id := "roster-1";
     Attendance.date := 20000;
     Attendance.first_check_in_time := ci1;
     Attendance.first_check_out_time := co1;
     Attendance.second_check_in_time := ci2;
     Attendance.second_check_out_time := co2;
     Attendance.check_in_time := check_in;
     Attendance.check_out_time := check_out;
     Attendance.is_second_session := false;
     Attendance.previous_session_id := None;
     Attendance.status := "CHECKED_IN";
     Attendance.minutes_late := late;
     Attendance.early_departure_minutes := Some 0;
     Attendance.break_duration := 60;
     Attendance.expected_hours := Some (7 # 1)%Q;
     Attendance.actual_hours := None;
     Attendance.last_action := ci1;
     Attendance.created_at := nine_ten |}.

(** No scan yet. *)
Definition morning : Store := mkStore [ann] [] 1 None.

(** Ann checked in at 09:10; the guard column [check_in_time] holds the
    same instant. *)
Definition checked_in : Store :=
  mkStore [ann]
    [row 1 "emp-1" (Some nine_ten) None None None (Some nine_ten) (Some nine_ten) (Some 5)]
    2 None.

(** Ann checked in at 09:10 and out at 09:40. *)
Definition on_break : Store :=
  mkStore [ann]
    [row 1 "emp-1" (Some nine_ten) (Some (nine_ten + 30 * minute)) None None
       None None (Some 5)]
    2 None.

(** A row for Ann with a second session under way. *)
Definition second_session : Store :=
  mkStore [ann]
    [row 1 "emp-1" (Some nine_ten) (Some (nine_ten + 30 * minute))
       (Some (nine_ten + 60 * minute)) None None None (Some 5)]
    2 None.

(** A row for Ann that holds no timestamp at all. *)
Definition blank_row : Store :=
  mkStore [ann] [row 1 "emp-1" None None None None None None None] 2 None.

(** The store answers every request with an error. *)
Definition unavailable : Store :=
  mkStore [ann] [] 1 (Some (Pg.Refuses (Pg.mkError "connection refused" "08006"))).

(** A row with both sessions open, ten minutes late. *)
Definition both_open : Attendance.t :=
  row 7 "emp-7" (Some nine_ten) None (Some (nine_ten + 60 * minute)) None None None
    (Some 10).

Definition blank : Attendance.t := row 8 "emp-8" None None None None None None None.

Definition staff (n : string) : Employee.t := Employee.mk n "First" "Last" "active".

(** Ten active employees; three first sessions open, one of them late;
    two completed records. *)
Definition ten_staff : Store :=
  mkStore
    (map staff ["e0"; "e1"; "e2"; "e3"; "e4"; "e5"; "e6"; "e7"; "e8"; "e9"])
    [ row 1 "e0" (Some nine_ten) None None None None None (Some 10);
      row 2 "e1" (Some (nine_ten - 15 * minute)) None None None None None (Some 0);
      row 3 "e2" (Some (nine_ten - 20 * minute)) None None None None None (Some 0);
      row 4 "e3" (Some (nine_ten - 20 * minute)) (Some (nine_ten + 200 * minute))
        None None None None (Some 0);
      row 5 "e4" (Some (nine_ten - 20 * minute)) (Some (nine_ten + 100 * minute))
        (Some (nine_ten + 160 * minute)) (Some (nine_ten + 400 * minute))
        None None (Some 0) ]
    6 None.

(** Two rows out of the ordinary: both sessions open, and no timestamp
    at all. *)
Definition anomalous : Store :=
  mkStore [staff "emp-7"; staff "emp-8"] [both_open; blank] 9 None.

(** Ten rows of Ann whose [check_in_time] are the ten instants the guard
    probes from 09:10 on. *)
Definition crowded : Store :=
  mkStore [ann]
    (map (fun offset =>
            row (Z.to_nat offset) "emp-1" None None None None
              (Some (nine_ten + 1000 * offset)) None None)
         [0; 1; 3; 6; 10; 15; 21; 28; 36; 45])
    100 None.

End Sample.

(* ===================================================================== *)
(** ** Current state, as the scanner shows it *)
(* ===================================================================== *)

Inductive AttendanceState :=
  | not_checked_in
  | first_checked_in
  | first_checked_out
  | second_checked_in
  | second_checked_out.

(** [getCurrentAttendanceState(employeeId)], run at the instant [now]. *)
Definition getCurrentAttendanceState (employeeId : string) (now : Z) (st : Store)
    : AttendanceState :=
  let today := Clock.isoDate now in
  match Query.attendance_of_day employeeId today st with
  | Pg.Rejected _ => not_checked_in
  | Pg.Resolved _ (Some error) => not_checked_in
  | Pg.Resolved None None => not_checked_in
  | Pg.Resolved (Some record) None =>
      if JS.truthy (Attendance.second_check_out_time record) then second_checked_out
      else if JS.truthy (Attendance.second_check_in_time record) then second_checked_in
      else if JS.truthy (Attendance.first_check_out_time record) then first_checked_out
      else if JS.truthy (Attendance.first_check_in_time record) then first_checked_in
      else not_checked_in
  end.

(* ===================================================================== *)
(** ** QR codes ([src/utils/qrCodeUtils.ts]) *)
(* ===================================================================== *)

(** Texts are sequences of code units below 256. *)
Module QR.

(** A piece of a regular expression: a literal character, or a capturing
    group [(class+)]. *)
Inductive Piece :=
  | Lit (c : ascii)
  | Group (class : ascii -> bool).

(** [(class+)] followed by the rest of the pattern: greedy, giving
    characters back one at a time when the rest does not match.
    [taken] is what the group holds so far. *)
Fixpoint group_then (class : ascii -> bool) (rest_of_pattern : string -> option (list string))
    (taken : string) (s : string) : option (list string) :=
  match s with
  | EmptyString => None
  | String c rest =>
      if class c then
        let taken' := taken ++ String c EmptyString in
        match group_then class rest_of_pattern taken' rest with
        | Some captures => Some captures
        | None =>
            match rest_of_pattern rest with
            | Some captures => Some (taken' :: captures)
            | None => None
            end
        end
      else None
  end.

(** [s.match(/^pattern$/)]: the captured groups, or [None] for [null]. *)
Fixpoint exec (pattern : list Piece) : string -> option (list string) :=
  match pattern with
  | [] => fun s => match s with
                   | EmptyString => Some []
                   | String _ _ => None
                   end
  | Lit c :: pattern' =>
      fun s => match s with
               | EmptyString => None
               | String c' rest => if Ascii.eqb c c' then exec pattern' rest else None
               end
  | Group class :: pattern' => group_then class (exec pattern') EmptyString
  end.

(** [[^:]] *)
Definition not_colon (c : ascii) : bool := negb (Ascii.eqb c ":"%char).

(** [.]: any character but a line terminator. *)
Definition dot (c : ascii) : bool :=
  negb (Ascii.eqb c "010"%char) && negb (Ascii.eqb c "013"%char).

(** [/^EMP:([^:]+):(.+)$/] *)
Definition legacy : list Piece :=
  [ Lit "E"%char; Lit "M"%char; Lit "P"%char; Lit ":"%char;
    Group not_colon; Lit ":"%char; Group dot ].

Definition between (lo hi : N) (c : ascii) : bool :=
  (lo <=? N_of_ascii c)%N && (N_of_ascii c <=? hi)%N.

(** [[a-zA-Z0-9 ]] *)
Definition alnum_or_space (c : ascii) : bool :=
  between 97 122 c || between 65 90 c || between 48 57 c || Ascii.eqb c " "%char.

(** [s.replace(/[^class]/g, '')] *)
Fixpoint keep_only (class : ascii -> bool) (s : string) : string :=
  match s with
  | EmptyString => EmptyString
  | String c rest =>
      if class c then String c (keep_only class rest) else keep_only class rest
  end.

(** Every character of a text is in a class. *)
Fixpoint every (class : ascii -> bool) (s : string) : bool :=
  match s with
  | EmptyString => true
  | String c rest => class c && every class rest
  end.

Module Holder.
Record t := mk { id : string; name : string }.
End Holder.

(** [generateLegacyQR(employee)] *)
Definition generateLegacyQR (employee : Holder.t) : string :=
  "EMP:" ++ Holder.id employee ++ ":" ++ keep_only alnum_or_space (Holder.name employee).

(** [generateEmployeeQR(employee)]; of the four fields of its argument
    only [id] and [name] are read. *)
Definition generateEmployeeQR (employee : Holder.t) : string :=
  generateLegacyQR employee.

Inductive Kind := employee | unknown.

Module Data.
Record t := mk { type : Kind; id : string }.
End Data.

(** [parseQRCodeData(qrData)] *)
Definition parseQRCodeData (qrData : string) : Data.t :=
  match exec legacy qrData with
  | Some (employeeId :: _) => Data.mk employee employeeId
  | _ => Data.mk unknown ""
  end.

(** [from('employees').select('id, status').eq('id', e).eq('status', 'active').single()] *)
Definition active_employee (employeeId : string) (st : Store) : Pg.Reply Employee.t :=
  Query.answer st
    (Pg.single
       (filter (fun e => String.eqb (Employee.id e) employeeId
                         && String.eqb (Employee.status e) "active")
               (employees st))).

(** [validateEmployeeQR(qrData)] *)
Definition validateEmployeeQR (qrData : string) (st : Store) : bool :=
  match exec legacy qrData with
  | Some (employeeId :: _) =>
      match active_employee employeeId st with
      | Pg.Resolved (Some _) None => true
      | _ => false
      end
  | _ => false
  end.

End QR.

(* ===================================================================== *)
(** ** Deleting a record *)
(* ===================================================================== *)

(** An entry of the logger's buffer, as [deleteAttendance] makes it. *)
Record LogEntry := mkLogEntry {
  log_timestamp : Z;
  log_type : string;
  log_employee_id : string;
  log_action : string;
  log_record_id : nat;
  log_details_timestamp : Z
}.

Record DeleteResult := mkDeleteResult {
  success : bool;
  message : string
}.

Definition exn_message (e : Exn) : string :=
  match e with
  | AttendanceError m => m
  | OtherError m => m
  end.

(** [from('attendance').select('*').eq('id', attendanceId).single()] *)
Definition attendance_by_id (attendanceId : nat) (st : Store) : Pg.Reply Attendance.t :=
  Query.answer st (Pg.single (filter (has_id attendanceId) (attendance st))).

Section Deleting.

(** The store's verdict on deleting the rows with a key (a foreign key
    may forbid it). *)
Variable forbids : list Attendance.t -> nat -> option Pg.PgError.

(** [from('attendance').delete().eq('id', attendanceId)] *)
Definition delete_by_id (attendanceId : nat) (st : Store) : Pg.Reply unit * Store :=
  match outage st with
  | Some (Pg.Refuses e) => (Pg.Resolved None (Some e), st)
  | Some (Pg.Crashes m) => (Pg.Rejected (OtherError m), st)
  | None =>
      match forbids (attendance st) attendanceId with
      | Some e => (Pg.Resolved None (Some e), st)
      | None =>
          (Pg.Resolved None None,
           {| employees := employees st;
              attendance := filter (fun r => negb (has_id attendanceId r)) (attendance st);
              next_id := next_id st;
              outage := outage st |})
      end
  end.

(** [deleteAttendance(attendanceId)], run at the instant [now], with the
    buffer of the logger.  [attendanceLogger.log] appends its entry
    before the function returns; the flush of the buffer that [log]
    starts without awaiting it runs later and is not part of the
    result. *)
Definition deleteAttendance (attendanceId : nat) (now : Z) (st : Store)
    (logBuffer : list LogEntry) : DeleteResult * Store * list LogEntry :=
  match attendance_by_id attendanceId st with
  | Pg.Rejected e => (mkDeleteResult false (exn_message e), st, logBuffer)
  | Pg.Resolved _ (Some fetchError) =>
      (mkDeleteResult false "Failed to fetch attendance record", st, logBuffer)
  | Pg.Resolved None None =>
      (mkDeleteResult false "Attendance record not found", st, logBuffer)
  | Pg.Resolved (Some record) None =>
      match delete_by_id attendanceId st with
      | (Pg.Rejected e, st') => (mkDeleteResult false (exn_message e), st', logBuffer)
      | (Pg.Resolved _ (Some deleteError), st') =>
          (mkDeleteResult false "Failed to delete attendance record", st', logBuffer)
      | (Pg.Resolved _ None, st') =>
          (mkDeleteResult true "Attendance record deleted successfully", st',
           (logBuffer
            ++ [mkLogEntry now "error" (Attendance.employee_id record) "delete"
                  attendanceId now])%list)
      end
  end.

End Deleting.

(* ===================================================================== *)
(** ** Vocabulary of the further statements *)
(* ===================================================================== *)

Section Scans.

Variable tz : Clock.Zone.
Variable getEmployeeRoster : string -> Store -> Exn + option Roster.t.
Variable violates : list Attendance.t -> Attendance.t -> option Pg.PgError.

(** A day of scans: each badge is presented at its instant, one call of
    the recorder after the other; the outcomes and the store they leave. *)
Fixpoint scans (events : list (string * Z)) (st : Store)
    : list (Exn + RecordResult) * Store :=
  match events with
  | [] => ([], st)
  | (employeeId, now) :: later =>
      let '(outcome, st') := recordAttendance tz getEmployeeRoster violates employeeId now st in
      let '(outcomes, st'') := scans later st' in
      (outcome :: outcomes, st'')
  end.

End Scans.

Section Metrics.

Variable tz : Clock.Zone.

(** The lateness the recorder computes before it writes (lines 283-287):
    that of [now] for a first check-in, else that of the first check-in
    the day's record holds. *)
Definition lateness_of_day (roster : Roster.t) (existingRecord : option Attendance.t)
    (nextAction : AttendanceAction) (now : Z) : option Z :=
  calculateLateness tz
    (if is_action nextAction first_check_in then Some now
     else match existingRecord with
          | Some r => Attendance.first_check_in_time r
          | None => None
          end)
    (Roster.start_time roster) (Roster.grace_period roster).

(** The early departure it computes (lines 289-290). *)
Definition early_of_action (roster : Roster.t) (nextAction : AttendanceAction) (now : Z)
    : option Z :=
  if is_action nextAction second_check_out
  then calculateEarlyDeparture tz (Some now) (Roster.end_time roster)
         (Roster.early_departure_threshold roster)
  else Some 0.

(** The payload it hands to the store. *)
Definition payload (employeeId : string) (roster : Roster.t) (now : Z)
    (existingRecord : option Attendance.t) (nextAction : AttendanceAction)
    (nextStatus : string) : AttendanceData.t :=
  let minutesLate := lateness_of_day roster existingRecord nextAction now in
  let earlyDepartureMinutes := early_of_action roster nextAction now in
  let expectedHours :=
    calculateExpectedHours (Roster.start_time roster) (Roster.end_time roster)
      (Roster.break_duration roster) in
  if is_action nextAction second_check_in
  then secondSessionData employeeId roster (Clock.isoDate now) now existingRecord
         nextStatus minutesLate earlyDepartureMinutes expectedHours
  else updateData employeeId roster (Clock.isoDate now) now existingRecord nextAction
         nextStatus minutesLate earlyDepartureMinutes expectedHours.

End Metrics.

(** The earliest instant the guard allows for an event, given the
    employee's last row of the day: 15 minutes after its check-in for a
    check-out, after its check-out for a check-in. *)
Definition guard_floor (type : EventKind) (lastRecord : option Attendance.t) : option Z :=
  match lastRecord with
  | None => None
  | Some last =>
      match (match type with
             | CheckOut => Attendance.check_in_time last
             | CheckIn => Attendance.check_out_time last
             end) with
      | Some t => Some (t + fifteen_minutes)
      | None => None
      end
  end.

(** The first instant the guard probes. *)
Definition first_candidate (baseTime : Z) (floor : option Z) : Z :=
  match floor with
  | Some f => Z.max baseTime f
  | None => baseTime
  end.

(** No row of the table has a second check-in. *)
Definition no_second_check_in (st : Store) : Prop :=
  forall r, In r (attendance st) -> Attendance.second_check_in_time r = None.

(** The keys of the table are pairwise different. *)
Definition distinct_keys (st : Store) : Prop :=
  NoDup (map Attendance.id (attendance st)).

(** Every key of the table lies below the key the store hands out next. *)
Definition keys_below (st : Store) : Prop :=
  forall r, In r (attendance st) -> (Attendance.id r < next_id st)%nat.

(** The state each row shows to [getCurrentAttendanceState]. *)
Definition state_of_row (record : Attendance.t) : AttendanceState :=
  if JS.truthy (Attendance.second_check_out_time record) then second_checked_out
  else if JS.truthy (Attendance.second_check_in_time record) then second_checked_in
  else if JS.truthy (Attendance.first_check_out_time record) then first_checked_out
  else if JS.truthy (Attendance.first_check_in_time record) then first_checked_in
  else not_checked_in.

(** The action that follows each state. *)
Definition action_after (s : AttendanceState) : AttendanceAction :=
  match s with
  | not_checked_in => first_check_in
  | first_checked_in => first_check_out
  | first_checked_out => second_check_in
  | second_checked_in => second_check_out
  | second_checked_out => completed
  end.

(** The set columns of a row are a run from the first one on. *)
Definition ladder_shaped (r : Attendance.t) : bool :=
  implb (JS.truthy (Attendance.first_check_out_time r))
        (JS.truthy (Attendance.first_check_in_time r))
  && implb (JS.truthy (Attendance.second_check_in_time r))
           (JS.truthy (Attendance.first_check_out_time r))
  && implb (JS.truthy (Attendance.second_check_out_time r))
           (JS.truthy (Attendance.second_check_in_time r)).

(** The status the recorder writes with each action. *)
Definition status_of_action (a : AttendanceAction) : string :=
  match a with
  | first_check_in => "CHECKED_IN"
  | first_check_out => "ON_BREAK"
  | second_check_in => "CHECKED_IN"
  | second_check_out => "COMPLETED"
  | completed => ""
  end.

(** Sample data for the further statements. *)
Module Fixture.

(** A table that holds at most one row per employee and day, under the
    name the recorder looks for in a rejected write. *)
Definition unique_daily (table : list Attendance.t) (row : Attendance.t)
    : option Pg.PgError :=
  if existsb (fun r => String.eqb (Attendance.employee_id r) (Attendance.employee_id row)
                       && (Attendance.date r =? Attendance.date row)) table
  then Some (Pg.mkError
               "duplicate key value violates unique constraint unique_daily_attendance"
               "23505")
  else None.

(** A table whose rows may always be deleted. *)
Definition deletable (table : list Attendance.t) (key : nat) : option Pg.PgError := None.

Definition ann_badge : QR.Holder.t := QR.Holder.mk "emp-1" "Ann O'Lee (HR)".

(** A row that holds a second check-in and nothing else. *)
Definition second_only : Store :=
  mkStore [Sample.ann]
    [Sample.row 1 "emp-1" None None (Some Sample.nine_ten) None None None None] 2 None.

End Fixture.

(* ===================================================================== *)
(** * Properties *)
(* ===================================================================== *)

(** ** Numbers *)


Lemma Qred_whole (z : Z) : Qred (inject_Z z) = inject_Z z.
Proof.
  unfold Qred, inject_Z.
  pose proof (Z.ggcd_gcd z 1) as Hg. pose proof (Z.ggcd_correct_divisors z 1) as Hd.
  destruct (Z.ggcd z 1) as [g [a b]]. cbn [fst snd] in *.
  rewrite Z.gcd_1_r in Hg. subst g. destruct Hd as [Ha Hb].
  assert (a = z) by lia. assert (b = 1) by lia. subst a b. reflexivity.
Qed.

Lemma round_Qeq (p q : Q) : (p == q)%Q -> F64.round p = F64.round q.
Proof.
  intros H. unfold F64.round. now rewrite (Qred_complete p q H).
Qed.

Lemma half_even_Qeq (p q : Q) : (p == q)%Q -> F64.half_even p = F64.half_even q.
Proof.
  intros H. unfold F64.half_even. rewrite (Qfloor_comp p q H).
  assert (E : (p - inject_Z (Qfloor q) == q - inject_Z (Qfloor q))%Q) by now rewrite H.
  now rewrite (Qcompare_comp _ _ E (1 # 2) (1 # 2) (Qeq_refl _)).
Qed.

Lemma half_even_whole (n : Z) : F64.half_even (inject_Z n) = n.
Proof.
  unfold F64.half_even. rewrite Qfloor_Z.
  assert (E : (inject_Z n - inject_Z n ?= 1 # 2)%Q = Lt).
  { apply (proj1 (Qlt_alt _ _)). lra. }
  now rewrite E.
Qed.

Lemma half_even_error (q : Q) :
  (inject_Z (F64.half_even q) - q <= 1 # 2)%Q /\ (q - inject_Z (F64.half_even q) <= 1 # 2)%Q.
Proof.
  unfold F64.half_even.
  pose proof (Qfloor_le q) as Hlo. pose proof (Qlt_floor q) as Hhi.
  rewrite inject_Z_plus in Hhi. change (inject_Z 1) with 1%Q in Hhi.
  destruct (Qcompare_spec (q - inject_Z (Qfloor q)) (1 # 2)) as [E | E | E].
  - destruct (Z.even (Qfloor q)); rewrite ?inject_Z_plus;
      change (inject_Z 1) with 1%Q; split; lra.
  - split; lra.
  - rewrite inject_Z_plus. change (inject_Z 1) with 1%Q. split; lra.
Qed.

Lemma half_even_nonneg (q : Q) : (0 <= q)%Q -> 0 <= F64.half_even q.
Proof.
  intros Hq. unfold F64.half_even.
  assert (Hf : 0 <= Qfloor q).
  { rewrite <- (Qfloor_Z 0). now apply Qfloor_resp_le. }
  destruct (q - inject_Z (Qfloor q) ?= 1 # 2)%Q; try destruct (Z.even (Qfloor q)); lia.
Qed.

Lemma pow2_positive (k : Z) : 0 <= k -> (0 < inject_Z (2 ^ k))%Q.
Proof.
  intros H. change 0%Q with (inject_Z 0). rewrite <- Zlt_Qlt.
  apply Z.pow_pos_nonneg; lia.
Qed.

Lemma scale_down (q : Q) (k : Z) :
  0 <= k -> (F64.scale q (- k) * inject_Z (2 ^ k) == q)%Q.
Proof.
  intros Hk. pose proof (pow2_positive k Hk) as Hp. unfold F64.scale.
  destruct (0 <=? - k) eqn:E.
  - apply Z.leb_le in E. assert (k = 0) by lia. subst k. simpl. field.
  - rewrite Z.opp_involutive. field. lra.
Qed.

Lemma scale_up (q : Q) (k : Z) :
  0 <= k -> (F64.scale q k == q * inject_Z (2 ^ k))%Q.
Proof.
  intros Hk. unfold F64.scale. apply Z.leb_le in Hk. now rewrite Hk.
Qed.

(** Whole numbers below 2^53 in magnitude are doubles. *)
Lemma round_pos_whole (z : Z) :
  0 < z < 2 ^ 53 -> F64.round_pos (inject_Z z) = F64.Fin (inject_Z z).
Proof.
  intros [Hpos Hlt]. unfold F64.round_pos.
  assert (Hlog : 0 <= Z.log2 z < 53).
  { split; [apply Z.log2_nonneg | apply Z.log2_lt_pow2; lia]. }
  assert (He : F64.ilog2 (inject_Z z) = Z.log2 z).
  { unfold F64.ilog2. cbn [Qnum Qden inject_Z]. change (Z.log2 1) with 0.
    rewrite Z.sub_0_r.
    assert (Ht : Qle_bool (F64.scale 1 (Z.log2 z)) (inject_Z z) = true).
    { apply Qle_bool_iff. rewrite scale_up by lia. rewrite Qmult_1_l.
      rewrite <- Zle_Qle. apply Z.log2_spec. exact Hpos. }
    now rewrite Ht. }
  rewrite He.
  set (j := 52 - Z.log2 z).
  assert (Hk : Z.max (Z.log2 z - 52) (-1074) = - j) by (unfold j; lia).
  rewrite Hk, Z.opp_involutive.
  assert (Hj : 0 <= j) by (unfold j; lia).
  assert (Hy : (F64.scale (inject_Z z) j == inject_Z (z * 2 ^ j))%Q).
  { rewrite scale_up by exact Hj. now rewrite inject_Z_mult. }
  rewrite (half_even_Qeq _ _ Hy), half_even_whole.
  assert (Hr : (F64.scale (inject_Z (z * 2 ^ j)) (- j) == inject_Z z)%Q).
  { pose proof (scale_down (inject_Z (z * 2 ^ j)) j Hj) as Hd.
    pose proof (pow2_positive j Hj) as Hp.
    rewrite inject_Z_mult in Hd |- *.
    apply (Qmult_inj_r _ _ (inject_Z (2 ^ j))); [lra | exact Hd]. }
  assert (Hover : Qle_bool (F64.scale 1 1024) (F64.scale (inject_Z (z * 2 ^ j)) (- j)) = false).
  { apply not_true_iff_false. intros Hb. apply Qle_bool_iff in Hb.
    rewrite Hr in Hb. rewrite scale_up in Hb by lia. rewrite Qmult_1_l in Hb.
    rewrite <- Zle_Qle in Hb.
    assert (2 ^ 53 < 2 ^ 1024) by (apply Z.pow_lt_mono_r; lia). lia. }
  rewrite Hover. f_equal.
  rewrite (Qred_complete _ _ Hr). apply Qred_whole.
Qed.

Lemma round_whole (z : Z) :
  Z.abs z < 2 ^ 53 -> F64.round (inject_Z z) = F64.Fin (inject_Z z).
Proof.
  intros Hz. unfold F64.round. rewrite Qred_whole.
  destruct (Qcompare_spec (inject_Z z) 0) as [E | E | E].
  - change 0%Q with (inject_Z 0) in E. apply (proj1 (inject_Z_injective _ _)) in E. now subst z.
  - change 0%Q with (inject_Z 0) in E. rewrite <- Zlt_Qlt in E.
    rewrite <- inject_Z_opp, round_pos_whole by lia.
    cbn [F64.neg]. rewrite <- inject_Z_opp. now rewrite Z.opp_involutive.
  - change 0%Q with (inject_Z 0) in E. rewrite <- Zlt_Qlt in E.
    apply round_pos_whole. lia.
Qed.

Lemma scale_nonneg (q : Q) (k : Z) : (0 <= q)%Q -> (0 <= F64.scale q k)%Q.
Proof.
  intros Hq. unfold F64.scale. destruct (0 <=? k) eqn:E.
  - apply Z.leb_le in E. apply Qmult_le_0_compat; [exact Hq |].
    apply Qlt_le_weak. now apply pow2_positive.
  - apply Z.leb_gt in E. apply Qmult_le_0_compat; [exact Hq |].
    apply Qinv_le_0_compat. apply Qlt_le_weak. apply pow2_positive. lia.
Qed.

(** A rounded positive number is not negative. *)
Lemma round_pos_sign (q : Q) :
  (0 <= q)%Q ->
  match F64.round_pos q with
  | F64.Fin r => (0 <= r)%Q
  | F64.Inf negative => negative = false
  | F64.NaN => False
  end.
Proof.
  intros Hq. unfold F64.round_pos.
  destruct (Qle_bool _ _); [reflexivity |].
  rewrite Qred_correct. apply scale_nonneg.
  change 0%Q with (inject_Z 0). rewrite <- Zle_Qle.
  apply half_even_nonneg. now apply scale_nonneg.
Qed.

Lemma round_sign (q : Q) :
  match F64.round q with
  | F64.Fin r => ((0 <= q -> 0 <= r) /\ (q <= 0 -> r <= 0))%Q
  | F64.Inf negative => if negative then (q < 0)%Q else (0 < q)%Q
  | F64.NaN => False
  end.
Proof.
  unfold F64.round. pose proof (Qred_correct q) as Hred.
  destruct (Qcompare_spec (Qred q) 0) as [E | E | E].
  - split; intros _; lra.
  - assert (Hn : (0 <= - Qred q)%Q) by lra.
    pose proof (round_pos_sign _ Hn) as Hs.
    destruct (F64.round_pos (- Qred q)) as [| negative | r]; cbn [F64.neg].
    + exact Hs.
    + subst negative. cbn. lra.
    + split; intros H; lra.
  - assert (Hn : (0 <= Qred q)%Q) by lra.
    pose proof (round_pos_sign _ Hn) as Hs.
    destruct (F64.round_pos (Qred q)) as [| negative | r].
    + exact Hs.
    + subst negative. lra.
    + split; intros H; lra.
Qed.

Lemma ilog2_below (q : Q) (b : Z) :
  0 <= b -> (0 < q)%Q -> (q < inject_Z (2 ^ b))%Q -> F64.ilog2 q < b.
Proof.
  intros Hb Hpos Hlt. unfold F64.ilog2.
  set (d := Z.log2 (Qnum q) - Z.log2 (Z.pos (Qden q))).
  assert (Hnum : 0 < Qnum q).
  { unfold Qlt in Hpos. simpl in Hpos. lia. }
  assert (Hd : d <= b).
  { unfold Qlt in Hlt. cbn [Qnum Qden inject_Z] in Hlt.
    pose proof (Z.log2_spec (Z.pos (Qden q)) eq_refl) as [_ Hden].
    assert (Hn : Qnum q < 2 ^ (b + Z.succ (Z.log2 (Z.pos (Qden q))))).
    { rewrite Z.pow_add_r by (try lia; apply Z.le_le_succ_r, Z.log2_nonneg).
      assert (0 < 2 ^ b) by (apply Z.pow_pos_nonneg; lia). nia. }
    apply Z.log2_lt_pow2 in Hn; [| exact Hnum]. unfold d. lia. }
  destruct (Qle_bool (F64.scale 1 d) q) eqn:Ht; [| lia].
  apply Qle_bool_iff in Ht.
  destruct (Z.eq_dec d b) as [-> | Hne]; [| lia].
  rewrite scale_up in Ht by exact Hb. lra.
Qed.

(** Below 2^38 a rounded positive number is within 2^-16 of the number. *)
Lemma round_pos_near (q : Q) :
  (0 < q)%Q -> (q < inject_Z (2 ^ 38))%Q ->
  exists r, F64.round_pos q = F64.Fin r /\ (r - q <= 1 # 65536)%Q /\ (q - r <= 1 # 65536)%Q.
Proof.
  intros Hpos Hlt. pose proof (ilog2_below q 38 ltac:(lia) Hpos Hlt) as He.
  unfold F64.round_pos.
  set (k := Z.max (F64.ilog2 q - 52) (-1074)).
  set (j := - k).
  assert (Hj : 15 <= j) by (unfold j, k; lia).
  replace k with (- j) by (unfold j; lia).
  set (m := F64.half_even (F64.scale q j)).
  pose proof (half_even_error (F64.scale q j)) as [Hup Hdown]. fold m in Hup, Hdown.
  rewrite scale_up in Hup, Hdown by lia.
  pose proof (scale_down (inject_Z m) j ltac:(lia)) as Hr.
  set (r := F64.scale (inject_Z m) (- j)) in *.
  assert (Hp : (inject_Z (2 ^ 15) <= inject_Z (2 ^ j))%Q).
  { rewrite <- Zle_Qle. apply Z.pow_le_mono_r; lia. }
  change (inject_Z (2 ^ 15)) with 32768%Q in Hp.
  set (P := inject_Z (2 ^ j)) in *.
  assert (Hclose : (r - q <= 1 # 65536)%Q /\ (q - r <= 1 # 65536)%Q).
  { assert (H1 : ((r - q) * P <= 1 # 2)%Q) by (rewrite <- Hr in Hup; lra).
    assert (H2 : ((q - r) * P <= 1 # 2)%Q) by (rewrite <- Hr in Hdown; lra).
    split.
    - destruct (Qlt_le_dec (1 # 65536) (r - q)) as [Hbig |]; [exfalso | assumption].
      assert (((1 # 65536) * 32768 < (r - q) * P)%Q); [| lra].
      apply Qlt_le_trans with ((r - q) * 32768)%Q; [lra |].
      apply Qmult_le_l; lra.
    - destruct (Qlt_le_dec (1 # 65536) (q - r)) as [Hbig |]; [exfalso | assumption].
      assert (((1 # 65536) * 32768 < (q - r) * P)%Q); [| lra].
      apply Qlt_le_trans with ((q - r) * 32768)%Q; [lra |].
      apply Qmult_le_l; lra. }
  assert (Hover : Qle_bool (F64.scale 1 1024) r = false).
  { apply not_true_iff_false. intros Hb. apply Qle_bool_iff in Hb.
    rewrite scale_up in Hb by lia. rewrite Qmult_1_l in Hb.
    assert (Hbig : (inject_Z (2 ^ 39) <= inject_Z (2 ^ 1024))%Q).
    { rewrite <- Zle_Qle. apply Z.pow_le_mono_r; lia. }
    assert (Hstep : (inject_Z (2 ^ 38) + 1 <= inject_Z (2 ^ 39))%Q).
    { change 1%Q with (inject_Z 1). rewrite <- inject_Z_plus, <- Zle_Qle. lia. }
    lra. }
  rewrite Hover. exists (Qred r). split; [reflexivity |].
  rewrite Qred_correct. exact Hclose.
Qed.

Lemma round_near (q : Q) :
  (- inject_Z (2 ^ 38) < q)%Q -> (q < inject_Z (2 ^ 38))%Q ->
  exists r, F64.round q = F64.Fin r /\ (r - q <= 1 # 65536)%Q /\ (q - r <= 1 # 65536)%Q.
Proof.
  intros Hlo Hhi. unfold F64.round. pose proof (Qred_correct q) as Hred.
  destruct (Qcompare_spec (Qred q) 0) as [E | E | E].
  - exists 0%Q. split; [reflexivity |]. split; lra.
  - destruct (round_pos_near (- Qred q)) as (r & Hr & H1 & H2); try lra.
    rewrite Hr. exists (- r)%Q. split; [reflexivity |]. split; lra.
  - destruct (round_pos_near (Qred q)) as (r & Hr & H1 & H2); try lra.
    rewrite Hr. exists r. split; [reflexivity |]. split; lra.
Qed.

Lemma add_int (a b : Z) :
  Z.abs (a + b) < 2 ^ 53 -> F64.add (F64.int a) (F64.int b) = F64.int (a + b).
Proof.
  intros H. unfold F64.int, F64.add.
  rewrite (round_Qeq _ (inject_Z (a + b))) by (now rewrite inject_Z_plus).
  now apply round_whole.
Qed.

Lemma sub_int (a b : Z) :
  Z.abs (a - b) < 2 ^ 53 -> F64.sub (F64.int a) (F64.int b) = F64.int (a - b).
Proof.
  intros H. unfold F64.sub, F64.int. cbn [F64.neg]. rewrite <- inject_Z_opp.
  apply (add_int a (- b)). now rewrite Z.add_opp_r.
Qed.

Lemma mul_int (a b : Z) :
  Z.abs (a * b) < 2 ^ 53 -> F64.mul (F64.int a) (F64.int b) = F64.int (a * b).
Proof.
  intros H. unfold F64.int, F64.mul.
  rewrite (round_Qeq _ (inject_Z (a * b))) by (now rewrite inject_Z_mult).
  now apply round_whole.
Qed.

(** [Math.floor(x / 60000)] on whole numbers is the integer quotient. *)
Lemma floor_div_int (x : Z) :
  Z.abs x < 2 ^ 53 ->
  F64.floor (F64.div (F64.int x) (F64.int 60000)) = F64.int (x / 60000).
Proof.
  intros Hx. unfold F64.int, F64.div.
  change (Qeq_bool (inject_Z 60000) 0) with false. cbv iota.
  pose proof (Z.div_mod x 60000 ltac:(lia)) as Hdm.
  pose proof (Z.mod_pos_bound x 60000 ltac:(lia)) as Hmod.
  set (n := x / 60000) in *. set (j := x mod 60000) in *. clearbody n j.
  assert (Hq : (inject_Z x / inject_Z 60000 == inject_Z n + inject_Z j * (1 # 60000))%Q).
  { rewrite Hdm at 1. rewrite inject_Z_plus, inject_Z_mult.
    change (inject_Z 60000) with 60000%Q. field. }
  destruct (Z.eq_dec j 0) as [Hz | Hnz].
  - rewrite (round_Qeq _ (inject_Z n)).
    + rewrite round_whole by lia. cbn [F64.floor]. now rewrite Qfloor_Z.
    + rewrite Hq, Hz. change (inject_Z 0) with 0%Q. field.
  - assert (Hj1 : (1 <= inject_Z j)%Q).
    { change 1%Q with (inject_Z 1). rewrite <- Zle_Qle. lia. }
    assert (Hj2 : (inject_Z j <= 59999)%Q).
    { change 59999%Q with (inject_Z 59999). rewrite <- Zle_Qle. lia. }
    assert (Hn1 : (- inject_Z 200000000000 <= inject_Z n)%Q).
    { rewrite <- inject_Z_opp, <- Zle_Qle. lia. }
    assert (Hn2 : (inject_Z n <= inject_Z 200000000000)%Q).
    { rewrite <- Zle_Qle. lia. }
    change (inject_Z 200000000000) with 200000000000%Q in Hn1, Hn2.
    assert (H38 : (inject_Z (2 ^ 38) == 274877906944)%Q) by reflexivity.
    assert (Hlo : (- inject_Z (2 ^ 38) < inject_Z x / inject_Z 60000)%Q).
    { rewrite Hq, H38. lra. }
    assert (Hhi : (inject_Z x / inject_Z 60000 < inject_Z (2 ^ 38))%Q).
    { rewrite Hq, H38. lra. }
    destruct (round_near (inject_Z x / inject_Z 60000) Hlo Hhi) as (r & Hr & H1 & H2).
    rewrite Hr. cbn [F64.floor]. f_equal. f_equal.
    rewrite Hq in H1, H2.
    apply Z.le_antisymm.
    + apply Z.lt_succ_r. rewrite Zlt_Qlt.
      apply Qle_lt_trans with r; [apply Qfloor_le |].
      unfold Z.succ. rewrite inject_Z_plus. change (inject_Z 1) with 1%Q. lra.
    + rewrite <- (Qfloor_Z n). apply Qfloor_resp_le. lra.
Qed.

Lemma of_Z_int (z : Z) : Z.abs z < 2 ^ 53 -> F64.of_Z z = F64.int z.
Proof. apply round_whole. Qed.

Lemma truncate_int (z : Z) : F64.truncate (inject_Z z) = z.
Proof.
  unfold F64.truncate. destruct (Qle_bool 0 (inject_Z z)); [apply Qfloor_Z | apply Qceiling_Z].
Qed.

Lemma ToIntegerOrInfinity_int (z : Z) : F64.ToIntegerOrInfinity (F64.int z) = F64.int z.
Proof. unfold F64.int. cbn [F64.ToIntegerOrInfinity]. now rewrite truncate_int. Qed.

(** [Math.max(0, y)] on a whole number. *)
Lemma max0_int (y : Z) : F64.whole (F64.max (F64.int 0) (F64.int y)) = Some (Z.max 0 y).
Proof.
  unfold F64.int. cbn [F64.max].
  destruct (Qle_bool (inject_Z 0) (inject_Z y)) eqn:E; cbn [F64.whole]; rewrite Qfloor_Z.
  - apply Qle_bool_iff in E. rewrite <- Zle_Qle in E. f_equal. lia.
  - assert (Hn : ~ 0 <= y).
    { intros H. rewrite Zle_Qle in H. apply Qle_bool_iff in H. congruence. }
    f_equal. lia.
Qed.

(** [Math.max(0, x)] is [NaN] or not negative, whatever [x] is. *)
Lemma max0_nonneg (x : F64.t) (n : Z) :
  F64.whole (F64.max (F64.int 0) x) = Some n -> 0 <= n.
Proof.
  unfold F64.int. destruct x as [| [|] | q]; cbn [F64.max F64.whole]; try discriminate.
  - intros [= <-]. vm_compute. discriminate.
  - destruct (Qle_bool (inject_Z 0) q) eqn:E; cbn [F64.whole]; intros [= <-].
    + apply Qle_bool_iff in E. rewrite <- (Qfloor_Z 0). now apply Qfloor_resp_le.
    + vm_compute. discriminate.
Qed.

(** ** Calculators *)

Lemma Qmax0_nonneg (q : Q) : (0 <= Qmax0 q)%Q.
Proof.
  unfold Qmax0. destruct (Qle_bool 0 q) eqn:E.
  - now apply Qle_bool_iff.
  - apply Qle_refl.
Qed.

Lemma TimeClip_int (u : Z) :
  Z.abs u <= 8640000000000000 -> Clock.TimeClip (F64.int u) = Some u.
Proof.
  intros Hu. unfold Clock.TimeClip, F64.int.
  assert (E : Qle_bool (Qabs (inject_Z u)) (inject_Z 8640000000000000) = true).
  { apply Qle_bool_iff. apply Qabs_Qle_condition. rewrite <- inject_Z_opp, <- !Zle_Qle. lia. }
  rewrite E. now rewrite truncate_int.
Qed.

(** On recent instants and modest fields [setHours] is exact: it leaves
    the instant that wall clock [h]:[m] of the local day is read back
    as. *)
Lemma setHours_exact (zone : Clock.Zone) (cur h m : Z) :
  Clock.sane zone -> Clock.recent cur -> Clock.modest h -> Clock.modest m ->
  Clock.setHours zone (Some cur) (F64.int h) (F64.int m)
  = Some (Clock.atLocal zone (Clock.localDay zone cur) h m).
Proof.
  unfold Clock.recent, Clock.modest. intros Hz Hcur Hh Hm.
  unfold Clock.setHours, Clock.atLocal, Clock.localDay.
  destruct (Hz cur) as [Hoff _].
  set (day := Clock.Day (Clock.LocalTime zone cur)).
  assert (Hday : Z.abs (day * Clock.msPerDay) <= 2 ^ 50 + 2 * Clock.msPerDay).
  { unfold day, Clock.Day, Clock.LocalTime.
    pose proof (Z.div_mod (cur + Clock.offset_at zone cur) Clock.msPerDay ltac:(discriminate))
      as Hdm.
    pose proof (Z.mod_pos_bound (cur + Clock.offset_at zone cur) Clock.msPerDay eq_refl)
      as Hmod.
    unfold Clock.msPerDay in *. lia. }
  clearbody day.
  set (local := day * Clock.msPerDay + h * Clock.msPerHour + m * Clock.msPerMinute).
  destruct (Hz local) as [_ Hback].
  unfold Clock.MakeTime. cbn [F64.is_finite F64.int andb].
  rewrite !ToIntegerOrInfinity_int.
  unfold Clock.msPerDay, Clock.msPerHour, Clock.msPerMinute, Clock.msPerSecond in *.
  rewrite !mul_int by lia. rewrite !add_int by lia.
  unfold Clock.MakeDate. cbn [F64.is_finite F64.int andb]. unfold Clock.msPerDay.
  rewrite mul_int by lia. rewrite add_int by lia. cbn [F64.is_finite F64.int].
  unfold Clock.UTC. unfold F64.int at 1. rewrite Qfloor_Z.
  replace (day * (1000 * 60 * 60 * 24) + (h * (1000 * 60 * 60) + m * (1000 * 60) + 0 * 1000 + 0))
    with local by (unfold local; lia).
  assert (Hlocal : Z.abs local <= 6000000000000000) by (unfold local; lia).
  clearbody local.
  rewrite of_Z_int by lia. fold (F64.int local). rewrite sub_int by lia.
  apply TimeClip_int. lia.
Qed.

Lemma atLocal_modest (zone : Clock.Zone) (cur h m : Z) :
  Clock.sane zone -> Clock.recent cur -> Clock.modest h -> Clock.modest m ->
  Z.abs (Clock.atLocal zone (Clock.localDay zone cur) h m) <= 2 ^ 52 + 2 ^ 51.
Proof.
  unfold Clock.recent, Clock.modest. intros Hz Hcur Hh Hm.
  unfold Clock.atLocal, Clock.localDay.
  destruct (Hz cur) as [Hoff _].
  set (day := Clock.Day (Clock.LocalTime zone cur)).
  assert (Hday : Z.abs (day * Clock.msPerDay) <= 2 ^ 50 + 2 * Clock.msPerDay).
  { unfold day, Clock.Day, Clock.LocalTime.
    pose proof (Z.div_mod (cur + Clock.offset_at zone cur) Clock.msPerDay ltac:(discriminate))
      as Hdm.
    pose proof (Z.mod_pos_bound (cur + Clock.offset_at zone cur) Clock.msPerDay eq_refl)
      as Hmod.
    unfold Clock.msPerDay in *. lia. }
  clearbody day.
  destruct (Hz (day * Clock.msPerDay + h * Clock.msPerHour + m * Clock.msPerMinute))
    as [_ Hback].
  unfold Clock.msPerDay, Clock.msPerHour, Clock.msPerMinute in *. lia.
Qed.

(** What the two calculators make of the minutes between two instants. *)
Lemma minutes_between (a b bound : Z) :
  Z.abs a <= 2 ^ 52 + 2 ^ 51 -> Z.abs b <= 2 ^ 52 + 2 ^ 51 -> Z.abs (a - b) < 2 ^ 53 ->
  Clock.modest bound ->
  F64.whole
    (F64.max (F64.int 0)
       (F64.sub
          (F64.floor (F64.div (F64.sub (F64.int a) (F64.int b))
                        (F64.mul (F64.int 1000) (F64.int 60))))
          (F64.of_Z bound)))
  = Some (Z.max 0 ((a - b) / (1000 * 60) - bound)).
Proof.
  unfold Clock.modest. intros Ha Hb Hab Hbound.
  rewrite sub_int by exact Hab. rewrite mul_int by (simpl; lia).
  change (1000 * 60) with 60000. rewrite floor_div_int by exact Hab.
  rewrite of_Z_int by lia.
  assert (Hq : Z.abs ((a - b) / 60000) <= 2 ^ 40).
  { pose proof (Z.div_mod (a - b) 60000 ltac:(lia)) as Hdm.
    pose proof (Z.mod_pos_bound (a - b) 60000 ltac:(lia)) as Hmod. lia. }
  rewrite sub_int by lia. apply max0_int.
Qed.

Lemma calculateLateness_formula (tz : Clock.Zone) (cur h m grace : Z) (start : string) :
  JS.clock_fields start = (F64.int h, F64.int m) ->
  Clock.sane tz -> Clock.modest h -> Clock.modest m -> Clock.modest grace ->
  Clock.recent cur ->
  calculateLateness tz (Some cur) start grace
  = Some (Z.max 0 ((cur - Clock.atLocal tz (Clock.localDay tz cur) h m) / (1000 * 60)
                   - grace)).
Proof.
  intros Hc Hz Hh Hm Hg Hcur. unfold calculateLateness. rewrite Hc.
  rewrite setHours_exact by assumption. cbn [Clock.getTime].
  pose proof (atLocal_modest tz cur h m Hz Hcur Hh Hm) as Hs.
  unfold Clock.recent in Hcur.
  apply minutes_between; try assumption; lia.
Qed.

Lemma calculateEarlyDeparture_formula (tz : Clock.Zone) (cur h m threshold : Z)
    (rosterEnd : string) :
  JS.clock_fields rosterEnd = (F64.int h, F64.int m) ->
  Clock.sane tz -> Clock.modest h -> Clock.modest m -> Clock.modest threshold ->
  Clock.recent cur ->
  calculateEarlyDeparture tz (Some cur) rosterEnd threshold
  = Some (Z.max 0 ((Clock.atLocal tz (Clock.localDay tz cur) h m - cur) / (1000 * 60)
                   - threshold)).
Proof.
  intros Hc Hz Hh Hm Hg Hcur. unfold calculateEarlyDeparture. rewrite Hc.
  rewrite setHours_exact by assumption. cbn [Clock.getTime].
  pose proof (atLocal_modest tz cur h m Hz Hcur Hh Hm) as Hs.
  unfold Clock.recent in Hcur.
  apply minutes_between; try assumption; lia.
Qed.

(** The start of the shift, seen from an instant whose wall clock is
    known, when the zone keeps its offset between the two. *)
Lemma atLocal_steady (tz : Clock.Zone) (cur day H M s h m : Z) :
  Clock.shows tz cur day H M s -> Clock.steady tz cur day h m ->
  0 <= H * 60 + M < 1440 -> 0 <= s < 60000 ->
  Clock.localDay tz cur = day
  /\ cur - Clock.atLocal tz day h m = ((H - h) * 60 + (M - m)) * 60000 + s.
Proof.
  unfold Clock.shows, Clock.steady, Clock.localDay, Clock.atLocal, Clock.Day.
  intros Hshow Hsteady HM Hs.
  assert (Hday : Clock.LocalTime tz cur / Clock.msPerDay = day).
  { rewrite Hshow. unfold Clock.msPerDay, Clock.msPerHour, Clock.msPerMinute.
    symmetry. apply Z.div_unique with (r := (H * 60 + M) * 60000 + s); lia. }
  split; [exact Hday |].
  cbv zeta. rewrite Hsteady. unfold Clock.LocalTime in Hshow.
  unfold Clock.msPerDay, Clock.msPerHour, Clock.msPerMinute in *. lia.
Qed.

Lemma calculateLateness_nonneg (tz : Clock.Zone) (cur : option Z) (start : string)
    (grace n : Z) :
  calculateLateness tz cur start grace = Some n -> 0 <= n.
Proof.
  unfold calculateLateness. destruct (JS.clock_fields start) as [hours minutes].
  apply max0_nonneg.
Qed.

(** C8. For a roster start text whose two fields read as whole numbers
    of hours and minutes, [calculateLateness] is max(0, floor((currentTime
    - start of shift on the same local day) in minutes) - gracePeriod),
    the start of shift being the instant that wall clock hours:minutes of
    that day is read back as.  When the zone keeps its offset between the
    start of shift and the scan, that is the difference of the two wall
    clocks: a scan at 09:10 against "09:00" with grace 5 gives 5, a scan
    at 08:55 gives 0.  The result is never negative, whatever the time,
    the text and the grace period. *)
Theorem C8_calculateLateness (tz : Clock.Zone) (start : string) (h m grace : Z) :
  JS.clock_fields start = (F64.int h, F64.int m) ->
  Clock.sane tz -> Clock.modest h -> Clock.modest m -> Clock.modest grace ->
  (forall cur,
      Clock.recent cur ->
      calculateLateness tz (Some cur) start grace
      = Some (Z.max 0 ((cur - Clock.atLocal tz (Clock.localDay tz cur) h m) / (1000 * 60)
                       - grace)))
  /\ (forall cur day H M s,
         Clock.recent cur -> Clock.shows tz cur day H M s -> Clock.steady tz cur day h m ->
         0 <= H * 60 + M < 1440 -> 0 <= s < 60000 ->
         calculateLateness tz (Some cur) start grace
         = Some (Z.max 0 ((H - h) * 60 + (M - m) - grace)))
  /\ (forall cur day,
         Clock.recent cur -> Clock.steady tz cur day 9 0 ->
         (Clock.shows tz cur day 9 10 0 ->
          calculateLateness tz (Some cur) "09:00" 5 = Some 5)
         /\ (Clock.shows tz cur day 8 55 0 ->
             calculateLateness tz (Some cur) "09:00" 5 = Some 0))
  /\ (forall cur text period n,
         calculateLateness tz cur text period = Some n -> 0 <= n).
Proof.
  intros Hc Hz Hh Hm Hg.
  assert (Hwall : forall text h m grace cur day H M s,
             JS.clock_fields text = (F64.int h, F64.int m) ->
             Clock.modest h -> Clock.modest m -> Clock.modest grace ->
             Clock.recent cur -> Clock.shows tz cur day H M s ->
             Clock.steady tz cur day h m ->
             0 <= H * 60 + M < 1440 -> 0 <= s < 60000 ->
             calculateLateness tz (Some cur) text grace
             = Some (Z.max 0 ((H - h) * 60 + (M - m) - grace))).
  { intros text h0 m0 grace0 cur day H M s Hc0 Hh0 Hm0 Hg0 Hcur Hshow Hsteady HM Hs.
    rewrite (calculateLateness_formula tz cur h0 m0) by assumption.
    destruct (atLocal_steady tz cur day H M s h0 m0 Hshow Hsteady HM Hs) as [-> ->].
    do 2 f_equal. f_equal. change (1000 * 60) with 60000.
    symmetry. apply Z.div_unique with (r := s); lia. }
  split; [| split; [| split]].
  - intros cur Hcur. now apply calculateLateness_formula.
  - intros cur day H M s Hcur Hshow Hsteady HM Hs.
    now apply (Hwall start h m grace cur day H M s).
  - intros cur day Hcur Hsteady. split; intros Hshow.
    + apply (Hwall "09:00" 9 0 5 cur day 9 10 0); try assumption; try reflexivity;
        unfold Clock.modest; simpl; lia.
    + apply (Hwall "09:00" 9 0 5 cur day 8 55 0); try assumption; try reflexivity;
        unfold Clock.modest; simpl; lia.
  - intros cur text period n. apply calculateLateness_nonneg.
Qed.

Lemma C8_calculateLateness_witness :
  calculateLateness (Clock.fixed 3600000)
    (Some (Clock.atLocal (Clock.fixed 3600000) 20000 9 47 + 12345)) "09:30:00" 5
  = Some 12.
Proof.
  assert (Hz : Clock.sane (Clock.fixed 3600000)).
  { intros t. split; reflexivity. }
  destruct (C8_calculateLateness (Clock.fixed 3600000) "09:30:00" 9 30 5 eq_refl Hz
              ltac:(unfold Clock.modest; simpl; lia) ltac:(unfold Clock.modest; simpl; lia)
              ltac:(unfold Clock.modest; simpl; lia)) as [_ [Hw _]].
  apply (Hw _ 20000 9 47 12345); try reflexivity; try lia.
  unfold Clock.recent. vm_compute. discriminate.
Defined.

(** On the day New York leaves summer time, 3 November 2024, a scan at
    23:30 is 24 hours after the 00:30 of that day, not 23; and in
    Amsterdam on 31 March 2024 a scan at 03:20 is 50 minutes after
    01:30. *)
Example lateness_across_an_offset_change :
  calculateLateness Sample.new_york (Some 1730694600000) "00:30" 0 = Some 1440
  /\ Clock.shows Sample.new_york 1730694600000 20030 23 30 0
  /\ calculateLateness Sample.amsterdam (Some 1711848000000) "01:30" 60 = Some 0
  /\ Clock.shows Sample.amsterdam 1711848000000 19813 3 20 0
  /\ calculateLateness Sample.amsterdam (Some 1711848000000) "01:30" 0 = Some 50.
Proof. repeat split; vm_compute; reflexivity. Qed.

(** Texts that [Number] reads, and texts on which the clock gives up. *)
Example clock_fields_read :
  JS.clock_fields " 09:00" = (F64.int 9, F64.int 0)
  /\ JS.clock_fields "+9:0x1E" = (F64.int 9, F64.int 30)
  /\ JS.clock_fields "9.0:3e1" = (F64.int 9, F64.int 30)
  /\ JS.clock_fields "09" = (F64.int 9, F64.NaN)
  /\ JS.clock_fields "nine:00" = (F64.NaN, F64.int 0)
  /\ calculateLateness Clock.utc (Some Sample.nine_ten) " 09:00" 5 = Some 5
  /\ calculateLateness Clock.utc (Some Sample.nine_ten) "3000000000:00" 5 = None
  /\ calculateLateness Clock.utc (Some Sample.nine_ten) "09" 5 = None
  /\ calculateLateness Clock.utc None "09:00" 5 = None.
Proof. repeat split; vm_compute; reflexivity. Qed.

Lemma Qmax0_nonpos (z : Z) : z <= 0 -> (Qmax0 (inject_Z z / 60) == 0)%Q.
Proof.
  intros Hz. unfold Qmax0. destruct (Qle_bool 0 (inject_Z z / 60)) eqn:E; [| reflexivity].
  apply Qle_bool_iff in E. apply Qle_antisym; [| exact E].
  unfold Qle, Qdiv, Qmult, Qinv, inject_Z in *; simpl in *. lia.
Qed.

Lemma Qmax0_Qeq (p q : Q) : (p == q)%Q -> (Qmax0 p == Qmax0 q)%Q.
Proof.
  intros H. unfold Qmax0.
  destruct (Qle_bool 0 p) eqn:Ep, (Qle_bool 0 q) eqn:Eq; try assumption; try reflexivity.
  - apply Qle_bool_iff in Ep. rewrite H in Ep. apply Qle_bool_iff in Ep. congruence.
  - apply Qle_bool_iff in Eq. rewrite <- H in Eq. apply Qle_bool_iff in Eq. congruence.
Qed.

Lemma whole_minute (a : Z) :
  a mod 60000 = 0 -> (inject_Z (a / 60000) == inject_Z a * (1 # 60000))%Q.
Proof.
  intros Ha.
  pose proof (Z.div_mod a 60000 ltac:(lia)) as Ea. rewrite Ha, Z.add_0_r in Ea.
  set (x := a / 60000) in *. clearbody x. subst a.
  rewrite inject_Z_mult. change (inject_Z 60000) with 60000%Q. field.
Qed.

Lemma Qmax0_of_nonpos (q : Q) : (q <= 0)%Q -> (Qmax0 q == 0)%Q.
Proof.
  intros Hq. unfold Qmax0. destruct (Qle_bool 0 q) eqn:E; [| reflexivity].
  apply Qle_bool_iff in E. now apply Qle_antisym.
Qed.

(** Where [calculateActualHours] and the worded contract agree: on every
    record whose first session is not left open (and that has no second
    session without a first) and whose sessions last whole minutes; the
    source counts each session in whole minutes, rounded down. *)
Lemma calculateActualHours_closed_first (r : Sessions) (now breakMinutes : Z) :
  0 <= breakMinutes ->
  (JS.truthy (s_first_check_in_time r) = true ->
   JS.truthy (s_first_check_out_time r) = true) ->
  (JS.truthy (s_second_check_in_time r) = true ->
   JS.truthy (s_first_check_in_time r) = true) ->
  whole_minutes r now ->
  (calculateActualHours (Some r) now breakMinutes == actualHours_spec r now breakMinutes)%Q.
Proof.
  intros Hb.
  assert (Hq : (0 <= inject_Z breakMinutes)%Q)
    by (change 0%Q with (inject_Z 0); now rewrite <- Zle_Qle).
  destruct r as [[a|] [b|] [c|] [d|]]; unfold calculateActualHours, actualHours_spec,
    whole_minutes, session_ms; cbn [s_first_check_in_time s_first_check_out_time
    s_second_check_in_time s_second_check_out_time]; intros H1 H2 [Hw1 Hw2];
    try (specialize (H1 eq_refl); discriminate);
    try (specialize (H2 eq_refl); discriminate).
  all: cbv zeta; change (1000 * 60) with 60000.
  all: try (symmetry; apply Qmax0_of_nonpos; unfold Qdiv;
            change (/ 60)%Q with (1 # 60)%Q; change (/ 60000)%Q with (1 # 60000)%Q;
            change (inject_Z (0 + 0)) with 0%Q; lra).
  all: apply Qmax0_Qeq; set (x := b - a) in *;
    try set (y := d - c) in *; try set (y := now - c) in *;
    rewrite ?Z.add_0_l, ?Z.add_0_r; unfold Z.sub;
    rewrite !inject_Z_plus, inject_Z_opp, ?(whole_minute _ Hw1), ?(whole_minute _ Hw2);
    field.
Qed.

Lemma calculateActualHours_nonneg (r : option Sessions) (now breakMinutes : Z) :
  (0 <= calculateActualHours r now breakMinutes)%Q.
Proof.
  unfold calculateActualHours. destruct r as [r|]; [| apply Qle_refl].
  destruct (s_first_check_in_time r); [| apply Qle_refl].
  apply Qmax0_nonneg.
Qed.

(** C2. An open first session (first_check_in_time set, everything else
    null) contributes nothing in [calculateActualHours]: with no break
    the result is 0 whatever the current time, whereas the worded
    contract counts now - checkin, one hour when now is one hour after
    the check-in. *)
Theorem C2_open_first_session_not_counted (checkin now : Z) :
  (calculateActualHours (Some (mkSessions (Some checkin) None None None)) now 0 == 0)%Q
  /\ (actualHours_spec (mkSessions (Some checkin) None None None)
        (checkin + 60 * 60 * 1000) 0 == 1)%Q
  /\ (calculateActualHours (Some (mkSessions (Some checkin) None None None))
        (checkin + 60 * 60 * 1000) 0 == 0)%Q.
Proof.
  split; [reflexivity | split; [| reflexivity]].
  unfold actualHours_spec, session_ms;
    cbn [s_first_check_in_time s_first_check_out_time s_second_check_in_time].
  replace (checkin + 60 * 60 * 1000 - checkin + 0) with 3600000 by lia.
  reflexivity.
Qed.

(** ** Writes *)

Section RecorderFacts.

Variable tz : Clock.Zone.
Variable getEmployeeRoster : string -> Store -> Exn + option Roster.t.
Variable violates : list Attendance.t -> Attendance.t -> option Pg.PgError.

Lemma insert_cases d now st reply st' :
  insert violates d now st = (reply, st') ->
  (exists row, wrote reply row /\ st' = add_row st row
      /\ row = new_row (match AttendanceData.id d with
                        | Some k => k
                        | None => next_id st
                        end) d now
      /\ existsb (has_id (Attendance.id row)) (attendance st) = false)
  \/ (st' = st /\ forall row, ~ wrote reply row).
Proof.
  unfold insert, wrote. intros H.
  destruct (outage st) as [[e|m]|].
  - inversion H; subst. right. split; [reflexivity | intros row Hr; discriminate].
  - inversion H; subst. right. split; [reflexivity | intros row Hr; discriminate].
  - destruct (existsb _ (attendance st)) eqn:Hex.
    + inversion H; subst. right. split; [reflexivity | intros row Hr; discriminate].
    + destruct (violates _ _).
      * inversion H; subst. right. split; [reflexivity | intros row Hr; discriminate].
      * inversion H; subst. left. eexists. repeat split. exact Hex.
Qed.

Lemma upsert_cases d now st reply st' :
  upsert violates d now st = (reply, st') ->
  (exists row, wrote reply row /\ st' = add_row st row
      /\ row = new_row (match AttendanceData.id d with
                        | Some k => k
                        | None => next_id st
                        end) d now
      /\ existsb (has_id (Attendance.id row)) (attendance st) = false)
  \/ (exists key old row,
         AttendanceData.id d = Some key
         /\ find (has_id key) (attendance st) = Some old
         /\ row = updated_row old d
         /\ wrote reply row /\ st' = put_row st row)
  \/ (st' = st /\ forall row, ~ wrote reply row).
Proof.
  unfold upsert. intros H.
  destruct (outage st) as [[e|m]|] eqn:Hout.
  - inversion H; subst. right; right. split; [reflexivity | intros row Hr; discriminate].
  - inversion H; subst. right; right. split; [reflexivity | intros row Hr; discriminate].
  - destruct (AttendanceData.id d) as [key|] eqn:Hid.
    + destruct (find (has_id key) (attendance st)) as [old|] eqn:Hfind.
      * destruct (violates _ _).
        -- inversion H; subst. right; right.
           split; [reflexivity | intros row Hr; discriminate].
        -- inversion H; subst. right; left. exists key, old. eexists.
           repeat split. exact Hfind.
      * apply insert_cases in H. rewrite Hid in H.
        destruct H as [H | H]; [left; exact H | right; right; exact H].
    + apply insert_cases in H. rewrite Hid in H.
      destruct H as [H | H]; [left; exact H | right; right; exact H].
Qed.

Lemma persist_success employee a d now ml ed st res st' :
  persist violates employee a d now ml ed st = (inr res, st') ->
  action res = a
  /\ (if is_action a second_check_in
      then insert violates d now st
      else upsert violates d now st) = (Pg.Resolved (Some (stored res)) None, st').
Proof.
  unfold persist, bind, await_write, throw, ret.
  destruct ((if is_action a second_check_in then insert violates d now
             else upsert violates d now) st) as [reply s] eqn:Hw.
  destruct reply as [[row|] [e|] | x]; intros H; inversion H; subst; simpl.
  split; [reflexivity |].
  destruct (is_action a second_check_in); exact Hw.
Qed.

Lemma persist_failure employee a d now ml ed st x st' :
  persist violates employee a d now ml ed st = (inl x, st') -> st' = st.
Proof.
  unfold persist, bind, await_write, throw, ret.
  destruct ((if is_action a second_check_in then insert violates d now
             else upsert violates d now) st) as [reply s] eqn:Hw.
  assert (Hs : (forall row, ~ wrote reply row) -> s = st).
  { intros Hn. destruct (is_action a second_check_in).
    - apply insert_cases in Hw. destruct Hw as [[row [Hr _]] | [Hs _]]; [| exact Hs].
      elim (Hn row Hr).
    - apply upsert_cases in Hw.
      destruct Hw as [[row [Hr _]] | [[key [old [row [_ [_ [_ [Hr _]]]]]]] | [Hs _]]];
        [elim (Hn row Hr) | elim (Hn row Hr) | exact Hs]. }
  destruct reply as [[row|] [e|] | y]; intros H; inversion H; subst;
    apply Hs; intros r Hr; unfold wrote in Hr; discriminate.
Qed.

End RecorderFacts.

Section RecorderRuns.

Variable tz : Clock.Zone.
Variable getEmployeeRoster : string -> Store -> Exn + option Roster.t.
Variable violates : list Attendance.t -> Attendance.t -> option Pg.PgError.

Ltac dead H :=
  solve [ simpl in H; discriminate
        | simpl in H;
          match type of H with
          | context [match ?x with AttendanceError _ => _ | OtherError _ => _ end] =>
              destruct x; discriminate
          end ].

Ltac same H :=
  simpl in H;
  try match type of H with
      | context [match ?x with AttendanceError _ => _ | OtherError _ => _ end] =>
          destruct x
      end;
  inversion H; reflexivity.

(** The recorder, once the employee, the roster and today's record are
    read without error. *)
Lemma recordAttendance_after_reads employeeId now st employee roster existingRecord :
  Query.employee_by_id employeeId st = Pg.Resolved (Some employee) None ->
  Employee.status employee = "active" ->
  getEmployeeRoster employeeId st = inr (Some roster) ->
  Roster.id roster <> "" ->
  Query.attendance_of_day employeeId (Clock.isoDate now) st
  = Pg.Resolved existingRecord None ->
  forall nextAction nextStatus,
    nextStep existingRecord = inr (nextAction, nextStatus) ->
    forall e, checkSequence existingRecord nextAction now = Some (AttendanceError e) ->
    recordAttendance tz getEmployeeRoster violates employeeId now st
    = (inl (AttendanceError e), st).
Proof.
  intros Hemp Hact Hros Hrid Hrec a s Hstep e Hseq.
  unfold recordAttendance, tryCatch, bind, await, await_roster, throw.
  rewrite Hemp, Hact. simpl. rewrite Hros.
  apply String.eqb_neq in Hrid. rewrite Hrid, Hrec, Hstep, Hseq. reflexivity.
Qed.

Lemma recordAttendance_all_done employeeId now st employee roster existingRecord e :
  Query.employee_by_id employeeId st = Pg.Resolved (Some employee) None ->
  Employee.status employee = "active" ->
  getEmployeeRoster employeeId st = inr (Some roster) ->
  Roster.id roster <> "" ->
  Query.attendance_of_day employeeId (Clock.isoDate now) st
  = Pg.Resolved existingRecord None ->
  nextStep existingRecord = inl (AttendanceError e) ->
  recordAttendance tz getEmployeeRoster violates employeeId now st
  = (inl (AttendanceError e), st).
Proof.
  intros Hemp Hact Hros Hrid Hrec Hstep.
  unfold recordAttendance, tryCatch, bind, await, await_roster, throw.
  rewrite Hemp, Hact. simpl. rewrite Hros.
  apply String.eqb_neq in Hrid. rewrite Hrid, Hrec, Hstep. reflexivity.
Qed.

(** What a successful run has read and written. *)
Lemma recordAttendance_success employeeId now st res st' :
  recordAttendance tz getEmployeeRoster violates employeeId now st = (inr res, st') ->
  exists employee roster existingRecord nextStatus minutesLate early expectedHours,
    Query.employee_by_id employeeId st = Pg.Resolved (Some employee) None
    /\ getEmployeeRoster employeeId st = inr (Some roster)
    /\ Query.attendance_of_day employeeId (Clock.isoDate now) st
       = Pg.Resolved existingRecord None
    /\ nextStep existingRecord = inr (action res, nextStatus)
    /\ checkSequence existingRecord (action res) now = None
    /\ (if is_action (action res) second_check_in
        then insert violates
               (secondSessionData employeeId roster (Clock.isoDate now) now existingRecord
                  nextStatus minutesLate early expectedHours) now st
        else upsert violates
               (updateData employeeId roster (Clock.isoDate now) now existingRecord
                  (action res) nextStatus minutesLate early expectedHours) now st)
       = (Pg.Resolved (Some (stored res)) None, st').
Proof.
  unfold recordAttendance, tryCatch, bind, await, await_roster, throw.
  intros H.
  destruct (Query.employee_by_id employeeId st) as [[employee|] [err|] | x] eqn:Hemp;
    [dead H | | dead H | dead H | dead H].
  destruct (negb (Employee.status employee =? "active")%string) eqn:Hact; [dead H |].
  destruct (getEmployeeRoster employeeId st) as [x | [roster|]] eqn:Hros;
    [dead H | | dead H].
  destruct (Roster.id roster =? "")%string eqn:Hrid; [dead H |].
  destruct (Query.attendance_of_day employeeId (Clock.isoDate now) st)
    as [existing [err|] | x] eqn:Hrec; [dead H | | dead H].
  destruct (nextStep existing) as [x | [a s]] eqn:Hstep; [dead H |].
  destruct (checkSequence existing a now) as [x|] eqn:Hseq; [dead H |].
  destruct (is_action a second_check_in) eqn:Hsec.
  all: match type of H with
       | context [persist ?v ?e ?a ?d ?n ?ml ?ed ?s0] =>
           destruct (persist v e a d n ml ed s0) as [[x|r] s'] eqn:Hp; [dead H |]
       end.
  all: inversion H; subst r s'.
  all: apply persist_success in Hp; destruct Hp as [Ha Hw]; subst a.
  all: rewrite Hsec in *.
  all: do 7 eexists; repeat split; try eassumption.
Qed.

(** Zero writes on every failure branch. *)
Lemma recordAttendance_failure employeeId now st x st' :
  recordAttendance tz getEmployeeRoster violates employeeId now st = (inl x, st') ->
  st' = st.
Proof.
  unfold recordAttendance, tryCatch, bind, await, await_roster, throw.
  intros H.
  destruct (Query.employee_by_id employeeId st) as [[employee|] [err|] | y] eqn:Hemp;
    [same H | | same H | same H | same H].
  destruct (negb (Employee.status employee =? "active")%string) eqn:Hact; [same H |].
  destruct (getEmployeeRoster employeeId st) as [y | [roster|]] eqn:Hros;
    [same H | | same H].
  destruct (Roster.id roster =? "")%string eqn:Hrid; [same H |].
  destruct (Query.attendance_of_day employeeId (Clock.isoDate now) st)
    as [existing [err|] | y] eqn:Hrec; [same H | | same H].
  destruct (nextStep existing) as [y | [a s]] eqn:Hstep; [same H |].
  destruct (checkSequence existing a now) as [y|] eqn:Hseq; [same H |].
  destruct (is_action a second_check_in) eqn:Hsec.
  all: match type of H with
       | context [persist ?v ?e ?a ?d ?n ?ml ?ed ?s0] =>
           destruct (persist v e a d n ml ed s0) as [[y|r] s'] eqn:Hp;
           [apply persist_failure in Hp; subst s'; same H | discriminate]
       end.
Qed.

End RecorderRuns.

(** ** The ladder of the recorder and the row it writes *)

Lemma nextStep_none (a : AttendanceAction) (s : string) :
  nextStep None = inr (a, s) -> a = first_check_in.
Proof. intros [= <- _]. reflexivity. Qed.

Lemma nextStep_some (r : Attendance.t) (a : AttendanceAction) (s : string) :
  nextStep (Some r) = inr (a, s) ->
  (a = first_check_out
   /\ JS.truthy (Attendance.first_check_in_time r) = true
   /\ Attendance.first_check_out_time r = None)
  \/ (a = second_check_in
      /\ JS.truthy (Attendance.first_check_out_time r) = true
      /\ Attendance.second_check_in_time r = None)
  \/ (a = second_check_out
      /\ JS.truthy (Attendance.second_check_in_time r) = true
      /\ Attendance.second_check_out_time r = None).
Proof.
  unfold nextStep.
  destruct (Attendance.first_check_in_time r), (Attendance.first_check_out_time r),
    (Attendance.second_check_in_time r), (Attendance.second_check_out_time r);
    simpl; intros H; inversion H; subst; auto 10.
Qed.

Lemma attendance_of_day_found employeeId day st r :
  Query.attendance_of_day employeeId day st = Pg.Resolved (Some r) None ->
  In r (attendance st) /\ Query.of_day employeeId day r = true.
Proof.
  unfold Query.attendance_of_day, Query.answer.
  destruct (outage st) as [[e|m]|]; try discriminate.
  destruct (filter (Query.of_day employeeId day) (attendance st)) as [|x [|y l]] eqn:Hf;
    simpl; try discriminate.
  intros [= ->]. apply filter_In. rewrite Hf. now left.
Qed.

Lemma find_has_id (r : Attendance.t) (table : list Attendance.t) :
  In r table ->
  exists old, find (has_id (Attendance.id r)) table = Some old
              /\ Attendance.id old = Attendance.id r.
Proof.
  intros Hin. destruct (find (has_id (Attendance.id r)) table) as [old|] eqn:Hf.
  - exists old. split; [reflexivity |].
    apply find_some in Hf. destruct Hf as [_ Hid]. now apply Nat.eqb_eq in Hid.
  - apply (find_none _ _ Hf) in Hin. unfold has_id in Hin.
    rewrite Nat.eqb_refl in Hin. discriminate.
Qed.

Section RecorderShape.

Variable tz : Clock.Zone.
Variable getEmployeeRoster : string -> Store -> Exn + option Roster.t.
Variable violates : list Attendance.t -> Attendance.t -> option Pg.PgError.

(** The three shapes of a successful write: the first row of the day is
    created, the day's row is updated under its own key, or a second
    session is inserted as a new row. *)
Lemma recordAttendance_written employeeId now st res st' :
  recordAttendance tz getEmployeeRoster violates employeeId now st = (inr res, st') ->
  exists roster existingRecord nextStatus minutesLate early expectedHours,
    Query.attendance_of_day employeeId (Clock.isoDate now) st
    = Pg.Resolved existingRecord None
    /\ nextStep existingRecord = inr (action res, nextStatus)
    /\ match action res with
       | first_check_in =>
           existingRecord = None
           /\ stored res
              = new_row (next_id st)
                  (updateData employeeId roster (Clock.isoDate now) now None
                     first_check_in nextStatus minutesLate early expectedHours) now
           /\ st' = add_row st (stored res)
       | second_check_in =>
           exists prior,
             existingRecord = Some prior
             /\ stored res
                = new_row (next_id st)
                    (secondSessionData employeeId roster (Clock.isoDate now) now
                       (Some prior) nextStatus minutesLate early expectedHours) now
             /\ existsb (has_id (next_id st)) (attendance st) = false
             /\ st' = add_row st (stored res)
       | first_check_out | second_check_out =>
           exists prior old,
             existingRecord = Some prior
             /\ find (has_id (Attendance.id prior)) (attendance st) = Some old
             /\ Attendance.id old = Attendance.id prior
             /\ stored res
                = updated_row old
                    (updateData employeeId roster (Clock.isoDate now) now (Some prior)
                       (action res) nextStatus minutesLate early expectedHours)
             /\ st' = put_row st (stored res)
       | completed => False
       end.
Proof.
  intros H. apply recordAttendance_success in H.
  destruct H as (employee & roster & existing & status & ml & ed & eh
                 & _ & _ & Hrec & Hstep & _ & Hw).
  exists roster, existing, status, ml, ed, eh.
  split; [exact Hrec | split; [exact Hstep |]].
  destruct existing as [prior|].
  - destruct (attendance_of_day_found _ _ _ _ Hrec) as [Hin _].
    destruct (find_has_id prior (attendance st) Hin) as [old [Hfind Hid]].
    destruct (nextStep_some _ _ _ Hstep) as [[Ha _] | [[Ha _] | [Ha _]]];
      rewrite Ha in *; simpl in Hw.
    + apply upsert_cases in Hw. simpl in Hw.
      destruct Hw as [[row [_ [_ [Hrow Hfresh]]]] | [Hu | [_ Hn]]].
      * exfalso. rewrite Hrow in Hfresh. simpl in Hfresh.
        rewrite <- not_true_iff_false in Hfresh. apply Hfresh.
        apply existsb_exists. exists prior. split; [exact Hin |].
        unfold has_id. apply Nat.eqb_refl.
      * destruct Hu as (key & old' & row & [= <-] & Hfind' & Hrow & Hr & Hst).
        unfold wrote in Hr. injection Hr as <-.
        rewrite Hfind in Hfind'. injection Hfind' as <-.
        exists prior, old. repeat split; assumption.
      * elim (Hn _ eq_refl).
    + apply insert_cases in Hw. simpl in Hw.
      destruct Hw as [[row [Hr [Hst [Hrow Hfresh]]]] | [_ Hn]]; [| elim (Hn _ eq_refl)].
      unfold wrote in Hr. injection Hr as <-.
      exists prior. repeat split; try assumption.
      rewrite Hrow in Hfresh. exact Hfresh.
    + apply upsert_cases in Hw. simpl in Hw.
      destruct Hw as [[row [_ [_ [Hrow Hfresh]]]] | [Hu | [_ Hn]]].
      * exfalso. rewrite Hrow in Hfresh. simpl in Hfresh.
        rewrite <- not_true_iff_false in Hfresh. apply Hfresh.
        apply existsb_exists. exists prior. split; [exact Hin |].
        unfold has_id. apply Nat.eqb_refl.
      * destruct Hu as (key & old' & row & [= <-] & Hfind' & Hrow & Hr & Hst).
        unfold wrote in Hr. injection Hr as <-.
        rewrite Hfind in Hfind'. injection Hfind' as <-.
        exists prior, old. repeat split; assumption.
      * elim (Hn _ eq_refl).
  - rewrite (nextStep_none _ _ Hstep) in *. simpl in Hw.
    apply upsert_cases in Hw. simpl in Hw.
    destruct Hw as [[row [Hr [Hst [Hrow _]]]] | [Hu | [_ Hn]]].
    + unfold wrote in Hr. injection Hr as <-. repeat split; assumption.
    + destruct Hu as (key & old' & row & Hk & _). discriminate.
    + elim (Hn _ eq_refl).
Qed.

End RecorderShape.

(** ** The recorder: timestamps, validation, insert or update *)

Lemma stored_row_in_table (row prior : Attendance.t) (st : Store) :
  In prior (attendance st) -> Attendance.id row = Attendance.id prior ->
  In row (attendance (put_row st row)).
Proof.
  intros Hin Hid. unfold put_row; simpl.
  apply in_map with (f := fun r => if has_id (Attendance.id row) r then row else r) in Hin.
  unfold has_id in Hin at 1. rewrite Hid, Nat.eqb_refl in Hin.
  rewrite Hid. exact Hin.
Qed.

Lemma nextStep_agrees_on_ladder (r : Attendance.t) :
  JS.truthy (Attendance.first_check_in_time r) = true ->
  (JS.truthy (Attendance.second_check_in_time r) = true ->
   JS.truthy (Attendance.first_check_out_time r) = true) ->
  (JS.truthy (Attendance.second_check_out_time r) = true ->
   JS.truthy (Attendance.second_check_in_time r) = true) ->
  match nextStep (Some r) with
  | inr (a, _) =>
      a = if negb (JS.truthy (Attendance.first_check_out_time r)) then first_check_out
          else if negb (JS.truthy (Attendance.second_check_in_time r)) then second_check_in
          else second_check_out
  | inl e =>
      e = AttendanceError "All attendance actions completed for today"
      /\ JS.truthy (Attendance.first_check_out_time r) = true
      /\ JS.truthy (Attendance.second_check_in_time r) = true
      /\ JS.truthy (Attendance.second_check_out_time r) = true
  end.
Proof.
  unfold nextStep.
  destruct (Attendance.first_check_in_time r), (Attendance.first_check_out_time r),
    (Attendance.second_check_in_time r), (Attendance.second_check_out_time r);
    simpl; intros H1 H2 H3; auto;
    try discriminate; try (specialize (H2 eq_refl); discriminate);
    try (specialize (H3 eq_refl); discriminate).
Qed.

Section RecorderClaims.

Variable tz : Clock.Zone.
Variable getEmployeeRoster : string -> Store -> Exn + option Roster.t.
Variable violates : list Attendance.t -> Attendance.t -> option Pg.PgError.

(** C1 (as amended). Every successful call of [recordAttendance] persists
    the instant of the scan itself, unchanged: the stored row is in the
    table, and both the session column the action stamps and
    [last_action] hold [now].  The uniqueness guard takes no part. *)
Theorem C1_persists_scan_instant employeeId now st res st' :
  recordAttendance tz getEmployeeRoster violates employeeId now st = (inr res, st') ->
  In (stored res) (attendance st')
  /\ stamped_column (action res) (stored res) = Some now
  /\ Attendance.last_action (stored res) = Some now.
Proof.
  intros H. apply recordAttendance_written in H.
  destruct H as (roster & existing & status & ml & ed & eh & Hrec & Hstep & Hshape).
  destruct (action res) eqn:Ha.
  - destruct Hshape as (_ & Hrow & ->).
    split; [simpl; apply in_or_app; right; now left |].
    rewrite Hrow; split; reflexivity.
  - destruct Hshape as (prior & old & -> & Hfind & Hid & Hrow & ->).
    destruct (attendance_of_day_found _ _ _ _ Hrec) as [Hin _].
    split; [| rewrite Hrow; split; reflexivity].
    apply stored_row_in_table with (prior := prior); [exact Hin |].
    rewrite Hrow. exact Hid.
  - destruct Hshape as (prior & -> & Hrow & _ & ->).
    split; [simpl; apply in_or_app; right; now left |].
    rewrite Hrow; split; reflexivity.
  - destruct Hshape as (prior & old & -> & Hfind & Hid & Hrow & ->).
    destruct (attendance_of_day_found _ _ _ _ Hrec) as [Hin _].
    split; [| rewrite Hrow; split; reflexivity].
    apply stored_row_in_table with (prior := prior); [exact Hin |].
    rewrite Hrow. exact Hid.
  - contradiction.
Qed.

(** C3. A row for today that holds none of the four timestamps makes the
    recorder fail with 'All attendance actions completed for today' and
    write nothing, although [getNextAttendanceAction] announces
    [first_check_in] for the same row. *)
Theorem C3_blank_row_reported_complete employeeId now st employee roster r :
  Query.employee_by_id employeeId st = Pg.Resolved (Some employee) None ->
  Employee.status employee = "active" ->
  getEmployeeRoster employeeId st = inr (Some roster) ->
  String.eqb (Roster.id roster) "" = false ->
  Query.attendance_of_day employeeId (Clock.isoDate now) st = Pg.Resolved (Some r) None ->
  Attendance.first_check_in_time r = None ->
  Attendance.first_check_out_time r = None ->
  Attendance.second_check_in_time r = None ->
  Attendance.second_check_out_time r = None ->
  recordAttendance tz getEmployeeRoster violates employeeId now st
  = (inl (AttendanceError "All attendance actions completed for today"), st)
  /\ getNextAttendanceAction employeeId now st = first_check_in.
Proof.
  intros Hemp Hact Hros Hrid Hrec H1 H2 H3 H4. split.
  - apply recordAttendance_all_done with (employee := employee) (roster := roster)
      (existingRecord := Some r); try assumption.
    + now apply String.eqb_neq.
    + unfold nextStep. rewrite H1, H2, H3, H4. reflexivity.
  - unfold getNextAttendanceAction. rewrite Hrec, H1. reflexivity.
Qed.

(** C4. For a transition other than [first_check_in], when the new time
    is not strictly after the event that precedes it in the record, the
    recorder throws the sequence error of that transition and leaves the
    store as it was. *)
Theorem C4_sequence_violation_writes_nothing
    employeeId now st employee roster r a nextStatus t :
  Query.employee_by_id employeeId st = Pg.Resolved (Some employee) None ->
  Employee.status employee = "active" ->
  getEmployeeRoster employeeId st = inr (Some roster) ->
  String.eqb (Roster.id roster) "" = false ->
  Query.attendance_of_day employeeId (Clock.isoDate now) st = Pg.Resolved (Some r) None ->
  nextStep (Some r) = inr (a, nextStatus) ->
  preceding a r = Some t ->
  now <= t ->
  a <> first_check_in
  /\ recordAttendance tz getEmployeeRoster violates employeeId now st
     = (inl (AttendanceError (sequenceMessage a)), st).
Proof.
  intros Hemp Hact Hros Hrid Hrec Hstep Hpre Hle.
  apply String.eqb_neq in Hrid. apply Z.leb_le in Hle.
  destruct (nextStep_some _ _ _ Hstep) as [[-> _] | [[-> _] | [-> _]]];
    (split; [discriminate |]);
    simpl in Hpre;
    eapply recordAttendance_after_reads with (employee := employee) (roster := roster)
      (existingRecord := Some r) (nextStatus := nextStatus); try eassumption;
    simpl; rewrite Hpre; simpl; rewrite Hle; reflexivity.
Qed.

Lemma fresh_key (key : nat) (table : list Attendance.t) :
  existsb (has_id key) table = false ->
  forall r, In r table -> Attendance.id r <> key.
Proof.
  intros Hex r Hin Heq.
  rewrite <- not_true_iff_false in Hex. apply Hex.
  apply existsb_exists. exists r. split; [exact Hin |].
  unfold has_id. now apply Nat.eqb_eq.
Qed.

(** C6 (as amended). A [second_check_in] inserts a new row, under a key
    no row of the table has, with [is_second_session = true] and
    [previous_session_id] the id of the day's prior row, which stays in
    the table as it was.  Every other action writes with
    [is_second_session = false] and [previous_session_id = null] through
    an upsert keyed by the id of the day's record: when the day has a
    record it is written in place, under its own id, and when it has
    none - the day's first check-in - a row is created.  The write in
    place does not depend on the action: whichever action other than
    [second_check_in] the write is reached with, [first_check_in]
    included, a record that is in the table is written in place. *)
Theorem C6_insert_or_update employeeId now st res st' :
  recordAttendance tz getEmployeeRoster violates employeeId now st = (inr res, st') ->
  (exists existingRecord,
      Query.attendance_of_day employeeId (Clock.isoDate now) st
      = Pg.Resolved existingRecord None
      /\ if is_action (action res) second_check_in
         then
           exists prior,
             existingRecord = Some prior
             /\ attendance st' = (attendance st ++ [stored res])%list
             /\ (forall r, In r (attendance st) ->
                           Attendance.id r <> Attendance.id (stored res))
             /\ Attendance.is_second_session (stored res) = true
             /\ Attendance.previous_session_id (stored res) = Some (Attendance.id prior)
         else
           Attendance.is_second_session (stored res) = false
           /\ Attendance.previous_session_id (stored res) = None
           /\ match existingRecord with
              | Some prior =>
                  Attendance.id (stored res) = Attendance.id prior
                  /\ attendance st' = replaced (stored res) (attendance st)
              | None => attendance st' = (attendance st ++ [stored res])%list
              end)
  /\ (forall employee roster prior old nextAction nextStatus minutesLate early
             expectedHours out st1,
         is_action nextAction second_check_in = false ->
         find (has_id (Attendance.id prior)) (attendance st) = Some old ->
         persist violates employee nextAction
           (updateData employeeId roster (Clock.isoDate now) now (Some prior) nextAction
              nextStatus minutesLate early expectedHours)
           now minutesLate early st
         = (inr out, st1) ->
         Attendance.id (stored out) = Attendance.id prior
         /\ attendance st1 = replaced (stored out) (attendance st)
         /\ Attendance.is_second_session (stored out) = false
         /\ Attendance.previous_session_id (stored out) = None).
Proof.
  intros H. split.
  - apply recordAttendance_written in H.
    destruct H as (roster & existing & status & ml & ed & eh & Hrec & Hstep & Hshape).
    exists existing. split; [exact Hrec |].
    destruct (action res) eqn:Ha; cbn [is_action].
    + destruct Hshape as (-> & Hrow & ->).
      rewrite Hrow. repeat split; reflexivity.
    + destruct Hshape as (prior & old & -> & Hfind & Hid & Hrow & ->).
      split; [rewrite Hrow; reflexivity |]. split; [rewrite Hrow; reflexivity |].
      split; [rewrite Hrow; exact Hid | reflexivity].
    + destruct Hshape as (prior & -> & Hrow & Hfresh & ->).
      exists prior. split; [reflexivity |]. split; [reflexivity |].
      split; [| rewrite Hrow; split; reflexivity].
      intros r Hin. rewrite Hrow. simpl. now apply fresh_key with (table := attendance st).
    + destruct Hshape as (prior & old & -> & Hfind & Hid & Hrow & ->).
      split; [rewrite Hrow; reflexivity |]. split; [rewrite Hrow; reflexivity |].
      split; [rewrite Hrow; exact Hid | reflexivity].
    + contradiction.
  - clear H. intros employee roster prior old nextAction nextStatus minutesLate early
      expectedHours out st1 Hnot Hfind Hrun.
    apply persist_success in Hrun. destruct Hrun as [_ Hw]. rewrite Hnot in Hw.
    unfold upsert in Hw. destruct (outage st) as [[e | m] |]; try discriminate.
    cbn [AttendanceData.id updateData option_map] in Hw. rewrite Hfind in Hw.
    destruct (violates _ _); [discriminate |].
    injection Hw as Hrow Hst. subst st1. rewrite <- Hrow.
    apply find_some in Hfind. destruct Hfind as [_ Hkey].
    unfold has_id in Hkey. apply Nat.eqb_eq in Hkey.
    repeat split; try reflexivity. exact Hkey.
Qed.

(** C7 (as amended). Every successful call stamps [now] in exactly one
    session column of the row it writes.  For [first_check_in],
    [first_check_out] and [second_check_out] the written row has one set
    column more than the day's record had, and every column that was set
    there is carried over unchanged.  For [second_check_in] the written
    row is a new one whose only set column is its own
    [first_check_in_time]; the columns of the day's record are not copied
    into it, and that record stays in the table as it was. *)
Theorem C7_one_column_per_scan employeeId now st res st' :
  recordAttendance tz getEmployeeRoster violates employeeId now st = (inr res, st') ->
  exists existingRecord,
    Query.attendance_of_day employeeId (Clock.isoDate now) st
    = Pg.Resolved existingRecord None
    /\ stamped_column (action res) (stored res) = Some now
    /\ if is_action (action res) second_check_in
       then filled (stored res) = 1%nat
            /\ Attendance.first_check_out_time (stored res) = None
            /\ Attendance.second_check_in_time (stored res) = None
            /\ Attendance.second_check_out_time (stored res) = None
            /\ forall prior, existingRecord = Some prior -> In prior (attendance st')
       else filled (stored res) = S (filled_of existingRecord)
            /\ forall prior column t,
                 existingRecord = Some prior ->
                 In column session_columns ->
                 column prior = Some t ->
                 column (stored res) = Some t.
Proof.
  intros H. apply recordAttendance_written in H.
  destruct H as (roster & existing & status & ml & ed & eh & Hrec & Hstep & Hshape).
  exists existing. split; [exact Hrec |].
  destruct (action res) eqn:Ha; simpl.
  - destruct Hshape as (-> & Hrow & ->). rewrite Hrow.
    split; [reflexivity |]. split; [reflexivity |]. intros prior column t Hp. discriminate.
  - destruct Hshape as (prior & old & -> & Hfind & Hid & Hrow & ->).
    destruct (nextStep_some _ _ _ Hstep) as [[_ [Hci Hco]] | [[Hx _] | [Hx _]]];
      try discriminate.
    rewrite Hrow. split; [reflexivity |]. split.
    + unfold filled_of, filled, session_columns, updated_row, updateData, stamp_or_keep; simpl.
      rewrite Hco.
      destruct (Attendance.first_check_in_time prior),
        (Attendance.second_check_in_time prior),
        (Attendance.second_check_out_time prior); reflexivity.
    + intros p column t [= <-] Hcol Ht.
      simpl in Hcol. destruct Hcol as [<- | [<- | [<- | [<- | []]]]]; simpl;
        try exact Ht. rewrite Hco in Ht. discriminate.
  - destruct Hshape as (prior & -> & Hrow & Hfresh & ->). rewrite Hrow.
    split; [reflexivity |]. repeat (split; [reflexivity |]).
    intros p [= <-].
    destruct (attendance_of_day_found _ _ _ _ Hrec) as [Hin _].
    simpl. apply in_or_app. now left.
  - destruct Hshape as (prior & old & -> & Hfind & Hid & Hrow & ->).
    destruct (nextStep_some _ _ _ Hstep) as [[Hx _] | [[Hx _] | [_ [Hci Hco]]]];
      try discriminate.
    rewrite Hrow. split; [reflexivity |]. split.
    + unfold filled_of, filled, session_columns, updated_row, updateData, stamp_or_keep; simpl.
      rewrite Hco.
      destruct (Attendance.first_check_in_time prior),
        (Attendance.first_check_out_time prior),
        (Attendance.second_check_in_time prior); reflexivity.
    + intros p column t [= <-] Hcol Ht.
      simpl in Hcol. destruct Hcol as [<- | [<- | [<- | [<- | []]]]]; simpl;
        try exact Ht. rewrite Hco in Ht. discriminate.
  - contradiction.
Qed.

End RecorderClaims.

(** *** The recorder on the sample stores *)

Lemma C1_persists_scan_instant_witness :
  exists res st',
    recordAttendance Clock.utc Sample.rosters Sample.unconstrained "emp-1"
      (Sample.nine_ten + Sample.minute) Sample.checked_in = (inr res, st')
    /\ In (stored res) (attendance st')
    /\ stamped_column (action res) (stored res) = Some (Sample.nine_ten + Sample.minute)
    /\ Attendance.last_action (stored res) = Some (Sample.nine_ten + Sample.minute).
Proof.
  destruct (recordAttendance Clock.utc Sample.rosters Sample.unconstrained "emp-1"
              (Sample.nine_ten + Sample.minute) Sample.checked_in)
    as [[x | res] st'] eqn:Hrun; [vm_compute in Hrun; discriminate |].
  exists res, st'. split; [reflexivity |].
  exact (C1_persists_scan_instant Clock.utc Sample.rosters Sample.unconstrained "emp-1"
           (Sample.nine_ten + Sample.minute) Sample.checked_in res st' Hrun).
Defined.

(** C1 (as stated) fails.  Ann checked in at 09:10 and scans again at
    09:11: the recorder stores 09:11 as her check-out, while the
    uniqueness guard, asked for either kind of event at that instant,
    answers 09:25 (check-in plus 15 minutes). *)
Lemma C1_counterexample :
  exists res st',
    recordAttendance Clock.utc Sample.rosters Sample.unconstrained "emp-1"
      (Sample.nine_ten + Sample.minute) Sample.checked_in = (inr res, st')
    /\ action res = first_check_out
    /\ Attendance.first_check_out_time (stored res)
       = Some (Sample.nine_ten + Sample.minute)
    /\ Attendance.last_action (stored res) = Some (Sample.nine_ten + Sample.minute)
    /\ (forall type,
           generateUniqueTimestamp "emp-1" (Sample.nine_ten + Sample.minute) type
             Sample.checked_in
           = inr (Sample.nine_ten + 15 * Sample.minute))
    /\ Sample.nine_ten + Sample.minute <> Sample.nine_ten + 15 * Sample.minute.
Proof.
  eexists. eexists. split; [vm_compute; reflexivity |].
  repeat split; try reflexivity.
  - intros []; vm_compute; reflexivity.
  - vm_compute. discriminate.
Qed.

Lemma C3_blank_row_reported_complete_witness :
  recordAttendance Clock.utc Sample.rosters Sample.unconstrained "emp-1" Sample.nine_ten
    Sample.blank_row
  = (inl (AttendanceError "All attendance actions completed for today"), Sample.blank_row)
  /\ getNextAttendanceAction "emp-1" Sample.nine_ten Sample.blank_row = first_check_in.
Proof.
  apply (C3_blank_row_reported_complete Clock.utc Sample.rosters Sample.unconstrained "emp-1"
           Sample.nine_ten Sample.blank_row Sample.ann Sample.day_shift
           (Sample.row 1 "emp-1" None None None None None None None));
    reflexivity.
Defined.

Lemma C4_sequence_violation_writes_nothing_witness :
  first_check_out <> first_check_in
  /\ recordAttendance Clock.utc Sample.rosters Sample.unconstrained "emp-1" Sample.nine_ten
       Sample.checked_in
     = (inl (AttendanceError "Check-out time must be after check-in time"),
        Sample.checked_in).
Proof.
  apply (C4_sequence_violation_writes_nothing Clock.utc Sample.rosters Sample.unconstrained
           "emp-1" Sample.nine_ten Sample.checked_in Sample.ann Sample.day_shift
           (Sample.row 1 "emp-1" (Some Sample.nine_ten) None None None
              (Some Sample.nine_ten) (Some Sample.nine_ten) (Some 5))
           first_check_out "ON_BREAK" Sample.nine_ten);
    reflexivity.
Defined.

Lemma C6_insert_or_update_witness :
  exists res st',
    recordAttendance Clock.utc Sample.rosters Sample.unconstrained "emp-1"
      (Sample.nine_ten + 45 * Sample.minute) Sample.on_break = (inr res, st')
    /\ action res = second_check_in
    /\ Attendance.is_second_session (stored res) = true
    /\ Attendance.previous_session_id (stored res) = Some 1%nat
    /\ List.length (attendance st') = 2%nat.
Proof.
  destruct (recordAttendance Clock.utc Sample.rosters Sample.unconstrained "emp-1"
              (Sample.nine_ten + 45 * Sample.minute) Sample.on_break)
    as [[x | res] st'] eqn:Hrun; [vm_compute in Hrun; discriminate |].
  exists res, st'. split; [reflexivity |].
  assert (Ha : action res = second_check_in).
  { vm_compute in Hrun. injection Hrun as <- _. reflexivity. }
  destruct (C6_insert_or_update Clock.utc Sample.rosters Sample.unconstrained "emp-1"
              (Sample.nine_ten + 45 * Sample.minute) Sample.on_break res st' Hrun)
    as [[existing [Hrec Hshape]] _].
  rewrite Ha in Hshape. cbn [is_action] in Hshape.
  destruct Hshape as (prior & Hprior & Htable & _ & Hsecond & Hprev).
  split; [exact Ha |]. split; [exact Hsecond |]. split.
  - rewrite Hprev. rewrite Hprior in Hrec. vm_compute in Hrec.
    injection Hrec as <-. reflexivity.
  - rewrite Htable. rewrite length_app. reflexivity.
Defined.

(** C6 (as stated) fails for [first_check_in]: on a morning without any
    row the call succeeds, and the table, empty before, holds one row
    after; no existing record was written in place. *)
Lemma C6_counterexample :
  exists res st',
    recordAttendance Clock.utc Sample.rosters Sample.unconstrained "emp-1" Sample.nine_ten
      Sample.morning = (inr res, st')
    /\ action res = first_check_in
    /\ attendance Sample.morning = []
    /\ attendance st' = [stored res]
    /\ ~ (exists prior, In prior (attendance Sample.morning)
                        /\ Attendance.id prior = Attendance.id (stored res)).
Proof.
  eexists. eexists. split; [vm_compute; reflexivity |].
  repeat split; try reflexivity.
  intros [prior [[] _]].
Qed.

Lemma C7_one_column_per_scan_witness :
  exists res st',
    recordAttendance Clock.utc Sample.rosters Sample.unconstrained "emp-1"
      (Sample.nine_ten + Sample.minute) Sample.checked_in = (inr res, st')
    /\ action res = first_check_out
    /\ filled (stored res) = 2%nat
    /\ Attendance.first_check_in_time (stored res) = Some Sample.nine_ten.
Proof.
  destruct (recordAttendance Clock.utc Sample.rosters Sample.unconstrained "emp-1"
              (Sample.nine_ten + Sample.minute) Sample.checked_in)
    as [[x | res] st'] eqn:Hrun; [vm_compute in Hrun; discriminate |].
  exists res, st'. split; [reflexivity |].
  assert (Ha : action res = first_check_out).
  { vm_compute in Hrun. injection Hrun as <- _. reflexivity. }
  destruct (C7_one_column_per_scan Clock.utc Sample.rosters Sample.unconstrained "emp-1"
              (Sample.nine_ten + Sample.minute) Sample.checked_in res st' Hrun)
    as [existing [Hrec [_ Hshape]]].
  rewrite Ha in Hshape. simpl in Hshape. destruct Hshape as [Hfilled Hkeep].
  vm_compute in Hrec. injection Hrec as <-.
  split; [exact Ha |]. split; [exact Hfilled |].
  apply (Hkeep _ Attendance.first_check_in_time Sample.nine_ten eq_refl);
    [left; reflexivity | reflexivity].
Defined.

(** C7 (as stated) fails for [second_check_in]: Ann checked in at 09:10
    and out at 09:40; her scan at 09:55 succeeds, and the row it writes
    has [first_check_out_time] null and [first_check_in_time] 09:55,
    where the day's record had 09:40 and 09:10. *)
Lemma C7_counterexample :
  exists res st' prior,
    recordAttendance Clock.utc Sample.rosters Sample.unconstrained "emp-1"
      (Sample.nine_ten + 45 * Sample.minute) Sample.on_break = (inr res, st')
    /\ Query.attendance_of_day "emp-1"
         (Clock.isoDate (Sample.nine_ten + 45 * Sample.minute)) Sample.on_break
       = Pg.Resolved (Some prior) None
    /\ Attendance.first_check_out_time prior = Some (Sample.nine_ten + 30 * Sample.minute)
    /\ Attendance.first_check_out_time (stored res) = None
    /\ Attendance.first_check_in_time prior = Some Sample.nine_ten
    /\ Attendance.first_check_in_time (stored res)
       = Some (Sample.nine_ten + 45 * Sample.minute).
Proof.
  eexists. eexists. eexists. split; [vm_compute; reflexivity |].
  split; [vm_compute; reflexivity |].
  repeat split; reflexivity.
Qed.

(** ** The uniqueness guard *)

Lemma answer_rejected {A : Type} (st : Store) (r : Pg.Reply A) (x : Exn) :
  (forall y, r <> Pg.Rejected y) ->
  Query.answer st r = Pg.Rejected x ->
  exists m, x = OtherError m /\ outage st = Some (Pg.Crashes m).
Proof.
  unfold Query.answer. intros Hr.
  destruct (outage st) as [[e|m]|]; intros H; try discriminate.
  - injection H as <-. now exists m.
  - elim (Hr x H).
Qed.

Lemma maybeSingle_not_rejected {A : Type} (rows : list A) (y : Exn) :
  Pg.maybeSingle rows <> Pg.Rejected y.
Proof. destruct rows as [|a [|b l]]; discriminate. Qed.

Lemma same_stamp_clear employee_id type t st :
  Query.same_stamp employee_id type t st = Pg.Resolved None None ->
  forall r, In r (attendance st) ->
            Attendance.employee_id r = employee_id ->
            Query.stamped type t r = false.
Proof.
  unfold Query.same_stamp, Query.answer.
  destruct (outage st) as [[e|m]|]; try discriminate.
  destruct (filter _ (attendance st)) as [|x [|y l]] eqn:Hf; try discriminate.
  intros _ r Hin He.
  destruct (Query.stamped type t r) eqn:Hs; [| reflexivity].
  assert (Hin' : In r (filter
                         (fun r => (Attendance.employee_id r =? employee_id)%string
                                   && Query.stamped type t r) (attendance st))).
  { apply filter_In. split; [exact Hin |]. rewrite Hs, He, String.eqb_refl. reflexivity. }
  rewrite Hf in Hin'. destruct Hin'.
Qed.

(** What leaving the loop means, for any number of iterations left. *)
Lemma probe_loop_outcome st employee_id baseTime type :
  forall remaining attempt uniqueTime out k,
    probe_loop st employee_id baseTime type remaining attempt uniqueTime = (out, k) ->
    match out with
    | inr t =>
        attempt <= k < attempt + Z.of_nat remaining
        /\ Query.same_stamp employee_id type t st = Pg.Resolved None None
    | inl (AttendanceError m) =>
        (m = "Unable to generate unique timestamp" /\ k = attempt + Z.of_nat remaining)
        \/ (m = "Failed to generate unique timestamp"
            /\ attempt <= k < attempt + Z.of_nat remaining
            /\ exists t data error,
                 Query.same_stamp employee_id type t st = Pg.Resolved data (Some error))
    | inl (OtherError m) =>
        attempt <= k < attempt + Z.of_nat remaining
        /\ outage st = Some (Pg.Crashes m)
    end.
Proof.
  induction remaining as [|remaining IH]; intros attempt u out k H.
  - simpl in H. injection H as <- <-. left. split; [reflexivity | simpl; lia].
  - cbn [probe_loop] in H.
    destruct (Query.last_of_day employee_id (Clock.isoDate baseTime) st)
      as [lastRecord lastError | x] eqn:Hlast.
    + match type of H with
      | context [Query.same_stamp employee_id type ?c st] =>
          remember c as candidate eqn:Hc;
          destruct (Query.same_stamp employee_id type candidate st)
            as [[hit|] [err|] | x] eqn:Hprobe
      end.
      * injection H as <- <-. right. split; [reflexivity |]. split; [lia |].
        now exists candidate, (Some hit), err.
      * apply IH in H. destruct out as [[m|m] | t].
        -- destruct H as [[-> ->] | [-> [Hk Hex]]].
           ++ left. split; [reflexivity | lia].
           ++ right. split; [reflexivity |]. split; [lia | exact Hex].
        -- destruct H as [Hk Ho]. split; [lia | exact Ho].
        -- destruct H as [Hk Hp]. split; [lia | exact Hp].
      * injection H as <- <-. right. split; [reflexivity |]. split; [lia |].
        now exists candidate, None, err.
      * injection H as <- <-. split; [lia | exact Hprobe].
      * injection H as <- <-.
        apply answer_rejected in Hprobe; [| intros y; apply maybeSingle_not_rejected].
        destruct Hprobe as [m [-> Ho]]. split; [lia | exact Ho].
    + injection H as <- <-.
      apply answer_rejected in Hlast; [| intros y; apply maybeSingle_not_rejected].
      destruct Hlast as [m [-> Ho]]. split; [lia | exact Ho].
Qed.

(** A check-out never comes back earlier than the last check-in plus 15
    minutes. *)
Lemma probe_loop_floor st employee_id baseTime last lastError lastCheckIn :
  Query.last_of_day employee_id (Clock.isoDate baseTime) st
  = Pg.Resolved (Some last) lastError ->
  Attendance.check_in_time last = Some lastCheckIn ->
  forall remaining attempt uniqueTime t k,
    0 <= attempt ->
    baseTime < lastCheckIn + fifteen_minutes \/ lastCheckIn + fifteen_minutes <= uniqueTime ->
    probe_loop st employee_id baseTime CheckOut remaining attempt uniqueTime = (inr t, k) ->
    lastCheckIn + fifteen_minutes <= t.
Proof.
  intros Hlast Hci.
  induction remaining as [|remaining IH]; intros attempt u t k Ha Hinv H.
  - simpl in H. discriminate.
  - cbn [probe_loop] in H. rewrite Hlast, Hci in H. cbv zeta in H.
    assert (Hfloor : lastCheckIn + fifteen_minutes
                     <= (if baseTime <? lastCheckIn + fifteen_minutes
                         then lastCheckIn + fifteen_minutes else u) + 1000 * attempt).
    { destruct (baseTime <? lastCheckIn + fifteen_minutes) eqn:Hlt.
      - lia.
      - apply Z.ltb_ge in Hlt. lia. }
    remember ((if baseTime <? lastCheckIn + fifteen_minutes
               then lastCheckIn + fifteen_minutes else u) + 1000 * attempt) as candidate.
    destruct (Query.same_stamp employee_id CheckOut candidate st)
      as [[hit|] [err|] | x]; try discriminate.
    + apply IH in H; [exact H | lia | right; exact Hfloor].
    + injection H as <- _. exact Hfloor.
Qed.

(** C5 (as amended). Asked for a check-out while the employee's last row
    of the day has a check-in, the guard returns no timestamp earlier
    than that check-in plus 15 minutes.  And for every input it ends in
    one of these ways: it returns, after fewer than 10 collisions, a
    timestamp no row of the employee carries in the probed column; or it
    throws 'Unable to generate unique timestamp' after 10 collisions; or
    it throws, at the first probe the store answers with an error,
    'Failed to generate unique timestamp'; or the store's request itself
    rejects and that exception escapes. *)
Theorem C5_guard_outcomes (employee_id : string) (baseTime : Z) (type : EventKind)
    (st : Store) :
  (forall last lastError lastCheckIn t,
      type = CheckOut ->
      Query.last_of_day employee_id (Clock.isoDate baseTime) st
      = Pg.Resolved (Some last) lastError ->
      Attendance.check_in_time last = Some lastCheckIn ->
      generateUniqueTimestamp employee_id baseTime type st = inr t ->
      lastCheckIn + fifteen_minutes <= t)
  /\ match generateUniqueTimestamp employee_id baseTime type st with
     | inr t =>
         0 <= collisions employee_id baseTime type st < 10
         /\ forall r, In r (attendance st) ->
                      Attendance.employee_id r = employee_id ->
                      Query.stamped type t r = false
     | inl (AttendanceError m) =>
         (m = "Unable to generate unique timestamp"
          /\ collisions employee_id baseTime type st = 10)
         \/ (m = "Failed to generate unique timestamp"
             /\ 0 <= collisions employee_id baseTime type st < 10
             /\ exists t data error,
                  Query.same_stamp employee_id type t st = Pg.Resolved data (Some error))
     | inl (OtherError m) => outage st = Some (Pg.Crashes m)
     end.
Proof.
  unfold generateUniqueTimestamp, collisions.
  destruct (probe_loop st employee_id baseTime type 10 0 baseTime) as [out k] eqn:Hrun.
  split.
  - intros last lastError lastCheckIn t -> Hlast Hci. simpl. intros ->.
    apply (probe_loop_floor st employee_id baseTime last lastError lastCheckIn Hlast Hci
             10%nat 0 baseTime t k); [lia | | exact Hrun].
    destruct (Z.lt_ge_cases baseTime (lastCheckIn + fifteen_minutes)); [left | right];
      assumption.
  - apply probe_loop_outcome in Hrun. simpl fst; simpl snd.
    destruct out as [[m|m] | t].
    + destruct Hrun as [[-> ->] | [-> [Hk Hex]]].
      * left. split; reflexivity.
      * right. split; [reflexivity |]. split; [simpl in Hk; lia | exact Hex].
    + destruct Hrun as [_ Ho]. exact Ho.
    + destruct Hrun as [Hk Hp]. split; [simpl in Hk; lia |].
      now apply same_stamp_clear.
Qed.

Lemma C5_guard_outcomes_witness :
  generateUniqueTimestamp "emp-1" (Sample.nine_ten + Sample.minute) CheckOut
    Sample.checked_in = inr (Sample.nine_ten + 15 * Sample.minute)
  /\ Sample.nine_ten + fifteen_minutes <= Sample.nine_ten + 15 * Sample.minute.
Proof.
  split; [reflexivity |].
  destruct (C5_guard_outcomes "emp-1" (Sample.nine_ten + Sample.minute) CheckOut
              Sample.checked_in) as [Hfloor _].
  apply (Hfloor
           (Sample.row 1 "emp-1" (Some Sample.nine_ten) None None None
              (Some Sample.nine_ten) (Some Sample.nine_ten) (Some 5))
           None Sample.nine_ten (Sample.nine_ten + 15 * Sample.minute));
    reflexivity.
Defined.

(** C5 (as stated) fails.  When the store answers the probe with an
    error, the guard neither returns a timestamp nor throws 'Unable to
    generate unique timestamp' after a tenth attempt: it throws 'Failed to
    generate unique timestamp' at the first probe. *)
Lemma C5_counterexample :
  generateUniqueTimestamp "emp-1" Sample.nine_ten CheckOut Sample.unavailable
  = inl (AttendanceError "Failed to generate unique timestamp")
  /\ collisions "emp-1" Sample.nine_ten CheckOut Sample.unavailable = 0
  /\ (forall t, generateUniqueTimestamp "emp-1" Sample.nine_ten CheckOut Sample.unavailable
                <> inr t)
  /\ generateUniqueTimestamp "emp-1" Sample.nine_ten CheckOut Sample.unavailable
     <> inl (AttendanceError "Unable to generate unique timestamp").
Proof.
  repeat split; try reflexivity; try (intros t); vm_compute; discriminate.
Qed.

(** The guard gives up once its ten probes have all found a row. *)
Example guard_gives_up_after_ten :
  generateUniqueTimestamp "emp-1" Sample.nine_ten CheckIn Sample.crowded
  = inl (AttendanceError "Unable to generate unique timestamp")
  /\ collisions "emp-1" Sample.nine_ten CheckIn Sample.crowded = 10.
Proof. split; vm_compute; reflexivity. Qed.

(** ** The summary *)

Lemma count_cons (test : Attendance.t -> bool) (r : Attendance.t) (rows : list Attendance.t) :
  count test (r :: rows) = (if test r then 1 else 0) + count test rows.
Proof.
  unfold count. cbn [filter]. destruct (test r); cbn [List.length]; lia.
Qed.

(** The counters after [forEach], as numbers of rows. *)
Lemma tally_fold (rows : list Attendance.t) :
  forall c : StatusCounts,
    currentlyPresent (fold_left tally rows c)
    = currentlyPresent c + count (fun r => first_open r || second_open r) rows
    /\ lateButPresent (fold_left tally rows c)
       = lateButPresent c
         + count (fun r => first_open r && positive_minutes (Attendance.minutes_late r)) rows
    /\ checkedOut (fold_left tally rows c)
       = checkedOut c
         + count (fun r => negb (first_open r) && negb (second_open r) && completed_marker r)
             rows
    /\ absent (fold_left tally rows c) = absent c.
Proof.
  induction rows as [|r rows IH]; intros c.
  - unfold count; simpl. repeat split; lia.
  - simpl fold_left. destruct (IH (tally c r)) as (Hp & Hl & Hc & Ha).
    rewrite Hp, Hl, Hc, Ha, !count_cons.
    unfold tally, first_open, second_open, completed_marker.
    destruct (JS.truthy (Attendance.first_check_in_time r)),
      (JS.truthy (Attendance.first_check_out_time r)),
      (JS.truthy (Attendance.second_check_in_time r)),
      (JS.truthy (Attendance.second_check_out_time r)),
      (positive_minutes (Attendance.minutes_late r));
      cbn [andb orb negb currentlyPresent lateButPresent checkedOut absent];
      repeat split; lia.
Qed.

(** The on-time counter after [forEach]. *)
Lemma tally_fold_on_time (rows : list Attendance.t) :
  forall c : StatusCounts,
    onTimeArrivals (fold_left tally rows c)
    = onTimeArrivals c
      + count (fun r => first_open r && negb (positive_minutes (Attendance.minutes_late r)))
          rows
      + count (fun r => negb (first_open r) && negb (second_open r) && completed_marker r
                        && zero_minutes (Attendance.minutes_late r)) rows.
Proof.
  induction rows as [|r rows IH]; intros c.
  - unfold count; simpl. lia.
  - simpl fold_left. rewrite (IH (tally c r)), !count_cons.
    unfold tally, first_open, second_open, completed_marker.
    destruct (JS.truthy (Attendance.first_check_in_time r)),
      (JS.truthy (Attendance.first_check_out_time r)),
      (JS.truthy (Attendance.second_check_in_time r)),
      (JS.truthy (Attendance.second_check_out_time r)),
      (positive_minutes (Attendance.minutes_late r)),
      (zero_minutes (Attendance.minutes_late r));
      cbn [andb orb negb onTimeArrivals]; lia.
Qed.

(** Every row is counted once by a test or by its negation. *)
Lemma count_split (test part : Attendance.t -> bool) (rows : list Attendance.t) :
  count (fun r => test r && part r) rows + count (fun r => test r && negb (part r)) rows
  = count test rows.
Proof.
  induction rows as [|r rows IH]; [reflexivity |].
  rewrite !count_cons, <- IH. destruct (test r), (part r); cbn [andb negb]; lia.
Qed.

Lemma summary_of_healthy_store (now : Z) (st : Store) :
  outage st = None ->
  getTodayAttendanceSummary now st
  = summarize
      (Z.of_nat (List.length
                   (filter (fun e => String.eqb (Employee.status e) "active") (employees st))))
      (filter (fun r => Attendance.date r =? Clock.isoDate now) (attendance st)).
Proof.
  intros Ho. unfold getTodayAttendanceSummary, Query.active_employees,
    Query.attendance_on, Query.answer. rewrite Ho. reflexivity.
Qed.

(** C9 (as amended). On a store that answers, the summary counts the
    day's rows with the first session tested first: a row whose first
    session is open is currently present and split late/on-time by
    [minutes_late] - it adds one to [lateButPresent] when [minutes_late]
    is positive and one to [onTimeArrivals] otherwise -, also when its
    second session is open too; otherwise a row whose second session is
    open is currently present; otherwise a row with a completed-session
    marker is checked out.  No row is in two buckets, and a row is in
    none exactly when none of its four timestamps is set.  [absent] is
    max(0, active employees - (present + checked out)) and never
    negative.  Ten active employees, three open first sessions (one
    late) and two completed records give 3, 1, 2 and 5. *)
Theorem C9_summary_buckets (now : Z) (st : Store) :
  outage st = None ->
  let rows := filter (fun r => Attendance.date r =? Clock.isoDate now) (attendance st) in
  let active := filter (fun e => String.eqb (Employee.status e) "active") (employees st) in
  let s := presenceBreakdown (getTodayAttendanceSummary now st) in
  let late := fun r => positive_minutes (Attendance.minutes_late r) in
  currentlyPresent s = count (fun r => first_open r || second_open r) rows
  /\ lateButPresent s = count (fun r => first_open r && late r) rows
  /\ checkedOut s
     = count (fun r => negb (first_open r) && negb (second_open r) && completed_marker r) rows
  /\ absent s
     = Z.max 0 (Z.of_nat (List.length active) - (currentlyPresent s + checkedOut s))
  /\ 0 <= absent s
  /\ (forall r,
         first_open r || second_open r || completed_marker r = false
         <-> (Attendance.first_check_in_time r = None
              /\ Attendance.first_check_out_time r = None
              /\ Attendance.second_check_in_time r = None
              /\ Attendance.second_check_out_time r = None))
  /\ (let example :=
        presenceBreakdown (getTodayAttendanceSummary Sample.nine_ten Sample.ten_staff) in
      currentlyPresent example = 3 /\ lateButPresent example = 1
      /\ checkedOut example = 2 /\ absent example = 5)
  /\ onTimeArrivals s
     = count (fun r => first_open r && negb (late r)) rows
       + count (fun r => negb (first_open r) && negb (second_open r) && completed_marker r
                         && zero_minutes (Attendance.minutes_late r)) rows
  /\ count (fun r => first_open r && late r) rows
     + count (fun r => first_open r && negb (late r)) rows
     = count first_open rows
  /\ (forall (c : StatusCounts) (r : Attendance.t),
         first_open r = true ->
         currentlyPresent (tally c r) = currentlyPresent c + 1
         /\ checkedOut (tally c r) = checkedOut c
         /\ if late r
            then lateButPresent (tally c r) = lateButPresent c + 1
                 /\ onTimeArrivals (tally c r) = onTimeArrivals c
            else lateButPresent (tally c r) = lateButPresent c
                 /\ onTimeArrivals (tally c r) = onTimeArrivals c + 1).
Proof.
  intros Ho rows active s late.
  assert (Hs : s = presenceBreakdown (summarize (Z.of_nat (List.length active)) rows)).
  { unfold s. now rewrite summary_of_healthy_store. }
  destruct (tally_fold rows no_counts) as (Hp & Hl & Hc & _).
  pose proof (tally_fold_on_time rows no_counts) as Hon.
  rewrite Hs. unfold summarize. cbn [presenceBreakdown currentlyPresent lateButPresent
    checkedOut onTimeArrivals absent].
  rewrite Hp, Hl, Hc, Hon.
  cbn [currentlyPresent lateButPresent checkedOut onTimeArrivals absent no_counts].
  split; [apply Z.add_0_l |]. split; [apply Z.add_0_l |]. split; [apply Z.add_0_l |].
  split; [reflexivity |]. split; [apply Z.le_max_l |]. split; [| split; [| split; [| split]]].
  - intros r. unfold first_open, second_open, completed_marker.
    destruct (Attendance.first_check_in_time r), (Attendance.first_check_out_time r),
      (Attendance.second_check_in_time r), (Attendance.second_check_out_time r);
      simpl; split; intros H; try discriminate; try reflexivity;
      try (repeat split; reflexivity);
      destruct H as (H1 & H2 & H3 & H4); discriminate.
  - repeat split.
  - unfold late. lia.
  - apply count_split.
  - intros c r Hopen. unfold tally. unfold first_open in Hopen. rewrite Hopen.
    unfold late. destruct (positive_minutes (Attendance.minutes_late r));
      cbn [currentlyPresent lateButPresent checkedOut onTimeArrivals]; repeat split.
Qed.

Lemma C9_summary_buckets_witness :
  let s := presenceBreakdown (getTodayAttendanceSummary Sample.nine_ten Sample.anomalous) in
  currentlyPresent s = 1 /\ lateButPresent s = 1 /\ checkedOut s = 0 /\ absent s = 1
  /\ onTimeArrivals s = 0.
Proof.
  destruct (C9_summary_buckets Sample.nine_ten Sample.anomalous eq_refl)
    as (Hp & Hl & Hc & Ha & _ & _ & _ & Hon & _).
  cbv zeta. rewrite Ha, Hp, Hl, Hc, Hon. repeat split.
Defined.

(** C9 (as stated) fails.  A late row with both sessions open comes
    first under "second session open" in the worded precedence, which
    does not split it, so the worded classification counts no late
    arrival; the summary counts one.  And a row without any timestamp is
    put in no bucket at all. *)
Lemma C9_counterexample :
  bucket_spec Sample.both_open = Some PresentSecond
  /\ lateButPresent (fold_left tally_spec [Sample.both_open; Sample.blank] no_counts) = 0
  /\ lateButPresent
       (presenceBreakdown (getTodayAttendanceSummary Sample.nine_ten Sample.anomalous)) = 1
  /\ bucket_spec Sample.blank = None
  /\ presenceBreakdown
       (getTodayAttendanceSummary Sample.nine_ten
          (mkStore [Sample.staff "emp-8"] [Sample.blank] 9 None))
     = mkCounts 0 0 0 0 1.
Proof. repeat split. Qed.

(** ** The next action, as the scanner asks for it *)

Lemma filter_nothing {A : Type} (test : A -> bool) (l : list A) :
  (forall x, In x l -> test x = false) -> filter test l = [].
Proof.
  induction l as [|a l IH]; intros H; [reflexivity |].
  simpl. rewrite (H a (or_introl eq_refl)). apply IH.
  intros x Hx. apply H. now right.
Qed.

(** The ladder of [getNextAttendanceAction] on the row it finds. *)
Lemma getNextAttendanceAction_ladder employeeId now st record :
  Query.attendance_of_day employeeId (Clock.isoDate now) st
  = Pg.Resolved (Some record) None ->
  getNextAttendanceAction employeeId now st
  = match Attendance.first_check_in_time record, Attendance.first_check_out_time record,
          Attendance.second_check_in_time record, Attendance.second_check_out_time record
    with
    | None, _, _, _ => first_check_in
    | Some _, None, _, _ => first_check_out
    | Some _, Some _, None, _ => second_check_in
    | Some _, Some _, Some _, None => second_check_out
    | Some _, Some _, Some _, Some _ => completed
    end.
Proof.
  intros Hrec. unfold getNextAttendanceAction. rewrite Hrec.
  destruct (Attendance.first_check_in_time record), (Attendance.first_check_out_time record),
    (Attendance.second_check_in_time record), (Attendance.second_check_out_time record);
    reflexivity.
Qed.

(** C10. Whenever the lookup of [getNextAttendanceAction] comes back with
    an error, or rejects, the function returns [first_check_in]; so on a
    store that fails it answers what it answers on a working store in
    which the employee has no row for the day. *)
Theorem C10_lookup_failure_reads_as_first_check_in (employeeId : string) (now : Z)
    (st : Store) :
  (forall data error,
      Query.attendance_of_day employeeId (Clock.isoDate now) st
      = Pg.Resolved data (Some error) ->
      getNextAttendanceAction employeeId now st = first_check_in)
  /\ (forall e,
         Query.attendance_of_day employeeId (Clock.isoDate now) st = Pg.Rejected e ->
         getNextAttendanceAction employeeId now st = first_check_in)
  /\ (forall failure,
         outage st = Some failure ->
         getNextAttendanceAction employeeId now st = first_check_in
         /\ forall working,
              outage working = None ->
              (forall r, In r (attendance working) ->
                         Query.of_day employeeId (Clock.isoDate now) r = false) ->
              getNextAttendanceAction employeeId now working
              = getNextAttendanceAction employeeId now st).
Proof.
  split; [| split].
  - intros data error H. unfold getNextAttendanceAction. rewrite H.
    destruct data; reflexivity.
  - intros e H. unfold getNextAttendanceAction. rewrite H. reflexivity.
  - intros failure Ho.
    assert (Hfail : getNextAttendanceAction employeeId now st = first_check_in).
    { unfold getNextAttendanceAction, Query.attendance_of_day, Query.answer.
      rewrite Ho. destruct failure; reflexivity. }
    split; [exact Hfail |].
    intros working Hw Hnone. rewrite Hfail.
    unfold getNextAttendanceAction, Query.attendance_of_day, Query.answer.
    rewrite Hw, (filter_nothing _ _ Hnone). reflexivity.
Qed.

Lemma C10_lookup_failure_reads_as_first_check_in_witness :
  getNextAttendanceAction "emp-1" Sample.nine_ten Sample.unavailable = first_check_in
  /\ getNextAttendanceAction "emp-1" Sample.nine_ten Sample.morning
     = getNextAttendanceAction "emp-1" Sample.nine_ten Sample.unavailable.
Proof.
  destruct (C10_lookup_failure_reads_as_first_check_in "emp-1" Sample.nine_ten
              Sample.unavailable) as (_ & _ & H).
  destruct (H (Pg.Refuses (Pg.mkError "connection refused" "08006")) eq_refl)
    as [Hfail Hsame].
  split; [exact Hfail |].
  apply Hsame; [reflexivity |]. intros r Hin. destruct Hin.
Defined.

(** After a second session is inserted the employee has two rows for the
    day: the lookup of the scanner then errs, and the next action reads
    [first_check_in] again. *)
Example second_session_reads_as_first_check_in :
  exists res st',
    recordAttendance Clock.utc Sample.rosters Sample.unconstrained "emp-1"
      (Sample.nine_ten + 45 * Sample.minute) Sample.on_break = (inr res, st')
    /\ action res = second_check_in
    /\ getNextAttendanceAction "emp-1" (Sample.nine_ten + 50 * Sample.minute) st'
       = first_check_in.
Proof.
  eexists. eexists. split; [vm_compute; reflexivity |]. split; reflexivity.
Qed.

(** With those two rows in the table the recorder's own lookup errs as
    well: the scan that would close the second session fails and writes
    nothing. *)
Example scan_after_second_session_fails :
  let after_second_check_in :=
    snd (recordAttendance Clock.utc Sample.rosters Sample.unconstrained "emp-1"
           (Sample.nine_ten + 45 * Sample.minute) Sample.on_break) in
  recordAttendance Clock.utc Sample.rosters Sample.unconstrained "emp-1"
    (Sample.nine_ten + 50 * Sample.minute) after_second_check_in
  = (inl (AttendanceError "Failed to check existing attendance"), after_second_check_in).
Proof. vm_compute. reflexivity. Qed.

(* ===================================================================== *)
(** * Further properties *)
(* ===================================================================== *)

(** ** QR codes *)

Lemma append_step (a : string) (c : ascii) (b : string) :
  ((a ++ String c EmptyString) ++ b = a ++ String c b)%string.
Proof.
  induction a as [|x a IH]; simpl; [reflexivity | now rewrite IH].
Qed.

Lemma append_associative (a b c : string) : ((a ++ b) ++ c = a ++ (b ++ c))%string.
Proof. induction a as [|x a IH]; simpl; [reflexivity | now rewrite IH]. Qed.

Lemma append_empty_r (a : string) : (a ++ "" = a)%string.
Proof. induction a as [|x a IH]; simpl; [reflexivity | now rewrite IH]. Qed.

Lemma exec_lit (c : ascii) (pattern : list QR.Piece) (s : string) :
  QR.exec (QR.Lit c :: pattern) (String c s) = QR.exec pattern s.
Proof. cbn [QR.exec]. now rewrite Ascii.eqb_refl. Qed.

Lemma exec_group (class : ascii -> bool) (pattern : list QR.Piece) (s : string) :
  QR.exec (QR.Group class :: pattern) s = QR.group_then class (QR.exec pattern) "" s.
Proof. reflexivity. Qed.

(** What a successful group has taken. *)
Lemma group_then_inv (class : ascii -> bool) (k : string -> option (list string)) :
  forall s taken captures,
    QR.group_then class k taken s = Some captures ->
    exists pre post captures',
      s = (pre ++ post)%string /\ pre <> ""
      /\ QR.every class pre = true
      /\ k post = Some captures'
      /\ captures = (taken ++ pre)%string :: captures'.
Proof.
  induction s as [|c rest IH]; intros taken captures H; simpl in H; [discriminate |].
  destruct (class c) eqn:Hc; [| discriminate].
  destruct (QR.group_then class k (taken ++ String c "") rest) as [found|] eqn:Hmore.
  - injection H as <-. apply IH in Hmore.
    destruct Hmore as (pre & post & caps & -> & _ & Hall & Hk & ->).
    exists (String c pre), post, caps. repeat split; try assumption.
    + discriminate.
    + simpl. now rewrite Hc, Hall.
    + now rewrite append_step.
  - destruct (k rest) as [caps|] eqn:Hk; [| discriminate]. injection H as <-.
    exists (String c ""), rest, caps. repeat split; try assumption.
    + discriminate.
    + simpl. now rewrite Hc.
Qed.

(** A group at the end of the pattern takes a whole text of its class. *)
Lemma group_then_last (class : ascii -> bool) :
  forall s taken,
    s <> "" -> QR.every class s = true ->
    QR.group_then class (QR.exec []) taken s = Some [(taken ++ s)%string].
Proof.
  induction s as [|c rest IH]; intros taken Hne Hall; [congruence |].
  simpl in Hall. apply andb_prop in Hall. destruct Hall as [Hc Hrest].
  simpl. rewrite Hc. destruct rest as [|d rest'].
  - reflexivity.
  - rewrite IH; [| discriminate | exact Hrest]. now rewrite append_step.
Qed.

(** A group of non-colons before a literal colon stops at the first
    colon, and nowhere else. *)
Lemma group_then_colon (pattern : list QR.Piece) :
  forall pre taken rest,
    pre <> "" -> QR.every QR.not_colon pre = true ->
    QR.group_then QR.not_colon (QR.exec (QR.Lit ":"%char :: pattern)) taken
      (pre ++ String ":"%char rest)
    = match QR.exec pattern rest with
      | Some captures => Some ((taken ++ pre)%string :: captures)
      | None => None
      end.
Proof.
  induction pre as [|c pre' IH]; intros taken rest Hne Hall; [congruence |].
  simpl in Hall. apply andb_prop in Hall. destruct Hall as [Hc Hrest].
  cbn [append QR.group_then]. rewrite Hc. destruct pre' as [|d pre''].
  - cbn [append QR.group_then]. unfold QR.not_colon at 1. rewrite Ascii.eqb_refl.
    cbn [negb]. cbn [QR.exec]. rewrite Ascii.eqb_refl. reflexivity.
  - rewrite IH; [| discriminate | exact Hrest]. rewrite append_step.
    destruct (QR.exec pattern rest); [reflexivity |].
    cbn [append QR.exec]. simpl in Hrest. apply andb_prop in Hrest.
    destruct Hrest as [Hd _]. unfold QR.not_colon in Hd.
    destruct (Ascii.eqb ":" d) eqn:E; [| reflexivity].
    apply Ascii.eqb_eq in E. subst d. rewrite Ascii.eqb_refl in Hd. discriminate.
Qed.

Lemma alnum_or_space_dot (s : string) :
  QR.every QR.dot (QR.keep_only QR.alnum_or_space s) = true.
Proof.
  induction s as [|c s IH]; [reflexivity |].
  simpl. destruct (QR.alnum_or_space c) eqn:Hc; [| exact IH].
  simpl. rewrite IH, andb_true_r.
  unfold QR.dot. destruct (Ascii.eqb c "010") eqn:H10.
  - apply Ascii.eqb_eq in H10. subst c. discriminate.
  - destruct (Ascii.eqb c "013") eqn:H13; [| reflexivity].
    apply Ascii.eqb_eq in H13. subst c. discriminate.
Qed.

Lemma every_append (class : ascii -> bool) (a b : string) :
  QR.every class (a ++ b) = QR.every class a && QR.every class b.
Proof.
  induction a as [|c a IH]; simpl; [reflexivity |].
  rewrite IH. now rewrite andb_assoc.
Qed.

(** What [parseQRCodeData] accepts. *)
Lemma parse_employee_iff (qrData employeeId : string) :
  QR.parseQRCodeData qrData = QR.Data.mk QR.employee employeeId
  <-> exists rest,
        qrData = ("EMP:" ++ employeeId ++ ":" ++ rest)%string
        /\ employeeId <> "" /\ QR.every QR.not_colon employeeId = true
        /\ rest <> "" /\ QR.every QR.dot rest = true.
Proof.
  unfold QR.parseQRCodeData. split.
  - destruct (QR.exec QR.legacy qrData) as [[|first others]|] eqn:Hexec; try discriminate.
    intros [= ->]. unfold QR.legacy in Hexec.
    destruct qrData as [|c1 s1]; cbn [QR.exec] in Hexec; [discriminate |].
    destruct (Ascii.eqb "E" c1) eqn:H1; [| discriminate].
    destruct s1 as [|c2 s2]; cbn [QR.exec] in Hexec; [discriminate |].
    destruct (Ascii.eqb "M" c2) eqn:H2; [| discriminate].
    destruct s2 as [|c3 s3]; cbn [QR.exec] in Hexec; [discriminate |].
    destruct (Ascii.eqb "P" c3) eqn:H3; [| discriminate].
    destruct s3 as [|c4 body]; cbn [QR.exec] in Hexec; [discriminate |].
    destruct (Ascii.eqb ":" c4) eqn:H4; [| discriminate].
    apply Ascii.eqb_eq in H1, H2, H3, H4. subst c1 c2 c3 c4.
    apply group_then_inv in Hexec.
    destruct Hexec as (pre & post & caps & -> & Hpre & Hall & Hk & Hcaps).
    injection Hcaps as -> ->.
    destruct post as [|c post']; cbn [QR.exec] in Hk; [discriminate |].
    destruct (Ascii.eqb ":" c) eqn:Hc; [| discriminate].
    apply Ascii.eqb_eq in Hc. subst c.
    apply group_then_inv in Hk.
    destruct Hk as (pre2 & post2 & caps2 & -> & Hpre2 & Hall2 & Hend & _).
    destruct post2; [| discriminate].
    exists pre2. rewrite append_empty_r. repeat split; assumption.
  - intros (rest & -> & Hid & Hall & Hrest & Hdot).
    unfold QR.legacy.
    change (":" ++ rest)%string with (String ":"%char rest).
    change ("EMP:" ++ employeeId ++ String ":"%char rest)%string
      with (String "E"%char (String "M"%char (String "P"%char (String ":"%char
              (employeeId ++ String ":"%char rest)))))%string.
    rewrite !exec_lit, exec_group.
    rewrite (group_then_colon [QR.Group QR.dot] employeeId "" rest) by assumption.
    rewrite exec_group, group_then_last by assumption. reflexivity.
Qed.

(** X1. [parseQRCodeData] answers [employee] with an id exactly for the
    texts "EMP:" id ":" rest whose id is not empty and has no colon and
    whose rest is not empty and has no line break; for every other text
    it answers [unknown] with the empty id.  An employee answer never
    carries an empty id. *)
Theorem X1_parse_accepts_exactly (qrData : string) :
  (forall employeeId,
      QR.parseQRCodeData qrData = QR.Data.mk QR.employee employeeId
      <-> exists rest,
            qrData = ("EMP:" ++ employeeId ++ ":" ++ rest)%string
            /\ employeeId <> "" /\ QR.every QR.not_colon employeeId = true
            /\ rest <> "" /\ QR.every QR.dot rest = true)
  /\ (QR.Data.type (QR.parseQRCodeData qrData) = QR.unknown ->
      QR.parseQRCodeData qrData = QR.Data.mk QR.unknown "")
  /\ (QR.Data.type (QR.parseQRCodeData qrData) = QR.employee ->
      QR.Data.id (QR.parseQRCodeData qrData) <> "").
Proof.
  split; [intros employeeId; apply parse_employee_iff |]. split.
  - unfold QR.parseQRCodeData.
    destruct (QR.exec QR.legacy qrData) as [[|first others]|]; simpl;
      intros H; try reflexivity; discriminate.
  - intros Htype.
    destruct (QR.parseQRCodeData qrData) as [kind employeeId] eqn:Hparse.
    simpl in Htype. subst kind. apply parse_employee_iff in Hparse.
    destruct Hparse as (rest & _ & Hne & _). exact Hne.
Qed.

(** X2. The badge text of an employee whose id is not empty and has no
    colon parses back to that id, provided the name keeps at least one
    letter, digit or space; when the name keeps none, the badge text is
    rejected as [unknown]. *)
Theorem X2_badge_round_trip (holder : QR.Holder.t) :
  QR.Holder.id holder <> "" ->
  QR.every QR.not_colon (QR.Holder.id holder) = true ->
  QR.parseQRCodeData (QR.generateEmployeeQR holder)
  = if String.eqb (QR.keep_only QR.alnum_or_space (QR.Holder.name holder)) ""
    then QR.Data.mk QR.unknown ""
    else QR.Data.mk QR.employee (QR.Holder.id holder).
Proof.
  intros Hid Hall. unfold QR.generateEmployeeQR, QR.generateLegacyQR.
  destruct (QR.keep_only QR.alnum_or_space (QR.Holder.name holder)) as [|c kept] eqn:Hkept.
  - cbn [String.eqb]. unfold QR.parseQRCodeData, QR.legacy.
    change (":" ++ "")%string with (String ":"%char "").
    change ("EMP:" ++ QR.Holder.id holder ++ String ":"%char "")%string
      with (String "E"%char (String "M"%char (String "P"%char (String ":"%char
              (QR.Holder.id holder ++ String ":"%char "")))))%string.
    rewrite !exec_lit, exec_group.
    rewrite (group_then_colon [QR.Group QR.dot] (QR.Holder.id holder) "" "") by assumption.
    reflexivity.
  - cbn [String.eqb]. apply parse_employee_iff. exists (String c kept).
    repeat split; try assumption; try discriminate.
    rewrite <- Hkept. apply alnum_or_space_dot.
Qed.

Lemma X2_badge_round_trip_witness :
  QR.generateEmployeeQR Fixture.ann_badge = "EMP:emp-1:Ann OLee HR"
  /\ QR.parseQRCodeData (QR.generateEmployeeQR Fixture.ann_badge)
     = QR.Data.mk QR.employee "emp-1".
Proof.
  split; [reflexivity |].
  exact (X2_badge_round_trip Fixture.ann_badge
           ltac:(discriminate) eq_refl).
Defined.

(** X3. An id that contains a colon does not survive the badge: the text
    parses to the part of the id before its first colon (when that part
    is not empty and the remainder has no line break), whatever the
    name. *)
Theorem X3_colon_cuts_the_id (before after name : string) :
  before <> "" ->
  QR.every QR.not_colon before = true ->
  QR.every QR.dot after = true ->
  QR.parseQRCodeData
    (QR.generateEmployeeQR (QR.Holder.mk (before ++ ":" ++ after) name))
  = QR.Data.mk QR.employee before.
Proof.
  intros Hne Hall Hdot. apply parse_employee_iff.
  exists (after ++ ":" ++ QR.keep_only QR.alnum_or_space name)%string.
  unfold QR.generateEmployeeQR, QR.generateLegacyQR. cbn [QR.Holder.id QR.Holder.name].
  split.
  - f_equal. rewrite !append_associative. reflexivity.
  - split; [exact Hne |]. split; [exact Hall |]. split.
    + destruct after; discriminate.
    + rewrite every_append, Hdot. simpl. apply alnum_or_space_dot.
Qed.

Lemma X3_colon_cuts_the_id_witness :
  QR.parseQRCodeData (QR.generateEmployeeQR (QR.Holder.mk "dept:7" "Bo"))
  = QR.Data.mk QR.employee "dept".
Proof.
  exact (X3_colon_cuts_the_id "dept" "7" "Bo" ltac:(discriminate) eq_refl eq_refl).
Defined.

(** X4. [validateEmployeeQR] answers true exactly when the text parses
    as an employee badge and the store, answering, holds exactly one
    active employee with the parsed id; a failing store, an unknown or
    inactive employee and a malformed text all give false. *)
Theorem X4_validate_iff (qrData : string) (st : Store) :
  QR.validateEmployeeQR qrData st = true
  <-> QR.Data.type (QR.parseQRCodeData qrData) = QR.employee
      /\ outage st = None
      /\ exists e,
           filter (fun e => String.eqb (Employee.id e) (QR.Data.id (QR.parseQRCodeData qrData))
                            && String.eqb (Employee.status e) "active")
                  (employees st) = [e].
Proof.
  unfold QR.validateEmployeeQR, QR.parseQRCodeData, QR.active_employee, Query.answer.
  destruct (QR.exec QR.legacy qrData) as [[|employeeId others]|]; simpl.
  - split; [discriminate | intros [H _]; discriminate].
  - destruct (outage st) as [[e|m]|].
    + split; [discriminate | intros (_ & H & _); discriminate].
    + split; [discriminate | intros (_ & H & _); discriminate].
    + destruct (filter _ (employees st)) as [|e [|e' l]]; simpl.
      * split; [discriminate | intros (_ & _ & e & H); discriminate].
      * split; [intros _; repeat split; now exists e | reflexivity].
      * split; [discriminate | intros (_ & _ & e0 & H); discriminate].
  - split; [discriminate | intros [H _]; discriminate].
Qed.

Lemma X1_parse_accepts_exactly_witness :
  QR.parseQRCodeData "EMP:emp-1:Ann" = QR.Data.mk QR.employee "emp-1".
Proof.
  destruct (X1_parse_accepts_exactly "EMP:emp-1:Ann") as [Hiff _].
  apply Hiff. exists "Ann". repeat split; discriminate.
Defined.

Lemma X4_validate_iff_witness :
  QR.validateEmployeeQR "EMP:emp-1:Ann" Sample.morning = true
  /\ QR.validateEmployeeQR "EMP:emp-1:Ann" Sample.unavailable = false.
Proof.
  split.
  - apply X4_validate_iff. split; [reflexivity |]. split; [reflexivity |].
    exists Sample.ann. reflexivity.
  - reflexivity.
Defined.

(** ** The recorder, further *)

Section RecorderFurther.

Variable tz : Clock.Zone.
Variable getEmployeeRoster : string -> Store -> Exn + option Roster.t.
Variable violates : list Attendance.t -> Attendance.t -> option Pg.PgError.

(** The recorder from the write on, once its reads and its checks have
    passed. *)
Lemma recordAttendance_reaches_write employeeId now st employee roster existingRecord
    nextAction nextStatus :
  Query.employee_by_id employeeId st = Pg.Resolved (Some employee) None ->
  Employee.status employee = "active" ->
  getEmployeeRoster employeeId st = inr (Some roster) ->
  String.eqb (Roster.id roster) "" = false ->
  Query.attendance_of_day employeeId (Clock.isoDate now) st
  = Pg.Resolved existingRecord None ->
  nextStep existingRecord = inr (nextAction, nextStatus) ->
  checkSequence existingRecord nextAction now = None ->
  recordAttendance tz getEmployeeRoster violates employeeId now st
  = match persist violates employee nextAction
            (payload tz employeeId roster now existingRecord nextAction nextStatus) now
            (lateness_of_day tz roster existingRecord nextAction now)
            (early_of_action tz roster nextAction now) st
    with
    | (inl (OtherError m), st') => (inl (AttendanceError m), st')
    | other => other
    end.
Proof.
  intros Hemp Hact Hros Hrid Hrec Hstep Hseq.
  unfold recordAttendance, tryCatch, bind, await, await_roster, throw.
  rewrite Hemp, Hact. simpl. rewrite Hros, Hrid, Hrec, Hstep, Hseq.
  unfold payload, lateness_of_day, early_of_action.
  destruct (is_action nextAction second_check_in);
    match goal with
    | |- context [persist ?v ?e ?a ?d ?n ?ml ?ed ?s] =>
        destruct (persist v e a d n ml ed s) as [[[m|m]|r] s']; reflexivity
    end.
Qed.

(** What a successful run has read, computed and written. *)
Lemma recordAttendance_success_fields employeeId now st res st' :
  recordAttendance tz getEmployeeRoster violates employeeId now st = (inr res, st') ->
  exists employee roster existingRecord nextStatus,
    Query.employee_by_id employeeId st = Pg.Resolved (Some employee) None
    /\ Employee.status employee = "active"
    /\ getEmployeeRoster employeeId st = inr (Some roster)
    /\ String.eqb (Roster.id roster) "" = false
    /\ Query.attendance_of_day employeeId (Clock.isoDate now) st
       = Pg.Resolved existingRecord None
    /\ nextStep existingRecord = inr (action res, nextStatus)
    /\ checkSequence existingRecord (action res) now = None
    /\ persist violates employee (action res)
         (payload tz employeeId roster now existingRecord (action res) nextStatus) now
         (lateness_of_day tz roster existingRecord (action res) now)
         (early_of_action tz roster (action res) now) st
       = (inr res, st').
Proof.
  intros H.
  destruct (recordAttendance_success tz getEmployeeRoster violates _ _ _ _ _ H)
    as (employee & roster & existing & status & ml & ed & eh
        & Hemp & Hros & Hrec & Hstep & Hseq & _).
  assert (Hact : Employee.status employee = "active").
  { destruct (String.eqb (Employee.status employee) "active") eqn:E;
      [now apply String.eqb_eq in E |].
    exfalso. revert H.
    unfold recordAttendance, tryCatch, bind, await, await_roster, throw.
    rewrite Hemp, E. simpl. discriminate. }
  assert (Hrid : String.eqb (Roster.id roster) "" = false).
  { destruct (String.eqb (Roster.id roster) "") eqn:E; [| reflexivity].
    exfalso. revert H.
    unfold recordAttendance, tryCatch, bind, await, await_roster, throw.
    rewrite Hemp, Hact. simpl. rewrite Hros, E. simpl. discriminate. }
  exists employee, roster, existing, status.
  repeat (split; [assumption |]).
  rewrite (recordAttendance_reaches_write _ _ _ _ _ _ _ _ Hemp Hact Hros Hrid Hrec Hstep Hseq)
    in H.
  destruct (persist _ _ _ _ _ _ _ st) as [[[m|m]|r] s']; try discriminate. exact H.
Qed.

Lemma attendance_of_day_healthy employeeId day st existingRecord :
  Query.attendance_of_day employeeId day st = Pg.Resolved existingRecord None ->
  outage st = None.
Proof.
  unfold Query.attendance_of_day, Query.answer.
  destruct (outage st) as [[e|m]|]; [discriminate | discriminate | reflexivity].
Qed.

Lemma nextStep_first_check_in existingRecord nextStatus :
  nextStep existingRecord = inr (first_check_in, nextStatus) -> existingRecord = None.
Proof.
  destruct existingRecord as [r|]; [| reflexivity]. intros H.
  destruct (nextStep_some _ _ _ H) as [[Ha _] | [[Ha _] | [Ha _]]]; discriminate.
Qed.

Lemma nextStep_status existingRecord nextAction nextStatus :
  nextStep existingRecord = inr (nextAction, nextStatus) ->
  nextStatus = status_of_action nextAction.
Proof.
  destruct existingRecord as [r|]; unfold nextStep.
  - destruct (Attendance.first_check_in_time r), (Attendance.first_check_out_time r),
      (Attendance.second_check_in_time r), (Attendance.second_check_out_time r);
      simpl; intros H; inversion H; reflexivity.
  - intros [= <- <-]. reflexivity.
Qed.

Lemma recordAttendance_throws_own_error employeeId now st x st' :
  recordAttendance tz getEmployeeRoster violates employeeId now st = (inl x, st') ->
  exists m, x = AttendanceError m.
Proof.
  unfold recordAttendance, tryCatch.
  match goal with
  | |- (let (_, _) := ?body st in _) = _ -> _ => destruct (body st) as [[[m|m]|r] s]
  end; unfold throw; intros H; inversion H; eauto.
Qed.

(** X5. Whatever makes [recordAttendance] fail, what it throws is an
    [AttendanceError], and the store is left as it was. *)
Theorem X5_failure_is_classified_and_writes_nothing employeeId now st x st' :
  recordAttendance tz getEmployeeRoster violates employeeId now st = (inl x, st') ->
  st' = st /\ exists m, x = AttendanceError m.
Proof.
  intros H. split; [exact (recordAttendance_failure _ _ _ _ _ _ _ _ H) |].
  exact (recordAttendance_throws_own_error _ _ _ _ _ H).
Qed.

Lemma checkSequence_passes existingRecord nextAction nextStatus now :
  nextStep existingRecord = inr (nextAction, nextStatus) ->
  (forall r t, existingRecord = Some r -> preceding nextAction r = Some t -> t < now) ->
  checkSequence existingRecord nextAction now = None.
Proof.
  intros Hstep Hafter. destruct existingRecord as [r|]; [| reflexivity].
  destruct (nextStep_some _ _ _ Hstep) as [[-> [Hset _]] | [[-> [Hset _]] | [-> [Hset _]]]];
    cbn [checkSequence];
    match goal with
    | |- context [not_after now ?column] =>
        destruct column as [t|] eqn:Hcol; [| reflexivity];
        assert (Hlt : t < now) by (apply (Hafter r t eq_refl); exact Hcol);
        cbn [not_after]; apply Z.leb_gt in Hlt; rewrite Hlt; reflexivity
    end.
Qed.

(** Once the reads and the checks have passed, a table that accepts
    every row and has its next key free takes the write. *)
Lemma write_goes_through employeeId now st employee roster existingRecord
    nextAction nextStatus :
  Query.employee_by_id employeeId st = Pg.Resolved (Some employee) None ->
  Employee.status employee = "active" ->
  getEmployeeRoster employeeId st = inr (Some roster) ->
  String.eqb (Roster.id roster) "" = false ->
  Query.attendance_of_day employeeId (Clock.isoDate now) st
  = Pg.Resolved existingRecord None ->
  nextStep existingRecord = inr (nextAction, nextStatus) ->
  checkSequence existingRecord nextAction now = None ->
  (forall table row, violates table row = None) ->
  existsb (has_id (next_id st)) (attendance st) = false ->
  exists res st',
    recordAttendance tz getEmployeeRoster violates employeeId now st = (inr res, st')
    /\ action res = nextAction.
Proof.
  intros Hemp Hact Hros Hrid Hrec Hstep Hseq Hfree Hkey.
  rewrite (recordAttendance_reaches_write _ _ _ _ _ _ _ _ Hemp Hact Hros Hrid Hrec Hstep Hseq).
  pose proof (attendance_of_day_healthy _ _ _ _ Hrec) as Hout.
  unfold persist, bind, await_write, ret, throw.
  destruct existingRecord as [prior|].
  - destruct (attendance_of_day_found _ _ _ _ Hrec) as [Hin _].
    destruct (find_has_id prior (attendance st) Hin) as [old [Hfind _]].
    destruct (nextStep_some _ _ _ Hstep) as [[-> _] | [[-> _] | [-> _]]];
      cbn [is_action]; unfold payload; cbn [is_action];
      unfold upsert, insert; rewrite Hout; cbn [AttendanceData.id updateData
        secondSessionData option_map];
      rewrite ?Hfind, ?Hkey, !Hfree; eexists; eexists; split; reflexivity.
  - apply nextStep_none in Hstep. subst nextAction.
    cbn [is_action]; unfold payload; cbn [is_action].
    unfold upsert, insert; rewrite Hout; cbn [AttendanceData.id updateData option_map].
    rewrite Hkey, Hfree. eexists; eexists; split; reflexivity.
Qed.

(** X6. When the employee is active, a roster is assigned, the day's
    lookup answers, the scan comes strictly after the event that
    precedes it in the day's record - by one millisecond or more, no
    longer gap is asked for -, the table accepts every row and its next
    key is free, the call succeeds with the action the ladder names. *)
Theorem X6_scan_succeeds employeeId now st employee roster existingRecord
    nextAction nextStatus :
  Query.employee_by_id employeeId st = Pg.Resolved (Some employee) None ->
  Employee.status employee = "active" ->
  getEmployeeRoster employeeId st = inr (Some roster) ->
  String.eqb (Roster.id roster) "" = false ->
  Query.attendance_of_day employeeId (Clock.isoDate now) st
  = Pg.Resolved existingRecord None ->
  nextStep existingRecord = inr (nextAction, nextStatus) ->
  (forall r t, existingRecord = Some r -> preceding nextAction r = Some t -> t < now) ->
  (forall table row, violates table row = None) ->
  existsb (has_id (next_id st)) (attendance st) = false ->
  exists res st',
    recordAttendance tz getEmployeeRoster violates employeeId now st = (inr res, st')
    /\ action res = nextAction.
Proof.
  intros Hemp Hact Hros Hrid Hrec Hstep Hafter Hfree Hkey.
  pose proof (checkSequence_passes _ _ _ _ Hstep Hafter) as Hseq.
  destruct existingRecord as [prior|].
  - apply (write_goes_through employeeId now st employee roster (Some prior)
             nextAction nextStatus); assumption.
  - apply (write_goes_through employeeId now st employee roster None
             nextAction nextStatus); assumption.
Qed.

(** The columns every write copies from the payload. *)
Lemma written_columns employee nextAction d now ml ed st res st' :
  persist violates employee nextAction d now ml ed st = (inr res, st') ->
  Attendance.employee_id (stored res) = AttendanceData.employee_id d
  /\ Attendance.date (stored res) = AttendanceData.date d
  /\ Attendance.roster_id (stored res) = AttendanceData.roster_id d
  /\ Attendance.status (stored res) = AttendanceData.status d
  /\ Attendance.minutes_late (stored res) = AttendanceData.minutes_late d
  /\ Attendance.early_departure_minutes (stored res) = AttendanceData.early_departure_minutes d
  /\ Attendance.expected_hours (stored res) = AttendanceData.expected_hours d
  /\ Attendance.break_duration (stored res) = AttendanceData.break_duration d
  /\ Attendance.second_check_in_time (stored res) = AttendanceData.second_check_in_time d
  /\ isLate res = positive_minutes ml.
Proof.
  intros H.
  assert (Hlate : isLate res = positive_minutes ml).
  { revert H. unfold persist, bind, await_write, ret, throw.
    destruct ((if is_action nextAction second_check_in
               then insert violates d now else upsert violates d now) st)
      as [[[row|] [e|] | y] s]; intros H; inversion H; reflexivity. }
  apply persist_success in H. destruct H as [_ Hw].
  assert (Hrow : (exists key, stored res = new_row key d now)
                 \/ (exists old, stored res = updated_row old d)).
  { destruct (is_action nextAction second_check_in).
    - apply insert_cases in Hw. destruct Hw as [(row & Hr & _ & Hrow & _) | [_ Hn]].
      + unfold wrote in Hr. injection Hr as <-. left. eexists. exact Hrow.
      + elim (Hn _ eq_refl).
    - apply upsert_cases in Hw.
      destruct Hw as [(row & Hr & _ & Hrow & _)
                     | [(key & old & row & _ & _ & Hrow & Hr & _) | [_ Hn]]].
      + unfold wrote in Hr. injection Hr as <-. left. eexists. exact Hrow.
      + unfold wrote in Hr. injection Hr as <-. right. eexists. exact Hrow.
      + elim (Hn _ eq_refl). }
  destruct Hrow as [[key ->] | [old ->]]; repeat split; assumption.
Qed.

(** X7. The derived columns of the row a successful call stores are
    recomputed from the roster: the status goes with the action, the
    early departure is 0 unless the action is [second_check_out], and
    [minutes_late] is the lateness of the day's first check-in - the scan
    itself for [first_check_in], otherwise the [first_check_in_time] of
    the day's record, also for the new row of a second session.  The row
    carries the employee, the day of the scan and the roster's id. *)
Theorem X7_derived_columns employeeId now st res st' :
  recordAttendance tz getEmployeeRoster violates employeeId now st = (inr res, st') ->
  exists roster existingRecord,
    getEmployeeRoster employeeId st = inr (Some roster)
    /\ Query.attendance_of_day employeeId (Clock.isoDate now) st
       = Pg.Resolved existingRecord None
    /\ Attendance.employee_id (stored res) = employeeId
    /\ Attendance.date (stored res) = Clock.isoDate now
    /\ Attendance.roster_id (stored res) = Roster.id roster
    /\ Attendance.status (stored res) = status_of_action (action res)
    /\ Attendance.minutes_late (stored res)
       = lateness_of_day tz roster existingRecord (action res) now
    /\ Attendance.early_departure_minutes (stored res)
       = early_of_action tz roster (action res) now
    /\ Attendance.expected_hours (stored res)
       = F64.json
           (calculateExpectedHours (Roster.start_time roster) (Roster.end_time roster)
              (Roster.break_duration roster))
    /\ Attendance.break_duration (stored res) = Roster.break_duration roster
    /\ isLate res = positive_minutes (Attendance.minutes_late (stored res)).
Proof.
  intros H. apply recordAttendance_success_fields in H.
  destruct H as (employee & roster & existing & status & _ & _ & Hros & _ & Hrec
                 & Hstep & _ & Hp).
  exists roster, existing. split; [exact Hros |]. split; [exact Hrec |].
  apply written_columns in Hp.
  destruct Hp as (He & Hd & Hr & Hs & Hm & Hed & Hx & Hb & _ & Hl).
  apply nextStep_status in Hstep. subst status.
  rewrite He, Hd, Hr, Hs, Hm, Hed, Hx, Hb, Hl.
  unfold payload. destruct (is_action (action res) second_check_in);
    repeat split; reflexivity.
Qed.

(** One scan keeps the table free of second check-ins, and is then no
    [second_check_out]. *)
Lemma no_second_check_in_step employeeId now st out st' :
  no_second_check_in st ->
  recordAttendance tz getEmployeeRoster violates employeeId now st = (out, st') ->
  no_second_check_in st'
  /\ forall res, out = inr res ->
                 action res <> second_check_out
                 /\ Attendance.second_check_in_time (stored res) = None.
Proof.
  intros Hinv H. destruct out as [x | res].
  - apply recordAttendance_failure in H. subst st'.
    split; [exact Hinv | intros res Hres; discriminate].
  - apply recordAttendance_written in H.
    destruct H as (roster & existing & status & ml & ed & eh & Hrec & Hstep & Hshape).
    destruct (action res) eqn:Ha.
    + destruct Hshape as (-> & Hrow & ->).
      assert (Hnone : Attendance.second_check_in_time (stored res) = None)
        by (rewrite Hrow; reflexivity).
      split.
      * intros r Hin. simpl in Hin. apply in_app_or in Hin.
        destruct Hin as [Hin | [<- | []]]; [now apply Hinv | exact Hnone].
      * intros r [= <-]. rewrite Ha. split; [discriminate | exact Hnone].
    + destruct Hshape as (prior & old & -> & Hfind & Hid & Hrow & ->).
      destruct (attendance_of_day_found _ _ _ _ Hrec) as [Hin _].
      assert (Hnone : Attendance.second_check_in_time (stored res) = None).
      { rewrite Hrow. simpl. unfold stamp_or_keep. simpl. now apply Hinv. }
      split.
      * intros r Hr. simpl in Hr. apply in_map_iff in Hr.
        destruct Hr as (r0 & Hr0 & Hin0).
        destruct (has_id (Attendance.id (stored res)) r0); subst r;
          [exact Hnone | now apply Hinv].
      * intros r [= <-]. rewrite Ha. split; [discriminate | exact Hnone].
    + destruct Hshape as (prior & -> & Hrow & _ & ->).
      assert (Hnone : Attendance.second_check_in_time (stored res) = None)
        by (rewrite Hrow; reflexivity).
      split.
      * intros r Hin. simpl in Hin. apply in_app_or in Hin.
        destruct Hin as [Hin | [<- | []]]; [now apply Hinv | exact Hnone].
      * intros r [= <-]. rewrite Ha. split; [discriminate | exact Hnone].
    + exfalso. destruct Hshape as (prior & old & -> & _).
      destruct (attendance_of_day_found _ _ _ _ Hrec) as [Hin _].
      destruct (nextStep_some _ _ _ Hstep) as [[Hx _] | [[Hx _] | [_ [Hci _]]]];
        try discriminate.
      rewrite (Hinv prior Hin) in Hci. discriminate.
    + contradiction.
Qed.

(** X8. The recorder never sets [second_check_in_time]: from a table in
    which no row has one, no run of scans, of whatever employees at
    whatever instants, gives a row one, and none of its calls is a
    [second_check_out]; so no day is ever completed by the recorder. *)
Theorem X8_no_scan_is_a_second_check_out (events : list (string * Z)) (st : Store) :
  no_second_check_in st ->
  no_second_check_in (snd (scans tz getEmployeeRoster violates events st))
  /\ Forall (fun outcome =>
               forall res, outcome = inr res ->
                           action res <> second_check_out
                           /\ Attendance.second_check_in_time (stored res) = None)
            (fst (scans tz getEmployeeRoster violates events st)).
Proof.
  revert st. induction events as [|[employeeId now] later IH]; intros st Hinv.
  - split; [exact Hinv | constructor].
  - cbn [scans].
    destruct (recordAttendance tz getEmployeeRoster violates employeeId now st)
      as [out st1] eqn:Hrun.
    destruct (no_second_check_in_step _ _ _ _ _ Hinv Hrun) as [Hinv1 Hout].
    destruct (IH st1 Hinv1) as [Hfinal Hall].
    destruct (scans tz getEmployeeRoster violates later st1) as [outs st2].
    split; [exact Hfinal | constructor; assumption].
Qed.

(** X9. Under a table that refuses, in the name of
    [unique_daily_attendance], any row sharing employee and day with a
    row it holds, no call ever succeeds as a [second_check_in]: the
    insert of the second session is the row that the constraint
    refuses, and nothing is written. *)
Theorem X9_unique_day_refuses_second_session employeeId now st out st' :
  (forall table row,
      existsb (fun r => String.eqb (Attendance.employee_id r) (Attendance.employee_id row)
                        && (Attendance.date r =? Attendance.date row)) table = true ->
      exists e, violates table row = Some e
                /\ JS.includes "unique_daily_attendance" (Pg.message e) = true
                /\ JS.includes "valid_check_times" (Pg.message e) = false) ->
  recordAttendance tz getEmployeeRoster violates employeeId now st = (out, st') ->
  (forall res, out = inr res -> action res <> second_check_in)
  /\ (forall employee roster prior nextStatus,
         Query.employee_by_id employeeId st = Pg.Resolved (Some employee) None ->
         Employee.status employee = "active" ->
         getEmployeeRoster employeeId st = inr (Some roster) ->
         String.eqb (Roster.id roster) "" = false ->
         Query.attendance_of_day employeeId (Clock.isoDate now) st
         = Pg.Resolved (Some prior) None ->
         nextStep (Some prior) = inr (second_check_in, nextStatus) ->
         checkSequence (Some prior) second_check_in now = None ->
         existsb (has_id (next_id st)) (attendance st) = false ->
         out = inl (AttendanceError "Attendance record already exists for today.")
         /\ st' = st).
Proof.
  intros Hunique Hrun.
  assert (Hclash : forall prior d,
             Query.attendance_of_day employeeId (Clock.isoDate now) st
             = Pg.Resolved (Some prior) None ->
             AttendanceData.employee_id d = employeeId ->
             AttendanceData.date d = Clock.isoDate now ->
             forall key, exists e,
               violates (attendance st) (new_row key d now) = Some e
               /\ JS.includes "unique_daily_attendance" (Pg.message e) = true
               /\ JS.includes "valid_check_times" (Pg.message e) = false).
  { intros prior d Hrec He Hd key. apply Hunique. apply existsb_exists.
    destruct (attendance_of_day_found _ _ _ _ Hrec) as [Hin Hday].
    exists prior. split; [exact Hin |]. simpl. rewrite He, Hd.
    unfold Query.of_day in Hday. exact Hday. }
  split.
  - intros res -> Ha.
    apply recordAttendance_success in Hrun.
    destruct Hrun as (employee & roster & existing & status & ml & ed & eh
                      & _ & _ & Hrec & Hstep & _ & Hw).
    rewrite Ha in Hw, Hstep. simpl in Hw.
    destruct existing as [prior|]; [| apply nextStep_none in Hstep; discriminate].
    destruct (Hclash prior
                (secondSessionData employeeId roster (Clock.isoDate now) now (Some prior)
                   status ml ed eh) Hrec eq_refl eq_refl (next_id st))
      as (e & Hv & _).
    revert Hw. unfold insert.
    rewrite (attendance_of_day_healthy _ _ _ _ Hrec). simpl AttendanceData.id. cbv iota.
    destruct (existsb (has_id (next_id st)) (attendance st)); [discriminate |].
    rewrite Hv. discriminate.
  - intros employee roster prior status Hemp Hact Hros Hrid Hrec Hstep Hseq Hkey.
    rewrite (recordAttendance_reaches_write _ _ _ _ _ _ _ _ Hemp Hact Hros Hrid Hrec Hstep Hseq)
      in Hrun.
    destruct (Hclash prior
                (payload tz employeeId roster now (Some prior) second_check_in status)
                Hrec eq_refl eq_refl (next_id st))
      as (e & Hv & Hu & Hc).
    revert Hrun. unfold persist, bind, await_write, throw, ret. cbn [is_action].
    unfold insert. rewrite (attendance_of_day_healthy _ _ _ _ Hrec).
    change (AttendanceData.id
              (payload tz employeeId roster now (Some prior) second_check_in status))
      with (@None nat). cbv iota. rewrite Hkey, Hv.
    unfold writeError. rewrite Hc, Hu. intros [= <- <-]. split; reflexivity.
Qed.

Lemma attendance_of_day_none employeeId day st :
  Query.attendance_of_day employeeId day st = Pg.Resolved None None ->
  filter (Query.of_day employeeId day) (attendance st) = [].
Proof.
  unfold Query.attendance_of_day, Query.answer.
  destruct (outage st) as [[e|m]|]; try discriminate.
  destruct (filter _ (attendance st)) as [|x [|y l]]; simpl; try discriminate.
  reflexivity.
Qed.

Lemma attendance_of_day_one employeeId day st r :
  Query.attendance_of_day employeeId day st = Pg.Resolved (Some r) None ->
  filter (Query.of_day employeeId day) (attendance st) = [r].
Proof.
  unfold Query.attendance_of_day, Query.answer.
  destruct (outage st) as [[e|m]|]; try discriminate.
  destruct (filter _ (attendance st)) as [|x [|y l]]; simpl; try discriminate.
  now intros [= ->].
Qed.

(** In a table with distinct keys, replacing the one row a test selects
    by a row with its key that passes the test leaves that row the one
    selected. *)
Lemma filter_replaced (test : Attendance.t -> bool) (row prior : Attendance.t) :
  forall table,
    NoDup (map Attendance.id table) ->
    filter test table = [prior] ->
    test row = true ->
    Attendance.id row = Attendance.id prior ->
    filter test (replaced row table) = [row].
Proof.
  intros table Hnodup Hsel Hrow Hid.
  assert (Hin : In prior table).
  { assert (H : In prior (filter test table)) by (rewrite Hsel; now left).
    apply filter_In in H. tauto. }
  revert Hnodup Hsel Hin.
  induction table as [|a t IH]; intros Hnodup Hsel Hin; [destruct Hin |].
  simpl in Hnodup. inversion Hnodup as [|? ? Hnotin Hnodup']; subst.
  change (replaced row (a :: t))
    with ((if has_id (Attendance.id row) a then row else a) :: replaced row t).
  simpl in Hsel. destruct (test a) eqn:Ha.
  - injection Hsel as -> Hrest.
    unfold has_id at 1. rewrite Hid, Nat.eqb_refl. cbn [filter]. rewrite Hrow. f_equal.
    assert (Hsame : replaced row t = t).
    { unfold replaced. rewrite <- (map_id t) at 2. apply map_ext_in.
      intros r Hr. unfold has_id. destruct (Nat.eqb (Attendance.id r) (Attendance.id row)) eqn:E;
        [| reflexivity].
      exfalso. apply Hnotin. apply Nat.eqb_eq in E. rewrite <- Hid, <- E.
      now apply in_map. }
    rewrite Hsame. exact Hrest.
  - destruct Hin as [-> | Hin].
    + exfalso. assert (H : In prior (filter test t)) by (rewrite Hsel; now left).
      apply filter_In in H. destruct H as [Hp _]. apply Hnotin. now apply in_map.
    + assert (Hne : has_id (Attendance.id row) a = false).
      { unfold has_id. apply Nat.eqb_neq. intros E. apply Hnotin.
        rewrite E, Hid. now apply in_map. }
      rewrite Hne. cbn [filter]. rewrite Ha. now apply IH.
Qed.

(** The day's lookup after a call that is no [second_check_in]. *)
Lemma lookup_after_scan employeeId now st res st' :
  recordAttendance tz getEmployeeRoster violates employeeId now st = (inr res, st') ->
  action res <> second_check_in ->
  distinct_keys st ->
  Query.attendance_of_day employeeId (Clock.isoDate now) st'
  = Pg.Resolved (Some (stored res)) None.
Proof.
  intros H Hnot Hkeys.
  pose proof (recordAttendance_success_fields _ _ _ _ _ H) as Hfields.
  destruct Hfields as (employee & roster0 & existing0 & status0 & _ & _ & _ & _ & Hrec0
                       & _ & _ & Hp).
  apply written_columns in Hp. destruct Hp as (He & Hd & _).
  assert (Hday : Query.of_day employeeId (Clock.isoDate now) (stored res) = true).
  { unfold Query.of_day. rewrite He, Hd. unfold payload.
    destruct (is_action (action res) second_check_in); simpl;
      now rewrite String.eqb_refl, Z.eqb_refl. }
  pose proof (attendance_of_day_healthy _ _ _ _ Hrec0) as Hout.
  apply recordAttendance_written in H.
  destruct H as (roster & existing & status & ml & ed & eh & Hrec & Hstep & Hshape).
  destruct (action res) eqn:Ha; try contradiction.
  - destruct Hshape as (-> & Hrow & ->).
    unfold Query.attendance_of_day, Query.answer. simpl. rewrite Hout.
    rewrite filter_app, (attendance_of_day_none _ _ _ Hrec). simpl.
    rewrite Hday. reflexivity.
  - destruct Hshape as (prior & old & -> & Hfind & Hid & Hrow & ->).
    unfold Query.attendance_of_day, Query.answer. simpl. rewrite Hout.
    fold (replaced (stored res) (attendance st)).
    rewrite (filter_replaced _ (stored res) prior); try assumption.
    + reflexivity.
    + now apply attendance_of_day_one.
    + rewrite Hrow. exact Hid.
  - destruct Hshape as (prior & old & -> & Hfind & Hid & Hrow & ->).
    unfold Query.attendance_of_day, Query.answer. simpl. rewrite Hout.
    fold (replaced (stored res) (attendance st)).
    rewrite (filter_replaced _ (stored res) prior); try assumption.
    + reflexivity.
    + now apply attendance_of_day_one.
    + rewrite Hrow. exact Hid.
Qed.

(** X10. Read your write.  In a table with distinct keys, after a
    successful call that is no [second_check_in] the day's lookup finds
    exactly the row just stored; so for the rest of that day
    [getCurrentAttendanceState] shows the state of that row, and after a
    [first_check_in] that state is [first_checked_in] and the next
    action [first_check_out]. *)
Theorem X10_lookup_finds_the_stored_row employeeId now st res st' :
  recordAttendance tz getEmployeeRoster violates employeeId now st = (inr res, st') ->
  action res <> second_check_in ->
  distinct_keys st ->
  Query.attendance_of_day employeeId (Clock.isoDate now) st'
  = Pg.Resolved (Some (stored res)) None
  /\ forall later,
       Clock.isoDate later = Clock.isoDate now ->
       getCurrentAttendanceState employeeId later st' = state_of_row (stored res)
       /\ (action res = first_check_in ->
           getCurrentAttendanceState employeeId later st' = first_checked_in
           /\ getNextAttendanceAction employeeId later st' = first_check_out).
Proof.
  intros H Hnot Hkeys.
  pose proof (lookup_after_scan _ _ _ _ _ H Hnot Hkeys) as Hlook.
  split; [exact Hlook |].
  intros later Hsame. split.
  - unfold getCurrentAttendanceState, state_of_row. rewrite Hsame, Hlook. reflexivity.
  - intros Ha. apply recordAttendance_written in H.
    destruct H as (roster & existing & status & ml & ed & eh & _ & _ & Hshape).
    rewrite Ha in Hshape. destruct Hshape as (_ & Hrow & _).
    unfold getCurrentAttendanceState, getNextAttendanceAction.
    rewrite Hsame, Hlook, Hrow. split; reflexivity.
Qed.

(** The day's lookup after a [second_check_in]. *)
Lemma lookup_after_second_session employeeId now st res st' :
  recordAttendance tz getEmployeeRoster violates employeeId now st = (inr res, st') ->
  action res = second_check_in ->
  Query.attendance_of_day employeeId (Clock.isoDate now) st'
  = Pg.Resolved None (Some Pg.not_one_row).
Proof.
  intros H Ha.
  pose proof (recordAttendance_success_fields _ _ _ _ _ H) as Hfields.
  destruct Hfields as (employee & roster0 & existing0 & status0 & _ & _ & _ & _ & Hrec0
                       & _ & _ & Hp).
  apply written_columns in Hp. destruct Hp as (He & Hd & _).
  assert (Hday : Query.of_day employeeId (Clock.isoDate now) (stored res) = true).
  { unfold Query.of_day. rewrite He, Hd. unfold payload.
    destruct (is_action (action res) second_check_in); simpl;
      now rewrite String.eqb_refl, Z.eqb_refl. }
  pose proof (attendance_of_day_healthy _ _ _ _ Hrec0) as Hout.
  apply recordAttendance_written in H.
  destruct H as (roster & existing & status & ml & ed & eh & Hrec & Hstep & Hshape).
  rewrite Ha in Hshape. destruct Hshape as (prior & -> & Hrow & _ & ->).
  unfold Query.attendance_of_day, Query.answer. simpl. rewrite Hout.
  rewrite filter_app, (attendance_of_day_one _ _ _ _ Hrec). simpl.
  rewrite Hday. reflexivity.
Qed.

(** X11. After a successful [second_check_in] the employee has two rows
    for the day, so the day's lookup errs: for the rest of that day the
    scanner reads [not_checked_in] and [first_check_in], and every
    further call of the recorder for that employee fails and writes
    nothing - with 'Failed to check existing attendance' when a roster is
    still assigned. *)
Theorem X11_second_session_blocks_the_day employeeId now st res st' :
  recordAttendance tz getEmployeeRoster violates employeeId now st = (inr res, st') ->
  action res = second_check_in ->
  forall later,
    Clock.isoDate later = Clock.isoDate now ->
    Query.attendance_of_day employeeId (Clock.isoDate later) st'
    = Pg.Resolved None (Some Pg.not_one_row)
    /\ getCurrentAttendanceState employeeId later st' = not_checked_in
    /\ getNextAttendanceAction employeeId later st' = first_check_in
    /\ forall out st'',
         recordAttendance tz getEmployeeRoster violates employeeId later st' = (out, st'') ->
         st'' = st'
         /\ (exists m, out = inl (AttendanceError m))
         /\ forall roster,
              getEmployeeRoster employeeId st' = inr (Some roster) ->
              String.eqb (Roster.id roster) "" = false ->
              out = inl (AttendanceError "Failed to check existing attendance").
Proof.
  intros H Ha later Hsame.
  pose proof (lookup_after_second_session _ _ _ _ _ H Ha) as Hlook.
  rewrite <- Hsame in Hlook.
  pose proof (recordAttendance_success_fields _ _ _ _ _ H) as Hfields.
  destruct Hfields as (employee & roster0 & existing0 & status0 & Hemp & Hact & _).
  assert (Hsame_emp : Query.employee_by_id employeeId st'
                      = Query.employee_by_id employeeId st).
  { apply recordAttendance_written in H.
    destruct H as (roster & existing & status & ml & ed & eh & _ & _ & Hshape).
    rewrite Ha in Hshape. destruct Hshape as (prior & _ & _ & _ & ->). reflexivity. }
  split; [exact Hlook |]. split; [| split].
  - unfold getCurrentAttendanceState. rewrite Hlook. reflexivity.
  - unfold getNextAttendanceAction. rewrite Hlook. reflexivity.
  - intros out st'' Hrun. destruct out as [x | res2].
    + split; [exact (recordAttendance_failure _ _ _ _ _ _ _ _ Hrun) |].
      split; [destruct (recordAttendance_throws_own_error _ _ _ _ _ Hrun) as [m ->];
              now exists m |].
      intros roster' Hros' Hrid'. revert Hrun.
      unfold recordAttendance, tryCatch, bind, await, await_roster, throw.
      rewrite Hsame_emp, Hemp, Hact. simpl. rewrite Hros', Hrid', Hlook. simpl.
      intros [= <- _]. reflexivity.
    + exfalso. apply recordAttendance_success in Hrun.
      destruct Hrun as (? & ? & existing2 & ? & ? & ? & ? & _ & _ & Hrec2 & _).
      rewrite Hlook in Hrec2. discriminate.
Qed.

End RecorderFurther.

(** *** The further statements on the sample stores *)

Lemma unique_daily_refuses :
  forall table row,
    existsb (fun r => String.eqb (Attendance.employee_id r) (Attendance.employee_id row)
                      && (Attendance.date r =? Attendance.date row)) table = true ->
    exists e, Fixture.unique_daily table row = Some e
              /\ JS.includes "unique_daily_attendance" (Pg.message e) = true
              /\ JS.includes "valid_check_times" (Pg.message e) = false.
Proof.
  intros table row H. unfold Fixture.unique_daily. rewrite H.
  eexists. split; [reflexivity |]. split; reflexivity.
Qed.

Lemma X5_failure_is_classified_and_writes_nothing_witness :
  exists x st',
    recordAttendance Clock.utc Sample.rosters Sample.unconstrained "emp-1" Sample.nine_ten
      Sample.unavailable = (inl x, st')
    /\ st' = Sample.unavailable /\ exists m, x = AttendanceError m.
Proof.
  destruct (recordAttendance Clock.utc Sample.rosters Sample.unconstrained "emp-1" Sample.nine_ten
              Sample.unavailable) as [[x | res] st'] eqn:Hrun;
    [| vm_compute in Hrun; discriminate].
  exists x, st'. split; [reflexivity |].
  exact (X5_failure_is_classified_and_writes_nothing Clock.utc Sample.rosters Sample.unconstrained
           "emp-1" Sample.nine_ten Sample.unavailable x st' Hrun).
Defined.

Lemma X6_scan_succeeds_witness :
  exists res st',
    recordAttendance Clock.utc Sample.rosters Sample.unconstrained "emp-1"
      (Sample.nine_ten + 1) Sample.checked_in = (inr res, st')
    /\ action res = first_check_out.
Proof.
  apply (X6_scan_succeeds Clock.utc Sample.rosters Sample.unconstrained "emp-1"
           (Sample.nine_ten + 1) Sample.checked_in Sample.ann Sample.day_shift
           (Some (Sample.row 1 "emp-1" (Some Sample.nine_ten) None None None
                    (Some Sample.nine_ten) (Some Sample.nine_ten) (Some 5)))
           first_check_out "ON_BREAK");
    try reflexivity.
  intros r t [= <-] [= <-]. lia.
Defined.

Lemma X7_derived_columns_witness :
  exists res st',
    recordAttendance Clock.utc Sample.rosters Sample.unconstrained "emp-1"
      (Sample.nine_ten + 45 * Sample.minute) Sample.on_break = (inr res, st')
    /\ Attendance.status (stored res) = status_of_action (action res)
    /\ isLate res = positive_minutes (Attendance.minutes_late (stored res)).
Proof.
  destruct (recordAttendance Clock.utc Sample.rosters Sample.unconstrained "emp-1"
              (Sample.nine_ten + 45 * Sample.minute) Sample.on_break)
    as [[x | res] st'] eqn:Hrun; [vm_compute in Hrun; discriminate |].
  exists res, st'. split; [reflexivity |].
  destruct (X7_derived_columns Clock.utc Sample.rosters Sample.unconstrained "emp-1"
              (Sample.nine_ten + 45 * Sample.minute) Sample.on_break res st' Hrun)
    as (roster & existing & _ & _ & _ & _ & _ & Hs & _ & _ & _ & _ & Hl).
  split; assumption.
Defined.

Lemma X8_no_scan_is_a_second_check_out_witness :
  no_second_check_in
    (snd (scans Clock.utc Sample.rosters Sample.unconstrained
            [ ("emp-1", Sample.nine_ten); ("emp-1", Sample.nine_ten + 30 * Sample.minute);
              ("emp-1", Sample.nine_ten + 60 * Sample.minute);
              ("emp-1", Sample.nine_ten + 90 * Sample.minute) ]
            Sample.morning)).
Proof.
  apply (X8_no_scan_is_a_second_check_out Clock.utc Sample.rosters Sample.unconstrained
           [ ("emp-1", Sample.nine_ten); ("emp-1", Sample.nine_ten + 30 * Sample.minute);
             ("emp-1", Sample.nine_ten + 60 * Sample.minute);
             ("emp-1", Sample.nine_ten + 90 * Sample.minute) ]
           Sample.morning).
  intros r Hin. destruct Hin.
Defined.

Lemma X9_unique_day_refuses_second_session_witness :
  recordAttendance Clock.utc Sample.rosters Fixture.unique_daily "emp-1"
    (Sample.nine_ten + 45 * Sample.minute) Sample.on_break
  = (inl (AttendanceError "Attendance record already exists for today."), Sample.on_break).
Proof.
  destruct (recordAttendance Clock.utc Sample.rosters Fixture.unique_daily "emp-1"
              (Sample.nine_ten + 45 * Sample.minute) Sample.on_break)
    as [out st'] eqn:Hrun.
  destruct (X9_unique_day_refuses_second_session Clock.utc Sample.rosters Fixture.unique_daily
              "emp-1" (Sample.nine_ten + 45 * Sample.minute) Sample.on_break out st'
              unique_daily_refuses Hrun) as [_ Hmessage].
  destruct (Hmessage Sample.ann Sample.day_shift
              (Sample.row 1 "emp-1" (Some Sample.nine_ten)
                 (Some (Sample.nine_ten + 30 * Sample.minute)) None None None None (Some 5))
              "CHECKED_IN" eq_refl eq_refl eq_refl eq_refl eq_refl eq_refl eq_refl eq_refl)
    as [-> ->].
  reflexivity.
Defined.

Lemma X10_lookup_finds_the_stored_row_witness :
  exists res st',
    recordAttendance Clock.utc Sample.rosters Sample.unconstrained "emp-1" Sample.nine_ten
      Sample.morning = (inr res, st')
    /\ getCurrentAttendanceState "emp-1" (Sample.nine_ten + Sample.minute) st'
       = first_checked_in
    /\ getNextAttendanceAction "emp-1" (Sample.nine_ten + Sample.minute) st'
       = first_check_out.
Proof.
  destruct (recordAttendance Clock.utc Sample.rosters Sample.unconstrained "emp-1" Sample.nine_ten
              Sample.morning) as [[x | res] st'] eqn:Hrun;
    [vm_compute in Hrun; discriminate |].
  exists res, st'. split; [reflexivity |].
  assert (Ha : action res = first_check_in).
  { vm_compute in Hrun. injection Hrun as <- _. reflexivity. }
  assert (Hnot : action res <> second_check_in) by (rewrite Ha; discriminate).
  destruct (X10_lookup_finds_the_stored_row Clock.utc Sample.rosters Sample.unconstrained "emp-1"
              Sample.nine_ten Sample.morning res st' Hrun Hnot (NoDup_nil nat))
    as [_ Hlater].
  destruct (Hlater (Sample.nine_ten + Sample.minute) eq_refl) as [_ Hfirst].
  exact (Hfirst Ha).
Defined.

Lemma X11_second_session_blocks_the_day_witness :
  exists res st',
    recordAttendance Clock.utc Sample.rosters Sample.unconstrained "emp-1"
      (Sample.nine_ten + 45 * Sample.minute) Sample.on_break = (inr res, st')
    /\ getCurrentAttendanceState "emp-1" (Sample.nine_ten + 50 * Sample.minute) st'
       = not_checked_in
    /\ getNextAttendanceAction "emp-1" (Sample.nine_ten + 50 * Sample.minute) st'
       = first_check_in.
Proof.
  destruct (recordAttendance Clock.utc Sample.rosters Sample.unconstrained "emp-1"
              (Sample.nine_ten + 45 * Sample.minute) Sample.on_break)
    as [[x | res] st'] eqn:Hrun; [vm_compute in Hrun; discriminate |].
  exists res, st'. split; [reflexivity |].
  assert (Ha : action res = second_check_in).
  { vm_compute in Hrun. injection Hrun as <- _. reflexivity. }
  destruct (X11_second_session_blocks_the_day Clock.utc Sample.rosters Sample.unconstrained "emp-1"
              (Sample.nine_ten + 45 * Sample.minute) Sample.on_break res st' Hrun Ha
              (Sample.nine_ten + 50 * Sample.minute) eq_refl)
    as (_ & Hstate & Hnext & _).
  split; assumption.
Defined.

(** ** The uniqueness guard, further *)

(** One pass of the loop raises the running time to the floor and adds
    the offset of the attempt. *)
Lemma probe_loop_step st employee_id baseTime type remaining attempt uniqueTime
    lastRecord lastError :
  Query.last_of_day employee_id (Clock.isoDate baseTime) st
  = Pg.Resolved lastRecord lastError ->
  probe_loop st employee_id baseTime type (S remaining) attempt uniqueTime
  = let candidate :=
      match guard_floor type lastRecord with
      | Some f => if baseTime <? f then f else uniqueTime
      | None => uniqueTime
      end + 1000 * attempt in
    match Query.same_stamp employee_id type candidate st with
    | Pg.Rejected e => (inl e, attempt)
    | Pg.Resolved _ (Some _) =>
        (inl (AttendanceError "Failed to generate unique timestamp"), attempt)
    | Pg.Resolved None None => (inr candidate, attempt)
    | Pg.Resolved (Some _) None =>
        probe_loop st employee_id baseTime type remaining (attempt + 1) candidate
    end.
Proof.
  intros Hlast. cbn [probe_loop]. rewrite Hlast. unfold guard_floor.
  destruct type, lastRecord as [last|]; try reflexivity.
  - destruct (Attendance.check_out_time last); reflexivity.
  - destruct (Attendance.check_in_time last); reflexivity.
Qed.

Lemma probe_loop_rejected st employee_id baseTime type remaining attempt uniqueTime x :
  Query.last_of_day employee_id (Clock.isoDate baseTime) st = Pg.Rejected x ->
  probe_loop st employee_id baseTime type (S remaining) attempt uniqueTime
  = (inl x, attempt).
Proof. intros Hlast. cbn [probe_loop]. rewrite Hlast. reflexivity. Qed.

Lemma probe_loop_bounds st employee_id baseTime type lastRecord lastError :
  Query.last_of_day employee_id (Clock.isoDate baseTime) st
  = Pg.Resolved lastRecord lastError ->
  forall remaining attempt uniqueTime t k,
    0 <= attempt ->
    baseTime <= uniqueTime
    <= first_candidate baseTime (guard_floor type lastRecord) + 500 * attempt * (attempt - 1) ->
    probe_loop st employee_id baseTime type remaining attempt uniqueTime = (inr t, k) ->
    first_candidate baseTime (guard_floor type lastRecord) <= t
    <= first_candidate baseTime (guard_floor type lastRecord) + 500 * k * (k + 1).
Proof.
  intros Hlast.
  induction remaining as [|remaining IH]; intros attempt u t k Ha Hu H.
  - simpl in H. discriminate.
  - rewrite (probe_loop_step _ _ _ _ _ _ _ _ _ Hlast) in H. cbv zeta in H.
    set (f0 := first_candidate baseTime (guard_floor type lastRecord)) in *.
    assert (Hc : f0 <= match guard_floor type lastRecord with
                       | Some f => if baseTime <? f then f else u
                       | None => u
                       end + 1000 * attempt
                 <= f0 + 500 * attempt * (attempt + 1)
                 /\ baseTime
                    <= match guard_floor type lastRecord with
                       | Some f => if baseTime <? f then f else u
                       | None => u
                       end + 1000 * attempt).
    { unfold f0, first_candidate in *. destruct (guard_floor type lastRecord) as [f|].
      - destruct (baseTime <? f) eqn:Hlt.
        + apply Z.ltb_lt in Hlt. rewrite Z.max_r in * by lia. nia.
        + apply Z.ltb_ge in Hlt. rewrite Z.max_l in * by lia. nia.
      - nia. }
    remember (match guard_floor type lastRecord with
              | Some f => if baseTime <? f then f else u
              | None => u
              end + 1000 * attempt) as candidate.
    destruct (Query.same_stamp employee_id type candidate st)
      as [[hit|] [err|] | x]; try discriminate.
    + apply IH in H; [exact H | lia |].
      split; [tauto |]. replace (attempt + 1 - 1) with attempt by lia.
      replace (500 * (attempt + 1) * attempt) with (500 * attempt * (attempt + 1)) by ring.
      tauto.
    + injection H as <- <-. tauto.
Qed.

(** X12. A timestamp the guard returns is never before the base time nor
    before the floor (15 minutes after the last check-out for a
    check-in, after the last check-in for a check-out), and at most 45
    seconds after the later of the two. *)
Theorem X12_guard_bounds (employee_id : string) (baseTime : Z) (type : EventKind)
    (st : Store) (t : Z) :
  generateUniqueTimestamp employee_id baseTime type st = inr t ->
  exists lastRecord lastError,
    Query.last_of_day employee_id (Clock.isoDate baseTime) st
    = Pg.Resolved lastRecord lastError
    /\ baseTime <= t
    /\ (forall f, guard_floor type lastRecord = Some f -> f <= t)
    /\ t <= first_candidate baseTime (guard_floor type lastRecord) + 45000.
Proof.
  unfold generateUniqueTimestamp.
  destruct (probe_loop st employee_id baseTime type 10 0 baseTime) as [out k] eqn:Hrun.
  simpl. intros ->.
  destruct (Query.last_of_day employee_id (Clock.isoDate baseTime) st)
    as [lastRecord lastError | x] eqn:Hlast.
  - exists lastRecord, lastError. split; [reflexivity |].
    pose proof (probe_loop_outcome _ _ _ _ _ _ _ _ _ Hrun) as Hk. simpl in Hk.
    destruct Hk as [Hk _].
    assert (Hb : first_candidate baseTime (guard_floor type lastRecord) <= t
                 <= first_candidate baseTime (guard_floor type lastRecord) + 500 * k * (k + 1)).
    { apply (probe_loop_bounds _ _ _ _ _ _ Hlast 10%nat 0 baseTime t k); [lia | | exact Hrun].
      unfold first_candidate. destruct (guard_floor type lastRecord); lia. }
    unfold first_candidate in *. destruct (guard_floor type lastRecord) as [f|].
    + split; [lia |]. split; [intros f' [= <-]; lia | nia].
    + split; [lia |]. split; [intros f' Hf; discriminate | nia].
  - change 10%nat with (S 9) in Hrun.
    rewrite (probe_loop_rejected _ _ _ _ _ _ _ _ Hlast) in Hrun. discriminate.
Qed.

(** X13. When no row of the employee carries the first candidate - the
    later of the base time and the floor - in the probed column, the
    guard returns that candidate at its first probe; with no floor that
    is the base time itself. *)
Theorem X13_guard_returns_free_candidate (employee_id : string) (baseTime : Z)
    (type : EventKind) (st : Store) (lastRecord : option Attendance.t)
    (lastError : option Pg.PgError) :
  Query.last_of_day employee_id (Clock.isoDate baseTime) st
  = Pg.Resolved lastRecord lastError ->
  Query.same_stamp employee_id type
    (first_candidate baseTime (guard_floor type lastRecord)) st
  = Pg.Resolved None None ->
  generateUniqueTimestamp employee_id baseTime type st
  = inr (first_candidate baseTime (guard_floor type lastRecord))
  /\ collisions employee_id baseTime type st = 0.
Proof.
  intros Hlast Hfree. unfold generateUniqueTimestamp, collisions.
  rewrite (probe_loop_step _ _ _ _ _ _ _ _ _ Hlast). cbv zeta.
  assert (Hc : match guard_floor type lastRecord with
               | Some f => if baseTime <? f then f else baseTime
               | None => baseTime
               end + 1000 * 0
               = first_candidate baseTime (guard_floor type lastRecord)).
  { unfold first_candidate. destruct (guard_floor type lastRecord) as [f|]; [| lia].
    destruct (baseTime <? f) eqn:Hlt.
    - apply Z.ltb_lt in Hlt. lia.
    - apply Z.ltb_ge in Hlt. lia. }
  rewrite Hc, Hfree. split; reflexivity.
Qed.

Lemma X12_guard_bounds_witness :
  exists lastRecord lastError,
    Query.last_of_day "emp-1" (Clock.isoDate (Sample.nine_ten + Sample.minute))
      Sample.checked_in = Pg.Resolved lastRecord lastError
    /\ Sample.nine_ten + Sample.minute <= Sample.nine_ten + 15 * Sample.minute
    /\ (forall f, guard_floor CheckIn lastRecord = Some f ->
                  f <= Sample.nine_ten + 15 * Sample.minute)
    /\ Sample.nine_ten + 15 * Sample.minute
       <= first_candidate (Sample.nine_ten + Sample.minute) (guard_floor CheckIn lastRecord)
          + 45000.
Proof.
  exact (X12_guard_bounds "emp-1" (Sample.nine_ten + Sample.minute) CheckIn
           Sample.checked_in (Sample.nine_ten + 15 * Sample.minute) eq_refl).
Defined.

Lemma X13_guard_returns_free_candidate_witness :
  generateUniqueTimestamp "emp-1" Sample.nine_ten CheckIn Sample.morning
  = inr Sample.nine_ten
  /\ collisions "emp-1" Sample.nine_ten CheckIn Sample.morning = 0.
Proof.
  exact (X13_guard_returns_free_candidate "emp-1" Sample.nine_ten CheckIn Sample.morning
           None None eq_refl eq_refl).
Defined.

(** ** Calculators, further *)

Lemma Qmax0_nonneg_arg (z : Z) : 0 <= z -> (Qmax0 (inject_Z z / 60) == inject_Z z / 60)%Q.
Proof.
  intros Hz. unfold Qmax0.
  destruct (Qle_bool 0 (inject_Z z / 60)) eqn:E; [reflexivity |].
  exfalso. apply not_true_iff_false in E. apply E. apply Qle_bool_iff.
  unfold Qle, Qdiv, Qmult, Qinv, inject_Z; simpl. lia.
Qed.

Lemma calculateEarlyDeparture_nonneg (tz : Clock.Zone) (cur : option Z) (rosterEnd : string)
    (threshold n : Z) :
  calculateEarlyDeparture tz cur rosterEnd threshold = Some n -> 0 <= n.
Proof.
  unfold calculateEarlyDeparture. destruct (JS.clock_fields rosterEnd) as [hours minutes].
  apply max0_nonneg.
Qed.

(** X14. For a roster end text whose two fields read as whole numbers of
    hours and minutes, a current time showing wall clock H:M plus s
    milliseconds, and a zone that keeps its offset between the scan and
    the end of the shift, [calculateEarlyDeparture] is max(0, (end - H:M)
    in minutes - threshold) when s is 0, and one minute less than that
    difference once the minute has begun: the remaining time is rounded
    down.  The result is never negative, whatever the time, the text and
    the threshold. *)
Theorem X14_early_departure_wall_clock (tz : Clock.Zone) (cur day H M s h m threshold : Z)
    (rosterEnd : string) :
  JS.clock_fields rosterEnd = (F64.int h, F64.int m) ->
  Clock.sane tz -> Clock.modest h -> Clock.modest m -> Clock.modest threshold ->
  Clock.recent cur -> Clock.shows tz cur day H M s -> Clock.steady tz cur day h m ->
  0 <= H * 60 + M < 1440 -> 0 <= s < 60000 ->
  calculateEarlyDeparture tz (Some cur) rosterEnd threshold
  = Some (Z.max 0 ((h * 60 + m) - (H * 60 + M) - (if s =? 0 then 0 else 1) - threshold))
  /\ forall time text bound n,
       calculateEarlyDeparture tz time text bound = Some n -> 0 <= n.
Proof.
  intros Hc Hz Hh Hm Ht Hcur Hshow Hsteady HM Hs.
  split; [| intros time text bound n; apply calculateEarlyDeparture_nonneg].
  rewrite (calculateEarlyDeparture_formula tz cur h m) by assumption.
  destruct (atLocal_steady tz cur day H M s h m Hshow Hsteady HM Hs) as [-> Hdiff].
  do 2 f_equal. f_equal. change (1000 * 60) with 60000.
  destruct (s =? 0) eqn:E.
  - apply Z.eqb_eq in E. symmetry. apply Z.div_unique with (r := 0); lia.
  - apply Z.eqb_neq in E. symmetry. apply Z.div_unique with (r := 60000 - s); lia.
Qed.

Lemma X14_early_departure_wall_clock_witness :
  calculateEarlyDeparture Clock.utc (Some (Clock.atLocal Clock.utc 20000 16 50 + 30000))
    "17:00" 5
  = Some 4.
Proof.
  assert (Hz : Clock.sane Clock.utc).
  { intros t. split; reflexivity. }
  destruct (X14_early_departure_wall_clock Clock.utc
              (Clock.atLocal Clock.utc 20000 16 50 + 30000) 20000 16 50 30000 17 0 5 "17:00"
              eq_refl Hz
              ltac:(unfold Clock.modest; simpl; lia) ltac:(unfold Clock.modest; simpl; lia)
              ltac:(unfold Clock.modest; simpl; lia)
              ltac:(unfold Clock.recent; vm_compute; discriminate)
              eq_refl eq_refl ltac:(lia) ltac:(lia)) as [H _].
  exact H.
Defined.

(** On the day New York enters summer time, 10 March 2024, the shift
    that ends at 03:30 is 60 minutes away at 01:30, not 120. *)
Example early_departure_across_an_offset_change :
  calculateEarlyDeparture Sample.new_york (Some 1710052200000) "03:30" 0 = Some 60
  /\ Clock.shows Sample.new_york 1710052200000 19792 1 30 0.
Proof. split; vm_compute; reflexivity. Qed.

(** The minutes of a shift, when every field is a modest whole number. *)
Lemma calculateExpectedHours_total (startTime endTime : string)
    (sh sm eh em breakDuration : Z) :
  JS.clock_fields startTime = (F64.int sh, F64.int sm) ->
  JS.clock_fields endTime = (F64.int eh, F64.int em) ->
  Clock.modest sh -> Clock.modest sm -> Clock.modest eh -> Clock.modest em ->
  Clock.modest breakDuration ->
  calculateExpectedHours startTime endTime breakDuration
  = F64.max (F64.int 0)
      (F64.round
         (inject_Z ((eh * 60 + em) - (sh * 60 + sm) - breakDuration) / inject_Z 60)).
Proof.
  unfold Clock.modest. intros Hs He Hsh Hsm Heh Hem Hb.
  unfold calculateExpectedHours. rewrite Hs, He.
  rewrite !mul_int by lia. rewrite !add_int by lia. rewrite of_Z_int by lia.
  rewrite !sub_int by lia. reflexivity.
Qed.

(** X15. For roster texts whose fields read as whole numbers,
    [calculateExpectedHours] is the double nearest to (end - start -
    break) minutes as hours when that is not negative, and 0 otherwise -
    so 0 for a shift whose end text is not after its start text, such as
    one that crosses midnight.  The result is finite, never negative and
    within 2^-16 of the exact quotient; a whole number of hours is
    returned as it is.  "09:00" to "17:00" with a break of 60 gives 7;
    "09:00" to "17:30" with a break of 20 gives the double nearest to
    49/6, which is not 49/6. *)
Theorem X15_expected_hours (startTime endTime : string) (sh sm eh em breakDuration : Z) :
  JS.clock_fields startTime = (F64.int sh, F64.int sm) ->
  JS.clock_fields endTime = (F64.int eh, F64.int em) ->
  Clock.modest sh -> Clock.modest sm -> Clock.modest eh -> Clock.modest em ->
  Clock.modest breakDuration ->
  let total := (eh * 60 + em) - (sh * 60 + sm) - breakDuration in
  (0 <= total ->
   calculateExpectedHours startTime endTime breakDuration
   = F64.round (inject_Z total / inject_Z 60))
  /\ (total <= 0 -> calculateExpectedHours startTime endTime breakDuration = F64.int 0)
  /\ (0 <= total -> total mod 60 = 0 ->
      calculateExpectedHours startTime endTime breakDuration = F64.int (total / 60))
  /\ (exists q,
         calculateExpectedHours startTime endTime breakDuration = F64.Fin q
         /\ (0 <= q)%Q
         /\ (0 <= total ->
             (q - inject_Z total * (1 # 60) <= 1 # 65536)%Q
             /\ (inject_Z total * (1 # 60) - q <= 1 # 65536)%Q))
  /\ calculateExpectedHours "09:00" "17:00" 60 = F64.int 7
  /\ (calculateExpectedHours "09:00" "17:30" 20
      = F64.Fin (4597424619607381 # 562949953421312)
      /\ ~ (4597424619607381 # 562949953421312 == 49 # 6)%Q).
Proof.
  intros Hs He Hsh Hsm Heh Hem Hb total.
  rewrite (calculateExpectedHours_total startTime endTime sh sm eh em breakDuration)
    by assumption.
  fold total.
  assert (Hbound : Z.abs total <= 2 ^ 38).
  { unfold total, Clock.modest in *. lia. }
  clearbody total.
  assert (Hq : (inject_Z total / inject_Z 60 == inject_Z total * (1 # 60))%Q).
  { unfold Qdiv. reflexivity. }
  assert (Hlo : (- inject_Z (2 ^ 38) <= inject_Z total)%Q).
  { rewrite <- inject_Z_opp, <- Zle_Qle. lia. }
  assert (Hhi : (inject_Z total <= inject_Z (2 ^ 38))%Q).
  { rewrite <- Zle_Qle. lia. }
  assert (H38 : (1 <= inject_Z (2 ^ 38))%Q) by (vm_compute; discriminate).
  destruct (round_near (inject_Z total / inject_Z 60)) as (r & Hr & H1 & H2);
    [rewrite Hq; lra | rewrite Hq; lra |].
  rewrite Hq in H1, H2.
  assert (Hpos : 0 <= total ->
                 F64.max (F64.int 0) (F64.Fin r) = F64.Fin r /\ (0 <= r)%Q).
  { intros Ht. pose proof (round_sign (inject_Z total / inject_Z 60)) as Hsign.
    rewrite Hr in Hsign. destruct Hsign as [Hnn _].
    assert (H0 : (0 <= r)%Q).
    { apply Hnn. rewrite Hq. rewrite Zle_Qle in Ht. change (inject_Z 0) with 0%Q in Ht. lra. }
    split; [| exact H0]. unfold F64.int. cbn [F64.max].
    apply Qle_bool_iff in H0. change (inject_Z 0) with 0%Q. now rewrite H0. }
  assert (Hneg : total <= 0 -> F64.max (F64.int 0) (F64.Fin r) = F64.int 0).
  { intros Ht. destruct (Z.eq_dec total 0) as [-> | Hne].
    - vm_compute in Hr. injection Hr as <-. reflexivity.
    - assert (Hlt : (inject_Z total <= -1)%Q).
      { change (-1)%Q with (inject_Z (-1)). rewrite <- Zle_Qle. lia. }
      unfold F64.int. cbn [F64.max].
      assert (E : Qle_bool (inject_Z 0) r = false).
      { apply not_true_iff_false. intros E. apply Qle_bool_iff in E.
        change (inject_Z 0) with 0%Q in E. lra. }
      now rewrite E. }
  rewrite Hr.
  split; [| split; [| split; [| split; [| split]]]].
  - intros Ht. now destruct (Hpos Ht).
  - exact Hneg.
  - intros Ht Hmod. rewrite <- Hr.
    rewrite (round_Qeq _ (inject_Z (total / 60))).
    + rewrite round_whole.
      * unfold F64.int. cbn [F64.max].
        assert (E : Qle_bool (inject_Z 0) (inject_Z (total / 60)) = true).
        { apply Qle_bool_iff. rewrite <- Zle_Qle. apply Z.div_pos; lia. }
        now rewrite E.
      * pose proof (Z.div_mod total 60 ltac:(lia)) as Hdm. lia.
    + pose proof (Z.div_mod total 60 ltac:(lia)) as Hdm. rewrite Hmod, Z.add_0_r in Hdm.
      rewrite Hdm at 1. rewrite inject_Z_mult. change (inject_Z 60) with 60%Q. field.
  - destruct (Z.le_gt_cases 0 total) as [Ht | Ht].
    + destruct (Hpos Ht) as [-> H0]. exists r. split; [reflexivity |].
      split; [exact H0 |]. intros _. split; assumption.
    + rewrite Hneg by lia. exists (inject_Z 0). split; [reflexivity |].
      split; [apply Qle_refl |]. intros Hge. lia.
  - vm_compute. reflexivity.
  - split; [vm_compute; reflexivity |]. intros E. vm_compute in E. discriminate.
Qed.

Lemma X15_expected_hours_witness :
  calculateExpectedHours "22:00" "06:00" 30 = F64.int 0.
Proof.
  destruct (X15_expected_hours "22:00" "06:00" 22 0 6 0 30 eq_refl eq_refl
              ltac:(unfold Clock.modest; simpl; lia) ltac:(unfold Clock.modest; simpl; lia)
              ltac:(unfold Clock.modest; simpl; lia) ltac:(unfold Clock.modest; simpl; lia)
              ltac:(unfold Clock.modest; simpl; lia))
    as (_ & Hzero & _).
  apply Hzero. lia.
Defined.

(** X16. For a roster start text whose two fields read as whole numbers
    of hours and minutes, the lateness is positive exactly when the
    current time is at least (gracePeriod + 1) whole minutes after the
    start of the shift on the same local day - the instant that wall
    clock hours:minutes of that day is read back as; and within one
    local day a later scan is never less late than an earlier one. *)
Theorem X16_late_iff_past_grace (tz : Clock.Zone) (start : string) (h m grace : Z) :
  JS.clock_fields start = (F64.int h, F64.int m) ->
  Clock.sane tz -> Clock.modest h -> Clock.modest m -> Clock.modest grace ->
  (forall cur n,
      Clock.recent cur ->
      calculateLateness tz (Some cur) start grace = Some n ->
      (0 < n <-> Clock.atLocal tz (Clock.localDay tz cur) h m + (grace + 1) * 60000 <= cur))
  /\ (forall cur1 cur2 n1 n2,
         Clock.recent cur1 -> Clock.recent cur2 ->
         Clock.localDay tz cur1 = Clock.localDay tz cur2 ->
         cur1 <= cur2 ->
         calculateLateness tz (Some cur1) start grace = Some n1 ->
         calculateLateness tz (Some cur2) start grace = Some n2 ->
         n1 <= n2).
Proof.
  intros Hc Hz Hh Hm Hg. split.
  - intros cur n Hcur. rewrite (calculateLateness_formula _ _ h m) by assumption.
    intros [= <-].
    set (S := Clock.atLocal tz (Clock.localDay tz cur) h m).
    change (1000 * 60) with 60000.
    pose proof (Z.div_mod (cur - S) 60000 ltac:(lia)) as Hdm.
    pose proof (Z.mod_pos_bound (cur - S) 60000 ltac:(lia)) as Hmod.
    split; intros H; lia.
  - intros cur1 cur2 n1 n2 Hcur1 Hcur2 Hday Hle.
    rewrite !(calculateLateness_formula _ _ h m) by assumption. rewrite Hday.
    intros [= <-] [= <-].
    apply Z.max_le_compat_l. apply Z.sub_le_mono_r.
    apply Z.div_le_mono; lia.
Qed.

Lemma X16_late_iff_past_grace_witness :
  0 < 5
  <-> Clock.atLocal Clock.utc (Clock.localDay Clock.utc Sample.nine_ten) 9 0
      + (5 + 1) * 60000
      <= Sample.nine_ten.
Proof.
  assert (Hz : Clock.sane Clock.utc).
  { intros t. split; reflexivity. }
  destruct (X16_late_iff_past_grace Clock.utc "09:00" 9 0 5 eq_refl Hz
              ltac:(unfold Clock.modest; simpl; lia) ltac:(unfold Clock.modest; simpl; lia)
              ltac:(unfold Clock.modest; simpl; lia)) as [Hiff _].
  apply (Hiff Sample.nine_ten 5); [| reflexivity].
  unfold Clock.recent. vm_compute. discriminate.
Defined.

(** In Amsterdam on 31 March 2024, when 02:00 to 03:00 is skipped, a
    scan at 03:20 is not late for a 01:30 start with an hour of grace:
    50 minutes have passed, though the two wall clocks are 110 apart. *)
Example not_late_across_an_offset_change :
  calculateLateness Sample.amsterdam (Some 1711848000000) "01:30" 60 = Some 0
  /\ ~ (Clock.atLocal Sample.amsterdam (Clock.localDay Sample.amsterdam 1711848000000) 1 30
        + (60 + 1) * 60000 <= 1711848000000).
Proof. split; [vm_compute; reflexivity | vm_compute; intros H; now apply H]. Qed.

(** ** The summary and the scanner's reads, further *)

(** The counters stay ordered while [forEach] runs; [n] counts the rows
    seen. *)
Lemma tally_keeps_order (rows : list Attendance.t) :
  forall (c : StatusCounts) (n : Z),
    (0 <= lateButPresent c <= currentlyPresent c
     /\ 0 <= checkedOut c /\ 0 <= onTimeArrivals c
     /\ lateButPresent c + onTimeArrivals c <= currentlyPresent c + checkedOut c
     /\ currentlyPresent c + checkedOut c <= n) ->
    let c' := fold_left tally rows c in
    0 <= lateButPresent c' <= currentlyPresent c'
    /\ 0 <= checkedOut c' /\ 0 <= onTimeArrivals c'
    /\ lateButPresent c' + onTimeArrivals c' <= currentlyPresent c' + checkedOut c'
    /\ currentlyPresent c' + checkedOut c' <= n + Z.of_nat (List.length rows).
Proof.
  induction rows as [|r rows IH]; intros c n Hc.
  - cbn [fold_left List.length]. cbv zeta. lia.
  - cbn [fold_left]. cbv zeta.
    replace (n + Z.of_nat (List.length (r :: rows)))
      with ((n + 1) + Z.of_nat (List.length rows))
      by (cbn [List.length]; lia).
    apply IH. unfold tally.
    destruct (JS.truthy (Attendance.first_check_in_time r)),
      (JS.truthy (Attendance.first_check_out_time r)),
      (JS.truthy (Attendance.second_check_in_time r)),
      (JS.truthy (Attendance.second_check_out_time r)),
      (positive_minutes (Attendance.minutes_late r)),
      (zero_minutes (Attendance.minutes_late r));
      cbn [andb orb negb currentlyPresent lateButPresent checkedOut onTimeArrivals absent];
      lia.
Qed.

(** X17. Whatever the store holds, the counts of the summary are
    ordered: the late ones are among the present, late plus on-time
    arrivals never exceed the present count (present or checked out),
    which never exceeds the number of the day's rows; absent is never
    negative and makes up the difference to the number of active
    employees whenever the present count does not exceed it.  When the
    store fails, every count is 0. *)
Theorem X17_summary_counts_are_ordered (now : Z) (st : Store) :
  let s := getTodayAttendanceSummary now st in
  let c := presenceBreakdown s in
  presentCount s = currentlyPresent c + checkedOut c
  /\ 0 <= lateButPresent c <= currentlyPresent c
  /\ lateButPresent c + onTimeArrivals c <= presentCount s
  /\ presentCount s
     <= Z.of_nat (List.length
                    (filter (fun r => Attendance.date r =? Clock.isoDate now) (attendance st)))
  /\ 0 <= absent c
  /\ totalEmployees s <= presentCount s + absent c
  /\ (presentCount s <= totalEmployees s -> presentCount s + absent c = totalEmployees s)
  /\ (forall failure, outage st = Some failure -> s = empty_summary).
Proof.
  cbv zeta.
  destruct (outage st) as [failure|] eqn:Hout.
  - assert (Hs : getTodayAttendanceSummary now st = empty_summary).
    { unfold getTodayAttendanceSummary, Query.active_employees, Query.answer.
      rewrite Hout. destruct failure; reflexivity. }
    rewrite Hs. cbn. repeat split; lia.
  - rewrite (summary_of_healthy_store now st Hout).
    set (rows := filter (fun r => Attendance.date r =? Clock.isoDate now) (attendance st)).
    set (total := Z.of_nat (List.length
                   (filter (fun e => String.eqb (Employee.status e) "active") (employees st)))).
    pose proof (tally_keeps_order rows no_counts 0 ltac:(cbn; lia)) as Hord.
    cbv zeta in Hord. unfold summarize.
    cbn [presenceBreakdown presentCount totalEmployees currentlyPresent lateButPresent
         checkedOut onTimeArrivals absent].
    repeat split; try lia. intros failure Hf. discriminate.
Qed.

(** X18. A second check-in is counted on top of the first session: after
    a successful [second_check_in] the summary of that day shows one
    more employee currently present and as many checked out as before,
    the day's earlier record of the same employee being among the
    checked out. *)
Theorem X18_second_session_is_counted_twice
    (tz : Clock.Zone) (getEmployeeRoster : string -> Store -> Exn + option Roster.t)
    (violates : list Attendance.t -> Attendance.t -> option Pg.PgError)
    employeeId now st res st' :
  recordAttendance tz getEmployeeRoster violates employeeId now st = (inr res, st') ->
  action res = second_check_in ->
  forall later,
    Clock.isoDate later = Clock.isoDate now ->
    let before := getTodayAttendanceSummary later st in
    let after := getTodayAttendanceSummary later st' in
    currentlyPresent (presenceBreakdown after)
    = currentlyPresent (presenceBreakdown before) + 1
    /\ checkedOut (presenceBreakdown after) = checkedOut (presenceBreakdown before)
    /\ presentCount after = presentCount before + 1
    /\ totalEmployees after = totalEmployees before
    /\ exists prior,
         Query.attendance_of_day employeeId (Clock.isoDate now) st
         = Pg.Resolved (Some prior) None
         /\ first_open prior = false /\ second_open prior = false
         /\ completed_marker prior = true.
Proof.
  intros H Ha later Hsame.
  pose proof (recordAttendance_success_fields _ _ _ _ _ _ _ _ H) as Hfields.
  destruct Hfields as (employee & roster0 & existing0 & status0 & _ & _ & _ & _ & Hrec0
                       & _ & _ & Hp).
  apply written_columns in Hp. destruct Hp as (_ & Hd & _).
  pose proof (attendance_of_day_healthy _ _ _ _ Hrec0) as Hout.
  apply recordAttendance_written in H.
  destruct H as (roster & existing & status & ml & ed & eh & Hrec & Hstep & Hshape).
  rewrite Ha in Hshape, Hstep. destruct Hshape as (prior & -> & Hrow & _ & ->).
  assert (Hdate : (Attendance.date (stored res) =? Clock.isoDate later) = true).
  { rewrite Hd, Hsame. unfold payload. rewrite Ha. simpl. apply Z.eqb_refl. }
  assert (Hopen : first_open (stored res) = true) by (rewrite Hrow; reflexivity).
  cbv zeta.
  rewrite (summary_of_healthy_store later st Hout).
  rewrite (summary_of_healthy_store later (add_row st (stored res)) Hout).
  cbn [add_row attendance employees]. rewrite filter_app. cbn [filter]. rewrite Hdate.
  unfold summarize. rewrite fold_left_app. cbn [fold_left].
  set (c := fold_left tally
              (filter (fun r => Attendance.date r =? Clock.isoDate later) (attendance st))
              no_counts).
  assert (Ht : currentlyPresent (tally c (stored res)) = currentlyPresent c + 1
               /\ checkedOut (tally c (stored res)) = checkedOut c).
  { unfold tally. unfold first_open in Hopen. rewrite Hopen. split; reflexivity. }
  destruct Ht as [Ht1 Ht2].
  cbn [presenceBreakdown presentCount totalEmployees currentlyPresent checkedOut].
  rewrite Ht1, Ht2.
  split; [reflexivity |]. split; [reflexivity |]. split; [lia |]. split; [reflexivity |].
  exists prior. split; [exact Hrec |].
  destruct (nextStep_some _ _ _ Hstep) as [[Hx _] | [[_ [Hco Hci]] | [Hx _]]];
    try discriminate.
  unfold first_open, second_open, completed_marker. rewrite Hco, Hci.
  destruct (JS.truthy (Attendance.first_check_in_time prior)),
    (JS.truthy (Attendance.second_check_out_time prior)); repeat split; reflexivity.
Qed.

Lemma X17_summary_counts_are_ordered_witness :
  getTodayAttendanceSummary Sample.nine_ten Sample.unavailable = empty_summary
  /\ presentCount (getTodayAttendanceSummary Sample.nine_ten Sample.ten_staff) + 5 = 10.
Proof.
  split.
  - destruct (X17_summary_counts_are_ordered Sample.nine_ten Sample.unavailable)
      as (_ & _ & _ & _ & _ & _ & _ & Hfail).
    exact (Hfail _ eq_refl).
  - destruct (X17_summary_counts_are_ordered Sample.nine_ten Sample.ten_staff)
      as (_ & _ & _ & _ & _ & _ & Hsum & _).
    apply Hsum. vm_compute. discriminate.
Defined.

Lemma X18_second_session_is_counted_twice_witness :
  exists res st',
    recordAttendance Clock.utc Sample.rosters Sample.unconstrained "emp-1"
      (Sample.nine_ten + 45 * Sample.minute) Sample.on_break = (inr res, st')
    /\ presentCount (getTodayAttendanceSummary (Sample.nine_ten + 50 * Sample.minute) st')
       = presentCount
           (getTodayAttendanceSummary (Sample.nine_ten + 50 * Sample.minute) Sample.on_break)
         + 1.
Proof.
  destruct (recordAttendance Clock.utc Sample.rosters Sample.unconstrained "emp-1"
              (Sample.nine_ten + 45 * Sample.minute) Sample.on_break)
    as [[x | res] st'] eqn:Hrun; [vm_compute in Hrun; discriminate |].
  exists res, st'. split; [reflexivity |].
  assert (Ha : action res = second_check_in).
  { vm_compute in Hrun. injection Hrun as <- _. reflexivity. }
  destruct (X18_second_session_is_counted_twice Clock.utc Sample.rosters Sample.unconstrained
              "emp-1" (Sample.nine_ten + 45 * Sample.minute) Sample.on_break res st' Hrun Ha
              (Sample.nine_ten + 50 * Sample.minute) eq_refl)
    as (_ & _ & Hcount & _).
  exact Hcount.
Defined.

(** X19. The state and the next action the scanner reads agree on every
    row whose set columns form a run from the first check-in on: the
    next action is the one that follows the state.  On any row, a next
    action [completed] comes with the state [second_checked_out], and
    the state [not_checked_in] with the next action [first_check_in];
    and when the lookup errs or rejects, the state reads
    [not_checked_in]. *)
Theorem X19_state_and_next_action (employeeId : string) (now : Z) (st : Store) :
  (getNextAttendanceAction employeeId now st = completed ->
   getCurrentAttendanceState employeeId now st = second_checked_out)
  /\ (getCurrentAttendanceState employeeId now st = not_checked_in ->
      getNextAttendanceAction employeeId now st = first_check_in)
  /\ (forall record,
         Query.attendance_of_day employeeId (Clock.isoDate now) st
         = Pg.Resolved (Some record) None ->
         ladder_shaped record = true ->
         getNextAttendanceAction employeeId now st
         = action_after (getCurrentAttendanceState employeeId now st))
  /\ (forall data error,
         Query.attendance_of_day employeeId (Clock.isoDate now) st
         = Pg.Resolved data (Some error) ->
         getCurrentAttendanceState employeeId now st = not_checked_in)
  /\ (forall x,
         Query.attendance_of_day employeeId (Clock.isoDate now) st = Pg.Rejected x ->
         getCurrentAttendanceState employeeId now st = not_checked_in).
Proof.
  unfold getNextAttendanceAction, getCurrentAttendanceState.
  destruct (Query.attendance_of_day employeeId (Clock.isoDate now) st)
    as [[record|] [error|] | x].
  - repeat split; try discriminate; try reflexivity; intros; discriminate.
  - split; [| split; [| split; [| split]]]; try (intros; discriminate).
    + destruct (Attendance.first_check_in_time record),
        (Attendance.first_check_out_time record),
        (Attendance.second_check_in_time record),
        (Attendance.second_check_out_time record); simpl; intros H;
        try discriminate; reflexivity.
    + destruct (Attendance.first_check_in_time record),
        (Attendance.first_check_out_time record),
        (Attendance.second_check_in_time record),
        (Attendance.second_check_out_time record); simpl; intros H;
        try discriminate; reflexivity.
    + intros r [= <-]. unfold ladder_shaped.
      destruct (Attendance.first_check_in_time record),
        (Attendance.first_check_out_time record),
        (Attendance.second_check_in_time record),
        (Attendance.second_check_out_time record); simpl; intros H;
        try discriminate; reflexivity.
  - repeat split; try discriminate; try reflexivity; intros; discriminate.
  - repeat split; try discriminate; try reflexivity; intros; discriminate.
  - repeat split; try discriminate; try reflexivity; intros; discriminate.
Qed.

Lemma X19_state_and_next_action_witness :
  getNextAttendanceAction "emp-1" Sample.nine_ten Sample.on_break
  = action_after (getCurrentAttendanceState "emp-1" Sample.nine_ten Sample.on_break).
Proof.
  destruct (X19_state_and_next_action "emp-1" Sample.nine_ten Sample.on_break)
    as (_ & _ & Hagree & _).
  apply (Hagree (Sample.row 1 "emp-1" (Some Sample.nine_ten)
                   (Some (Sample.nine_ten + 30 * Sample.minute)) None None None None
                   (Some 5))); reflexivity.
Defined.

(** Off the ladder the two reads part: a row with nothing but a second
    check-in shows [second_checked_in] and asks for [first_check_in]. *)
Example state_and_next_action_part :
  getCurrentAttendanceState "emp-1" Sample.nine_ten Fixture.second_only = second_checked_in
  /\ getNextAttendanceAction "emp-1" Sample.nine_ten Fixture.second_only = first_check_in.
Proof. split; reflexivity. Qed.

(** ** Deleting a record *)

Lemma filter_everything {A : Type} (test : A -> bool) (l : list A) :
  (forall x, In x l -> test x = true) -> filter test l = l.
Proof.
  induction l as [|a l IH]; intros H; [reflexivity |].
  simpl. rewrite (H a (or_introl eq_refl)). f_equal. apply IH.
  intros x Hx. apply H. now right.
Qed.

Section DeletingFacts.

Variable forbids : list Attendance.t -> nat -> option Pg.PgError.

(** X20. [deleteAttendance] succeeds only when exactly one row carries
    the key; it then removes that row, leaves every other row in place
    and appends one entry, with the employee of the removed row, to the
    logger's buffer.  When it fails, table and buffer are as before.
    The answer 'Attendance record not found' is never its own (only an
    exception of the store could carry those words): on a store that
    answers, a key that no row carries is reported as 'Failed to fetch
    attendance record'. *)
Theorem X20_delete_removes_one_row (attendanceId : nat) (now : Z) (st : Store)
    (logBuffer : list LogEntry) :
  let '(result, st', logBuffer') := deleteAttendance forbids attendanceId now st logBuffer in
  (success result = true ->
   exists record,
     filter (has_id attendanceId) (attendance st) = [record]
     /\ attendance st' = filter (fun r => negb (has_id attendanceId r)) (attendance st)
     /\ (forall r, In r (attendance st) -> Attendance.id r <> attendanceId ->
                   In r (attendance st'))
     /\ (forall r, In r (attendance st') -> Attendance.id r <> attendanceId)
     /\ logBuffer' = (logBuffer
                      ++ [mkLogEntry now "error" (Attendance.employee_id record) "delete"
                            attendanceId now])%list
     /\ message result = "Attendance record deleted successfully")
  /\ (success result = false -> st' = st /\ logBuffer' = logBuffer)
  /\ (message result = "Attendance record not found" ->
      outage st = Some (Pg.Crashes "Attendance record not found"))
  /\ (outage st = None ->
      filter (has_id attendanceId) (attendance st) = [] ->
      success result = false /\ message result = "Failed to fetch attendance record").
Proof.
  unfold deleteAttendance, attendance_by_id, Query.answer, delete_by_id.
  destruct (outage st) as [[e|m]|] eqn:Hout.
  - cbn. split; [discriminate |]. split; [intros _; split; reflexivity |].
    split; discriminate.
  - cbn. split; [discriminate |]. split; [intros _; split; reflexivity |].
    split; [intros ->; reflexivity | discriminate].
  - destruct (filter (has_id attendanceId) (attendance st)) as [|record [|other l]] eqn:Hf.
    + cbn. split; [discriminate |]. split; [intros _; split; reflexivity |].
      split; [discriminate | intros _ _; split; reflexivity].
    + cbn [Pg.single].
      destruct (forbids (attendance st) attendanceId) as [e|].
      * cbn. split; [discriminate |]. split; [intros _; split; reflexivity |].
        split; discriminate.
      * cbn. split.
        -- intros _. exists record. split; [reflexivity |]. split; [reflexivity |].
           split; [| split; [| split; reflexivity]].
           ++ intros r Hin Hne. apply filter_In. split; [exact Hin |].
              unfold has_id. apply negb_true_iff. now apply Nat.eqb_neq.
           ++ intros r Hin. apply filter_In in Hin. destruct Hin as [_ Hneg].
              apply negb_true_iff in Hneg. unfold has_id in Hneg. now apply Nat.eqb_neq.
        -- split; [discriminate |]. split; discriminate.
    + cbn. split; [discriminate |]. split; [intros _; split; reflexivity |].
      split; discriminate.
Qed.

End DeletingFacts.

Section DeleteAfterScan.

Variable tz : Clock.Zone.
Variable getEmployeeRoster : string -> Store -> Exn + option Roster.t.
Variable violates : list Attendance.t -> Attendance.t -> option Pg.PgError.
Variable forbids : list Attendance.t -> nat -> option Pg.PgError.

(** A call that creates a row appends it under a key no row had. *)
Lemma scan_appends_fresh_row employeeId now st res st' :
  recordAttendance tz getEmployeeRoster violates employeeId now st = (inr res, st') ->
  action res = first_check_in \/ action res = second_check_in ->
  st' = add_row st (stored res)
  /\ existsb (has_id (Attendance.id (stored res))) (attendance st) = false
  /\ outage st = None
  /\ Attendance.employee_id (stored res) = employeeId.
Proof.
  intros H Ha.
  pose proof (recordAttendance_success_fields _ _ _ _ _ _ _ _ H) as Hfields.
  destruct Hfields as (employee & roster & existing & status & _ & _ & _ & _ & Hrec
                       & Hstep & _ & Hp).
  pose proof (written_columns _ _ _ _ _ _ _ _ _ _ Hp) as (He & _).
  apply persist_success in Hp. destruct Hp as [_ Hw].
  assert (Hemp : AttendanceData.employee_id
                   (payload tz employeeId roster now existing (action res) status)
                 = employeeId).
  { unfold payload. destruct (is_action (action res) second_check_in); reflexivity. }
  rewrite Hemp in He.
  split; [| split; [| split; [exact (attendance_of_day_healthy _ _ _ _ Hrec) | exact He]]].
  - destruct Ha as [Ha | Ha]; rewrite Ha in *; cbn [is_action] in Hw.
    + apply nextStep_first_check_in in Hstep. subst existing.
      apply upsert_cases in Hw.
      destruct Hw as [(row & Hr & Hst & _) | [(key & old & row & Hk & _) | [_ Hn]]].
      * unfold wrote in Hr. injection Hr as <-. exact Hst.
      * discriminate.
      * elim (Hn _ eq_refl).
    + apply insert_cases in Hw.
      destruct Hw as [(row & Hr & Hst & _) | [_ Hn]]; [| elim (Hn _ eq_refl)].
      unfold wrote in Hr. injection Hr as <-. exact Hst.
  - destruct Ha as [Ha | Ha]; rewrite Ha in *; cbn [is_action] in Hw.
    + apply nextStep_first_check_in in Hstep. subst existing.
      apply upsert_cases in Hw.
      destruct Hw as [(row & Hr & _ & _ & Hfresh) | [(key & old & row & Hk & _) | [_ Hn]]].
      * unfold wrote in Hr. injection Hr as <-. exact Hfresh.
      * discriminate.
      * elim (Hn _ eq_refl).
    + apply insert_cases in Hw.
      destruct Hw as [(row & Hr & _ & _ & Hfresh) | [_ Hn]]; [| elim (Hn _ eq_refl)].
      unfold wrote in Hr. injection Hr as <-. exact Hfresh.
Qed.

(** X21. Insert, then delete.  After a successful call that created a
    row - a [first_check_in] or a [second_check_in] - deleting the
    stored row by its id, on a store that lets rows be deleted, succeeds
    and gives back the table as it was before the scan, so that every
    lookup of a day answers as before; the logger's buffer gains one
    entry for the employee. *)
Theorem X21_delete_undoes_the_insert employeeId now st res st' later logBuffer :
  recordAttendance tz getEmployeeRoster violates employeeId now st = (inr res, st') ->
  action res = first_check_in \/ action res = second_check_in ->
  (forall table key, forbids table key = None) ->
  exists st'',
    deleteAttendance forbids (Attendance.id (stored res)) later st' logBuffer
    = (mkDeleteResult true "Attendance record deleted successfully", st'',
       (logBuffer
        ++ [mkLogEntry later "error" employeeId "delete" (Attendance.id (stored res))
              later])%list)
    /\ attendance st'' = attendance st
    /\ forall someone day,
         Query.attendance_of_day someone day st'' = Query.attendance_of_day someone day st.
Proof.
  intros H Ha Hfree.
  destruct (scan_appends_fresh_row _ _ _ _ _ H Ha) as (-> & Hfresh & Hout & He).
  assert (Hold : forall r, In r (attendance st) ->
                           has_id (Attendance.id (stored res)) r = false).
  { intros r Hin. destruct (has_id (Attendance.id (stored res)) r) eqn:E; [| reflexivity].
    rewrite <- not_true_iff_false in Hfresh. exfalso. apply Hfresh.
    apply existsb_exists. now exists r. }
  assert (Hself : has_id (Attendance.id (stored res)) (stored res) = true)
    by (unfold has_id; apply Nat.eqb_refl).
  unfold deleteAttendance, attendance_by_id, Query.answer, delete_by_id.
  cbn [add_row outage attendance employees next_id]. rewrite Hout, Hfree.
  rewrite !filter_app. cbn [filter]. rewrite Hself. cbn [negb].
  rewrite (filter_nothing _ _ Hold).
  rewrite (filter_everything (fun r => negb (has_id (Attendance.id (stored res)) r))
             (attendance st))
    by (intros r Hin; now rewrite (Hold r Hin)).
  cbn [app Pg.single]. rewrite He, app_nil_r.
  eexists. split; [reflexivity |]. split; [reflexivity |].
  intros someone day. unfold Query.attendance_of_day, Query.answer. cbn [outage attendance].
  rewrite Hout. reflexivity.
Qed.

End DeleteAfterScan.

Lemma X20_delete_removes_one_row_witness :
  exists st',
    deleteAttendance Fixture.deletable 1 (Sample.nine_ten + Sample.minute) Sample.checked_in []
    = (mkDeleteResult true "Attendance record deleted successfully", st',
       [mkLogEntry (Sample.nine_ten + Sample.minute) "error" "emp-1" "delete" 1
          (Sample.nine_ten + Sample.minute)])
    /\ attendance st' = []
    /\ deleteAttendance Fixture.deletable 1 (Sample.nine_ten + 2 * Sample.minute) st' []
       = (mkDeleteResult false "Failed to fetch attendance record", st', []).
Proof.
  pose proof (X20_delete_removes_one_row Fixture.deletable 1 (Sample.nine_ten + Sample.minute)
                Sample.checked_in []) as H.
  destruct (deleteAttendance Fixture.deletable 1 (Sample.nine_ten + Sample.minute)
              Sample.checked_in []) as [[result st'] logBuffer'] eqn:Hrun.
  destruct H as (Hok & _).
  assert (Hs : success result = true).
  { vm_compute in Hrun. injection Hrun as <- _ _. reflexivity. }
  destruct (Hok Hs) as (record & Hone & Htable & _ & _ & Hlog & Hmsg).
  vm_compute in Hone. injection Hone as <-.
  exists st'. split.
  - destruct result as [s m]. simpl in Hs, Hmsg. subst s m. rewrite Hlog. reflexivity.
  - split; [rewrite Htable; reflexivity |].
    vm_compute in Hrun. injection Hrun as _ <- _. reflexivity.
Defined.

Lemma X21_delete_undoes_the_insert_witness :
  exists res st',
    recordAttendance Clock.utc Sample.rosters Sample.unconstrained "emp-1"
      (Sample.nine_ten + 45 * Sample.minute) Sample.on_break = (inr res, st')
    /\ exists st'',
         fst (fst (deleteAttendance Fixture.deletable (Attendance.id (stored res))
                     (Sample.nine_ten + 50 * Sample.minute) st' []))
         = mkDeleteResult true "Attendance record deleted successfully"
         /\ snd (fst (deleteAttendance Fixture.deletable (Attendance.id (stored res))
                        (Sample.nine_ten + 50 * Sample.minute) st' [])) = st''
         /\ attendance st'' = attendance Sample.on_break.
Proof.
  destruct (recordAttendance Clock.utc Sample.rosters Sample.unconstrained "emp-1"
              (Sample.nine_ten + 45 * Sample.minute) Sample.on_break)
    as [[x | res] st'] eqn:Hrun; [vm_compute in Hrun; discriminate |].
  exists res, st'. split; [reflexivity |].
  assert (Ha : action res = first_check_in \/ action res = second_check_in).
  { right. vm_compute in Hrun. injection Hrun as <- _. reflexivity. }
  destruct (X21_delete_undoes_the_insert Clock.utc Sample.rosters Sample.unconstrained
              Fixture.deletable "emp-1" (Sample.nine_ten + 45 * Sample.minute)
              Sample.on_break res st' (Sample.nine_ten + 50 * Sample.minute) []
              Hrun Ha (fun _ _ => eq_refl))
    as (st'' & Hdel & Htable & _).
  exists st''. rewrite Hdel. repeat split. exact Htable.
Defined.

(** ** The recorder's frame and its validation *)

Lemma same_key_same_row (table : list Attendance.t) (a b : Attendance.t) :
  NoDup (map Attendance.id table) ->
  In a table -> In b table -> Attendance.id a = Attendance.id b -> a = b.
Proof.
  induction table as [|x t IH]; intros Hnodup Ha Hb Heq; [destruct Ha |].
  simpl in Hnodup. inversion Hnodup as [|? ? Hnotin Hnodup']; subst.
  destruct Ha as [-> | Ha], Hb as [-> | Hb].
  - reflexivity.
  - exfalso. apply Hnotin. rewrite Heq. now apply in_map.
  - exfalso. apply Hnotin. rewrite <- Heq. now apply in_map.
  - now apply IH.
Qed.

Section RecorderFrame.

Variable tz : Clock.Zone.
Variable getEmployeeRoster : string -> Store -> Exn + option Roster.t.
Variable violates : list Attendance.t -> Attendance.t -> option Pg.PgError.

Lemma keys_after_append (st : Store) (row : Attendance.t) :
  distinct_keys st ->
  existsb (has_id (Attendance.id row)) (attendance st) = false ->
  distinct_keys (add_row st row).
Proof.
  unfold distinct_keys. intros Hkeys Hfresh. cbn. rewrite map_app. cbn.
  apply (NoDup_Add (a := Attendance.id row) (l := map Attendance.id (attendance st))).
  - rewrite <- (app_nil_r (map Attendance.id (attendance st))) at 1. apply Add_app.
  - split; [exact Hkeys |]. intros Hin. apply in_map_iff in Hin.
    destruct Hin as (r & Hid & Hr).
    rewrite <- not_true_iff_false in Hfresh. apply Hfresh.
    apply existsb_exists. exists r. split; [exact Hr |].
    unfold has_id. now apply Nat.eqb_eq.
Qed.

Lemma keys_after_update (st : Store) (row : Attendance.t) :
  distinct_keys st -> distinct_keys (put_row st row).
Proof.
  unfold distinct_keys. intros Hkeys. cbn. rewrite map_map.
  rewrite (map_ext_in _ Attendance.id); [exact Hkeys |].
  intros r _. unfold has_id. destruct (Nat.eqb (Attendance.id r) (Attendance.id row)) eqn:E;
    [| reflexivity].
  apply Nat.eqb_eq in E. now symmetry.
Qed.

Lemma scan_keeps_keys_distinct employeeId now st out st' :
  distinct_keys st ->
  recordAttendance tz getEmployeeRoster violates employeeId now st = (out, st') ->
  distinct_keys st'.
Proof.
  intros Hkeys H. destruct out as [x | res].
  - apply recordAttendance_failure in H. now subst st'.
  - pose proof (recordAttendance_written _ _ _ _ _ _ _ _ H)
      as (roster & existing & status & ml & ed & eh & _ & _ & Hshape).
    destruct (action res) eqn:Ha.
    + destruct (scan_appends_fresh_row _ _ _ _ _ _ _ _ H (or_introl Ha))
        as (-> & Hfresh & _).
      now apply keys_after_append.
    + destruct Hshape as (prior & old & _ & _ & _ & _ & ->). now apply keys_after_update.
    + destruct (scan_appends_fresh_row _ _ _ _ _ _ _ _ H (or_intror Ha))
        as (-> & Hfresh & _).
      now apply keys_after_append.
    + destruct Hshape as (prior & old & _ & _ & _ & _ & ->). now apply keys_after_update.
    + contradiction.
Qed.

Lemma scan_frame employeeId now st out st' :
  distinct_keys st ->
  recordAttendance tz getEmployeeRoster violates employeeId now st = (out, st') ->
  employees st' = employees st
  /\ outage st' = outage st
  /\ (List.length (attendance st) <= List.length (attendance st'))%nat
  /\ forall r, In r (attendance st) ->
               Query.of_day employeeId (Clock.isoDate now) r = false ->
               In r (attendance st').
Proof.
  intros Hkeys H. destruct out as [x | res].
  - apply recordAttendance_failure in H. subst st'. repeat split; auto.
  - apply recordAttendance_written in H.
    destruct H as (roster & existing & status & ml & ed & eh & Hrec & Hstep & Hshape).
    assert (Happend : forall row, let st1 := add_row st row in
              employees st1 = employees st /\ outage st1 = outage st
              /\ (List.length (attendance st) <= List.length (attendance st1))%nat
              /\ forall r, In r (attendance st) ->
                           Query.of_day employeeId (Clock.isoDate now) r = false ->
                           In r (attendance st1)).
    { intros row. cbn. repeat split.
      - rewrite length_app. lia.
      - intros r Hin _. apply in_or_app. now left. }
    assert (Hupdate : forall prior row,
              existing = Some prior -> Attendance.id row = Attendance.id prior ->
              let st1 := put_row st row in
              employees st1 = employees st /\ outage st1 = outage st
              /\ (List.length (attendance st) <= List.length (attendance st1))%nat
              /\ forall r, In r (attendance st) ->
                           Query.of_day employeeId (Clock.isoDate now) r = false ->
                           In r (attendance st1)).
    { intros prior row -> Hid. cbn. repeat split.
      - rewrite length_map. lia.
      - intros r Hin Hday.
        destruct (attendance_of_day_found _ _ _ _ Hrec) as [Hprior Hpday].
        assert (Hne : has_id (Attendance.id row) r = false).
        { unfold has_id. apply Nat.eqb_neq. intros E. rewrite Hid in E.
          pose proof (same_key_same_row _ _ _ Hkeys Hin Hprior E) as ->.
          rewrite Hpday in Hday. discriminate. }
        apply in_map with (f := fun r0 => if has_id (Attendance.id row) r0 then row else r0)
          in Hin.
        rewrite Hne in Hin. exact Hin. }
    destruct (action res).
    + destruct Hshape as (_ & _ & ->). apply Happend.
    + destruct Hshape as (prior & old & Hex & _ & Hid & Hrow & ->).
      apply (Hupdate prior); [exact Hex | rewrite Hrow; exact Hid].
    + destruct Hshape as (prior & _ & _ & _ & ->). apply Happend.
    + destruct Hshape as (prior & old & Hex & _ & Hid & Hrow & ->).
      apply (Hupdate prior); [exact Hex | rewrite Hrow; exact Hid].
    + contradiction.
Qed.

(** X22. A call of the recorder, whatever its outcome, leaves the
    employees as they were, removes no row, keeps the keys of a table
    distinct, and - in a table with distinct keys - leaves in place every
    row that is not the scanned employee's row of the day. *)
Theorem X22_scan_touches_one_row employeeId now st out st' :
  distinct_keys st ->
  recordAttendance tz getEmployeeRoster violates employeeId now st = (out, st') ->
  employees st' = employees st
  /\ outage st' = outage st
  /\ distinct_keys st'
  /\ (List.length (attendance st) <= List.length (attendance st'))%nat
  /\ forall r, In r (attendance st) ->
               Query.of_day employeeId (Clock.isoDate now) r = false ->
               In r (attendance st').
Proof.
  intros Hkeys H.
  destruct (scan_frame _ _ _ _ _ Hkeys H) as (He & Ho & Hlen & Hkept).
  pose proof (scan_keeps_keys_distinct _ _ _ _ _ Hkeys H) as Hdistinct.
  repeat split; assumption.
Qed.

(** X23. The checks of the recorder come in a fixed order, each with its
    own message, and none of them writes: an employee lookup that errs
    or finds no single row (none, or several with the id) gives
    'Employee not found or invalid employee ID'; then a status other
    than 'active' gives 'Employee is not active in the system'; then a
    missing roster, or one with an empty id, gives 'No valid roster
    found for employee', and an exception of the roster lookup comes
    out as an [AttendanceError] with the same message; then an error of
    the day's lookup - as when the employee has several rows for the
    day - gives 'Failed to check existing attendance'. *)
Theorem X23_checks_in_order employeeId now st :
  (forall data error,
      Query.employee_by_id employeeId st = Pg.Resolved data error ->
      error <> None \/ data = None ->
      recordAttendance tz getEmployeeRoster violates employeeId now st
      = (inl (AttendanceError "Employee not found or invalid employee ID"), st))
  /\ (forall employee,
         Query.employee_by_id employeeId st = Pg.Resolved (Some employee) None ->
         String.eqb (Employee.status employee) "active" = false ->
         recordAttendance tz getEmployeeRoster violates employeeId now st
         = (inl (AttendanceError "Employee is not active in the system"), st))
  /\ (forall employee,
         Query.employee_by_id employeeId st = Pg.Resolved (Some employee) None ->
         Employee.status employee = "active" ->
         (getEmployeeRoster employeeId st = inr None
          \/ exists roster, getEmployeeRoster employeeId st = inr (Some roster)
                            /\ Roster.id roster = "") ->
         recordAttendance tz getEmployeeRoster violates employeeId now st
         = (inl (AttendanceError "No valid roster found for employee"), st))
  /\ (forall employee x,
         Query.employee_by_id employeeId st = Pg.Resolved (Some employee) None ->
         Employee.status employee = "active" ->
         getEmployeeRoster employeeId st = inl x ->
         recordAttendance tz getEmployeeRoster violates employeeId now st
         = (inl (AttendanceError (exn_message x)), st))
  /\ (forall employee roster data error,
         Query.employee_by_id employeeId st = Pg.Resolved (Some employee) None ->
         Employee.status employee = "active" ->
         getEmployeeRoster employeeId st = inr (Some roster) ->
         String.eqb (Roster.id roster) "" = false ->
         Query.attendance_of_day employeeId (Clock.isoDate now) st
         = Pg.Resolved data (Some error) ->
         recordAttendance tz getEmployeeRoster violates employeeId now st
         = (inl (AttendanceError "Failed to check existing attendance"), st)).
Proof.
  unfold recordAttendance, tryCatch, bind, await, await_roster, throw.
  split; [| split; [| split; [| split]]].
  - intros data error Hemp Hbad. rewrite Hemp.
    destruct data as [employee|], error as [e|]; try reflexivity.
    destruct Hbad as [Hbad | Hbad]; [now elim Hbad | discriminate].
  - intros employee Hemp Hact. rewrite Hemp, Hact. reflexivity.
  - intros employee Hemp Hact Hros. rewrite Hemp, Hact. simpl.
    destruct Hros as [Hros | (roster & Hros & Hid)]; rewrite Hros; [reflexivity |].
    rewrite Hid. reflexivity.
  - intros employee x Hemp Hact Hros. rewrite Hemp, Hact. simpl. rewrite Hros.
    destruct x; reflexivity.
  - intros employee roster data error Hemp Hact Hros Hrid Hrec.
    rewrite Hemp, Hact. simpl. rewrite Hros, Hrid, Hrec. reflexivity.
Qed.

End RecorderFrame.

Lemma X22_scan_touches_one_row_witness :
  let run := recordAttendance Clock.utc Sample.rosters Sample.unconstrained "e0"
               (Sample.nine_ten + Sample.minute) Sample.ten_staff in
  In (Sample.row 5 "e4" (Some (Sample.nine_ten - 20 * Sample.minute))
        (Some (Sample.nine_ten + 100 * Sample.minute))
        (Some (Sample.nine_ten + 160 * Sample.minute))
        (Some (Sample.nine_ten + 400 * Sample.minute)) None None (Some 0))
     (attendance (snd run)).
Proof.
  cbv zeta.
  destruct (recordAttendance Clock.utc Sample.rosters Sample.unconstrained "e0"
              (Sample.nine_ten + Sample.minute) Sample.ten_staff) as [out st'] eqn:Hrun.
  assert (Hkeys : distinct_keys Sample.ten_staff).
  { unfold distinct_keys. cbn. repeat constructor; cbn; intuition discriminate. }
  destruct (X22_scan_touches_one_row Clock.utc Sample.rosters Sample.unconstrained "e0"
              (Sample.nine_ten + Sample.minute) Sample.ten_staff out st' Hkeys Hrun)
    as (_ & _ & _ & _ & Hkept).
  apply Hkept; [| reflexivity]. cbn. tauto.
Defined.

Lemma X23_checks_in_order_witness :
  recordAttendance Clock.utc Sample.rosters Sample.unconstrained "nobody" Sample.nine_ten
    Sample.morning
  = (inl (AttendanceError "Employee not found or invalid employee ID"), Sample.morning).
Proof.
  destruct (X23_checks_in_order Clock.utc Sample.rosters Sample.unconstrained "nobody"
              Sample.nine_ten Sample.morning) as (Hfirst & _).
  apply (Hfirst None (Some Pg.not_one_row)); [reflexivity | left; discriminate].
Defined.

(** ** Worked hours *)

Lemma Qmax0_monotone (a b : Z) :
  a <= b -> (Qmax0 (inject_Z a / 60) <= Qmax0 (inject_Z b / 60))%Q.
Proof.
  intros Hab. destruct (Z.le_gt_cases b 0) as [Hb | Hb].
  - rewrite (Qmax0_nonpos a) by lia. rewrite (Qmax0_nonpos b) by lia. apply Qle_refl.
  - destruct (Z.le_gt_cases a 0) as [Ha | Ha].
    + rewrite (Qmax0_nonpos a) by lia. apply Qmax0_nonneg.
    + rewrite (Qmax0_nonneg_arg a) by lia. rewrite (Qmax0_nonneg_arg b) by lia.
      unfold Qle, Qdiv, Qmult, Qinv, inject_Z; simpl. lia.
Qed.

(** X24. [calculateActualHours] is never negative; it is 0 for a record
    without a first check-in, whatever its other columns; it depends on
    the current time only while the second session is open, and then a
    later current time never gives fewer hours. *)
Theorem X24_actual_hours_and_the_clock (record : Sessions) (breakDuration : Z) :
  (forall now, 0 <= calculateActualHours (Some record) now breakDuration)%Q
  /\ (s_first_check_in_time record = None ->
      forall now, calculateActualHours (Some record) now breakDuration = 0%Q)
  /\ (s_second_check_in_time record = None
      \/ JS.truthy (s_second_check_out_time record) = true ->
      forall now later,
        calculateActualHours (Some record) now breakDuration
        = calculateActualHours (Some record) later breakDuration)
  /\ (forall now later,
         now <= later ->
         (calculateActualHours (Some record) now breakDuration
          <= calculateActualHours (Some record) later breakDuration)%Q).
Proof.
  split; [intros now; apply calculateActualHours_nonneg |].
  split; [intros H now; unfold calculateActualHours; rewrite H; reflexivity |].
  split.
  - intros Hclosed now later. unfold calculateActualHours.
    destruct (s_first_check_in_time record); [| reflexivity].
    destruct Hclosed as [-> | Hset]; [reflexivity |].
    destruct (s_second_check_in_time record); [| reflexivity].
    destruct (s_second_check_out_time record); [reflexivity | discriminate].
  - intros now later Hle. unfold calculateActualHours.
    destruct (s_first_check_in_time record) as [ci1|]; [| apply Qle_refl].
    cbv zeta.
    destruct (s_second_check_in_time record) as [ci2|]; [| apply Qle_refl].
    destruct (s_second_check_out_time record) as [co2|]; [apply Qle_refl |].
    apply Qmax0_monotone. apply Z.sub_le_mono_r. apply Z.add_le_mono_l.
    apply Z.div_le_mono; lia.
Qed.

Lemma X24_actual_hours_and_the_clock_witness :
  calculateActualHours (Some (mkSessions None None (Some 0) None)) 7200000 0 = 0%Q.
Proof.
  destruct (X24_actual_hours_and_the_clock (mkSessions None None (Some 0) None) 0)
    as (_ & Hzero & _).
  exact (Hzero eq_refl 7200000).
Defined.

Section DayOfScans.

Variable tz : Clock.Zone.
Variable getEmployeeRoster : string -> Store -> Exn + option Roster.t.
Variable violates : list Attendance.t -> Attendance.t -> option Pg.PgError.

Lemma keys_below_fresh (st : Store) :
  keys_below st -> existsb (has_id (next_id st)) (attendance st) = false.
Proof.
  intros Hbelow. apply not_true_iff_false. intros Hex.
  apply existsb_exists in Hex. destruct Hex as (r & Hin & Hid).
  unfold has_id in Hid. apply Nat.eqb_eq in Hid.
  specialize (Hbelow r Hin). lia.
Qed.

Lemma keys_below_append (st : Store) (row : Attendance.t) :
  keys_below st -> Attendance.id row = next_id st -> keys_below (add_row st row).
Proof.
  unfold keys_below. intros Hbelow Hid r Hin. cbn in *.
  apply in_app_or in Hin. destruct Hin as [Hin | [<- | []]].
  - specialize (Hbelow r Hin). lia.
  - lia.
Qed.

Lemma keys_below_update (st : Store) (row : Attendance.t) :
  keys_below st -> keys_below (put_row st row).
Proof.
  unfold keys_below. intros Hbelow r Hin. cbn in *.
  apply in_map_iff in Hin. destruct Hin as (r0 & Hr & Hin0).
  specialize (Hbelow r0 Hin0).
  unfold has_id in Hr. destruct (Nat.eqb (Attendance.id r0) (Attendance.id row)) eqn:E.
  - apply Nat.eqb_eq in E. subst r. lia.
  - now subst r.
Qed.

Lemma scan_keeps_keys_below employeeId now st out st' :
  keys_below st ->
  recordAttendance tz getEmployeeRoster violates employeeId now st = (out, st') ->
  keys_below st'.
Proof.
  intros Hbelow H. destruct out as [x | res].
  - apply recordAttendance_failure in H. now subst st'.
  - apply recordAttendance_written in H.
    destruct H as (roster & existing & status & ml & ed & eh & _ & _ & Hshape).
    destruct (action res).
    + destruct Hshape as (_ & Hrow & ->).
      apply keys_below_append; [exact Hbelow | now rewrite Hrow].
    + destruct Hshape as (prior & old & _ & _ & _ & _ & ->). now apply keys_below_update.
    + destruct Hshape as (prior & _ & Hrow & _ & ->).
      apply keys_below_append; [exact Hbelow | now rewrite Hrow].
    + destruct Hshape as (prior & old & _ & _ & _ & _ & ->). now apply keys_below_update.
    + contradiction.
Qed.

(** A successful scan leaves the employee lookup as it was. *)
Lemma scan_keeps_employee employeeId now st out st' :
  distinct_keys st ->
  recordAttendance tz getEmployeeRoster violates employeeId now st = (out, st') ->
  Query.employee_by_id employeeId st' = Query.employee_by_id employeeId st.
Proof.
  intros Hkeys H.
  destruct (scan_frame tz getEmployeeRoster violates _ _ _ _ _ Hkeys H) as (He & Ho & _).
  unfold Query.employee_by_id, Query.answer. now rewrite He, Ho.
Qed.

(** X25. A day of scans.  An active employee with an assigned roster and
    no row for the day presents the badge at four instants of the same
    UTC day, the first three in strictly increasing order, to a healthy
    table that accepts every row, has distinct keys and hands out keys
    above all of them: the first three calls succeed as
    [first_check_in], [first_check_out] and [second_check_in]; the
    fourth fails with 'Failed to check existing attendance', whatever
    its instant, because the day now has two rows.  The day's second
    check-out is never recorded. *)
Theorem X25_a_day_of_scans employeeId employee roster st t1 t2 t3 t4 :
  Query.employee_by_id employeeId st = Pg.Resolved (Some employee) None ->
  Employee.status employee = "active" ->
  (forall s, getEmployeeRoster employeeId s = inr (Some roster)) ->
  String.eqb (Roster.id roster) "" = false ->
  Query.attendance_of_day employeeId (Clock.isoDate t1) st = Pg.Resolved None None ->
  (forall table row, violates table row = None) ->
  distinct_keys st ->
  keys_below st ->
  t1 < t2 -> t2 < t3 ->
  Clock.isoDate t2 = Clock.isoDate t1 ->
  Clock.isoDate t3 = Clock.isoDate t1 ->
  Clock.isoDate t4 = Clock.isoDate t1 ->
  exists r1 r2 r3 st',
    scans tz getEmployeeRoster violates
      [(employeeId, t1); (employeeId, t2); (employeeId, t3); (employeeId, t4)] st
    = ([inr r1; inr r2; inr r3;
        inl (AttendanceError "Failed to check existing attendance")], st')
    /\ action r1 = first_check_in
    /\ action r2 = first_check_out
    /\ action r3 = second_check_in
    /\ Attendance.first_check_in_time (stored r2) = Some t1
    /\ Attendance.first_check_out_time (stored r2) = Some t2
    /\ Attendance.first_check_in_time (stored r3) = Some t3
    /\ Attendance.is_second_session (stored r3) = true
    /\ attendance st' = (map (fun r => if has_id (Attendance.id (stored r2)) r
                                        then stored r2 else r)
                             (attendance st ++ [stored r1]) ++ [stored r3])%list.
Proof.
  intros Hemp Hact Hros Hrid Hnone Hfree Hkeys Hbelow H12 H23 Hd2 Hd3 Hd4.
  (* first scan *)
  destruct (write_goes_through tz getEmployeeRoster violates employeeId t1 st
              employee roster None first_check_in "CHECKED_IN"
              Hemp Hact (Hros st) Hrid Hnone eq_refl eq_refl Hfree
              (keys_below_fresh st Hbelow)) as (r1 & st1 & Hrun1 & Ha1).
  assert (Hnot1 : action r1 <> second_check_in) by (rewrite Ha1; discriminate).
  pose proof (lookup_after_scan tz getEmployeeRoster violates _ _ _ _ _
                Hrun1 Hnot1 Hkeys) as Hlook1.
  pose proof (scan_keeps_keys_distinct tz getEmployeeRoster violates _ _ _ _ _
                Hkeys Hrun1) as Hkeys1.
  pose proof (scan_keeps_keys_below _ _ _ _ _ Hbelow Hrun1) as Hbelow1.
  pose proof (scan_keeps_employee _ _ _ _ _ Hkeys Hrun1) as Hemp1.
  rewrite Hemp in Hemp1.
  pose proof (recordAttendance_written _ _ _ _ _ _ _ _ Hrun1) as Hw1.
  destruct Hw1 as (ro1 & ex1 & s1 & ml1 & ed1 & eh1 & _ & _ & Hshape1).
  rewrite Ha1 in Hshape1. destruct Hshape1 as (_ & Hrow1 & Hst1).
  (* second scan *)
  rewrite <- Hd2 in Hlook1.
  assert (Hstep2 : nextStep (Some (stored r1)) = inr (first_check_out, "ON_BREAK")).
  { rewrite Hrow1. reflexivity. }
  assert (Hseq2 : checkSequence (Some (stored r1)) first_check_out t2 = None).
  { rewrite Hrow1. cbn. replace (t2 <=? t1) with false; [reflexivity |].
    symmetry. apply Z.leb_gt. exact H12. }
  destruct (write_goes_through tz getEmployeeRoster violates employeeId t2 st1
              employee roster (Some (stored r1)) first_check_out "ON_BREAK"
              Hemp1 Hact (Hros st1) Hrid Hlook1 Hstep2 Hseq2 Hfree
              (keys_below_fresh st1 Hbelow1)) as (r2 & st2 & Hrun2 & Ha2).
  assert (Hnot2 : action r2 <> second_check_in) by (rewrite Ha2; discriminate).
  pose proof (lookup_after_scan tz getEmployeeRoster violates _ _ _ _ _
                Hrun2 Hnot2 Hkeys1) as Hlook2.
  pose proof (scan_keeps_keys_distinct tz getEmployeeRoster violates _ _ _ _ _
                Hkeys1 Hrun2) as Hkeys2.
  pose proof (scan_keeps_keys_below _ _ _ _ _ Hbelow1 Hrun2) as Hbelow2.
  pose proof (scan_keeps_employee _ _ _ _ _ Hkeys1 Hrun2) as Hemp2.
  rewrite Hemp1 in Hemp2.
  pose proof (recordAttendance_written _ _ _ _ _ _ _ _ Hrun2) as Hw2.
  destruct Hw2 as (ro2 & ex2 & s2 & ml2 & ed2 & eh2 & Hrec2 & _ & Hshape2).
  rewrite Ha2 in Hshape2.
  destruct Hshape2 as (prior2 & old2 & Hex2 & _ & _ & Hrow2 & Hst2).
  rewrite Hlook1 in Hrec2. subst ex2.
  injection Hrec2 as Hprior2. subst prior2.
  assert (Hci2 : Attendance.first_check_in_time (stored r2) = Some t1).
  { rewrite Hrow2. cbn. rewrite Hrow1. reflexivity. }
  assert (Hco2 : Attendance.first_check_out_time (stored r2) = Some t2).
  { rewrite Hrow2. reflexivity. }
  assert (Hsi2 : Attendance.second_check_in_time (stored r2) = None).
  { rewrite Hrow2. cbn. rewrite Hrow1. reflexivity. }
  (* third scan *)
  rewrite Hd2, <- Hd3 in Hlook2.
  assert (Hstep3 : nextStep (Some (stored r2)) = inr (second_check_in, "CHECKED_IN")).
  { unfold nextStep. rewrite Hci2, Hco2, Hsi2. reflexivity. }
  assert (Hseq3 : checkSequence (Some (stored r2)) second_check_in t3 = None).
  { unfold checkSequence. rewrite Hco2. cbn.
    replace (t3 <=? t2) with false; [reflexivity |].
    symmetry. apply Z.leb_gt. exact H23. }
  destruct (write_goes_through tz getEmployeeRoster violates employeeId t3 st2
              employee roster (Some (stored r2)) second_check_in "CHECKED_IN"
              Hemp2 Hact (Hros st2) Hrid Hlook2 Hstep3 Hseq3 Hfree
              (keys_below_fresh st2 Hbelow2)) as (r3 & st3 & Hrun3 & Ha3).
  pose proof (lookup_after_second_session tz getEmployeeRoster violates _ _ _ _ _
                Hrun3 Ha3) as Hlook3.
  pose proof (scan_keeps_employee _ _ _ _ _ Hkeys2 Hrun3) as Hemp3.
  rewrite Hemp2 in Hemp3.
  pose proof (recordAttendance_written _ _ _ _ _ _ _ _ Hrun3) as Hw3.
  destruct Hw3 as (ro3 & ex3 & s3 & ml3 & ed3 & eh3 & _ & _ & Hshape3).
  rewrite Ha3 in Hshape3. destruct Hshape3 as (prior3 & _ & Hrow3 & _ & Hst3).
  (* fourth scan *)
  rewrite Hd3, <- Hd4 in Hlook3.
  assert (Hrun4 : recordAttendance tz getEmployeeRoster violates employeeId t4 st3
                  = (inl (AttendanceError "Failed to check existing attendance"), st3)).
  { unfold recordAttendance, tryCatch, bind, await, await_roster, throw.
    rewrite Hemp3, Hact. simpl. rewrite (Hros st3), Hrid, Hlook3. reflexivity. }
  exists r1, r2, r3, st3.
  split.
  { cbn [scans]. rewrite Hrun1, Hrun2, Hrun3, Hrun4. reflexivity. }
  repeat split; try assumption.
  - rewrite Hrow3. reflexivity.
  - rewrite Hrow3. reflexivity.
  - rewrite Hst3, Hst2, Hst1. reflexivity.
Qed.

End DayOfScans.

Lemma X25_a_day_of_scans_witness :
  exists r1 r2 r3 st',
    scans Clock.utc Sample.rosters Sample.unconstrained
      [("emp-1", Sample.nine_ten); ("emp-1", Sample.nine_ten + 180 * Sample.minute);
       ("emp-1", Sample.nine_ten + 240 * Sample.minute);
       ("emp-1", Sample.nine_ten + 480 * Sample.minute)] Sample.morning
    = ([inr r1; inr r2; inr r3;
        inl (AttendanceError "Failed to check existing attendance")], st')
    /\ action r1 = first_check_in
    /\ action r2 = first_check_out
    /\ action r3 = second_check_in
    /\ Attendance.first_check_in_time (stored r2) = Some Sample.nine_ten
    /\ Attendance.first_check_out_time (stored r2)
       = Some (Sample.nine_ten + 180 * Sample.minute)
    /\ Attendance.first_check_in_time (stored r3)
       = Some (Sample.nine_ten + 240 * Sample.minute)
    /\ Attendance.is_second_session (stored r3) = true
    /\ attendance st' = (map (fun r => if has_id (Attendance.id (stored r2)) r
                                        then stored r2 else r)
                             (attendance Sample.morning ++ [stored r1]) ++ [stored r3])%list.
Proof.
  apply (X25_a_day_of_scans Clock.utc Sample.rosters Sample.unconstrained "emp-1"
           Sample.ann Sample.day_shift Sample.morning).
  - reflexivity.
  - reflexivity.
  - intros s. reflexivity.
  - reflexivity.
  - reflexivity.
  - intros table row. reflexivity.
  - constructor.
  - intros r [].
  - vm_compute. reflexivity.
  - vm_compute. reflexivity.
  - reflexivity.
  - reflexivity.
  - reflexivity.
Defined.
